(* ===== verification/_CoqProject ===== *)
-Q . S2P
Prelude.v
PyStr.v
PyStrSpec.v
Setup.v
Sanitize.v
GitModel.v
Publisher.v
Generator.v
Deploy.v
Orchestrator.v
TestSetup.v
Bot.v
Wizard.v
Conversation.v
