(* ===== verification/Prelude.v ===== *)
(** * A verification library for the Gemini landing-page bot

    The program ([src/bot.py]) is a Telegram bot that collects a channel
    name, a logo, a page type and an optional footer from a user, asks the
    Gemini API for an HTML landing page, commits the page to a git working
    copy shared by all users, pushes it to GitHub on a branch derived from
    the channel name, and asks Netlify to deploy that branch.
    [src/setup.py] installs it (version and git checks, pip, a [.env] from
    [env.example]); [src/test_setup.py] checks an installation (imports,
    git, the four required variables).

    ** How the parts interact

    At import, bot.py reads its configuration and exits unless the four
    required values are set ([validate_config]).  Telegram updates reach
    the handlers [main] registers; the handlers read and write the
    sender's [context.user_data] and, when a session completes, run the
    pipeline ([create_landing_page_from_callback] or [..._from_message]):
    [setup_git_repo], [generate_page_html], write [index.html],
    [push_to_github], [deploy_to_netlify], and report.  Every handler is
    written in the state-and-exception monad [PyM] of this file: an
    exception that escapes a handler keeps the mutations made before it,
    as Python does.  The two scripts share nothing with the bot at run
    time; [setup.py] writes the [.env] the bot's configuration comes from,
    and [test_setup.py] checks the same four values as the bot, more
    strictly.

    ** Files, modules and what they model

    - [Prelude] (this file): the Python exceptions, [PyM] with its laws,
      the program logic [preserves]/[no_raise] (frame conditions and
      absence of exceptions, closed under bind, [zoom] and case analysis),
      the cost logic [costs] (how much a counter of the state grows), the
      tactics [program_logic] and [cost_logic] and the hint databases
      [bot] and [costs].
    - [PyStr]: the [str] methods the code calls ([lower], [strip],
      [startswith], [endswith], [in], [replace], slicing) on ASCII strings.
    - [PyStrSpec]: [str.replace] by well-founded recursion (Equations),
      the proof that the fuel of [PyStr.py_replace] is enough, and [in]
      stated as "occurs in".
    - [Setup] (Module [Setup]): every function of [setup.py] over a host
      record (version, git, pip, the files of the directory) and a trace
      of what it prints and runs.
    - [Sanitize] (Module [Sanitizer]): [sanitize_branch_name] (bot.py
      152-163) pass by pass, and the subdomain lines of [deploy_to_netlify]
      (207-209).
    - [GitModel] (Module [Git]): the environment git provides: commits,
      the local repository, the remote, the worktree files [index.html] and
      [logo.png], and a semantics for each command line the code runs
      (clone, pull that only fast-forwards, checkout with the two-tree
      rule, checkout -b, add, commit that refuses an empty change, push
      that refuses a non-fast-forward).  Not code of the repository; not
      mapped.  [GitEnv] is the network: which commands reach the remote.
    - [Publisher]: [run_git_command], [setup_git_repo], [push_to_github]
      (131-199) over [GitModel]; the state is the working copy [ws].
    - [Generator]: [get_system_prompt], [generate_page_html] (62-128); the
      endpoint's answer is a value of the class [GeminiEnv].
    - [Deploy]: [deploy_to_netlify] (201-248); the API is [NetlifyEnv].
    - [Orchestrator]: the import-time check [validate_config] (27-31) and
      [landing_flow], the pipeline body shared by the three copies of
      [create_landing_page] (555-614, 665-748, 789-872), over a [world] of
      working copy, requests and messages.
    - [TestSetup] (Module [TestSetup]): every function of
      [test_setup.py] over a host record (environment, imports, git).
    - [Bot]: [user_data] and the store [gmap Z user_data] of all users,
      each registered handler, the dispatch [handle] of [main] (875-892),
      [step_bot], [run_bot] and [reachable].
    - [Wizard]: the design's conversation state machine (specification,
      section 4.1) as [wizard_step], and the simulation relation [sim]
      between its sessions and the bot's dict and world.
    - [Conversation]: the handlers written for a [ConversationHandler]
      that [main] never registers ([generate], [get_channel_name],
      [get_page_type], [get_footer_choice], [get_footer_text],
      [create_landing_page], [cancel]), with their returned states.

    ** What the theorems show

    - Refinement and liveness ([Wizard]): for one user, along every
      accepted input sequence the handlers stay related to the design's
      machine, and a completing input runs the pipeline on exactly the
      collected fields; from any dict and world, five updates reach the
      pipeline with the fields they carry.
    - Invariants and safety ([Bot]): every dict of a reachable bot holds a
      stored state, a catalog page type and the shared logo path; a logo
      sent before the first clone leaves the working copy without a
      repository and the remote unchanged forever; the logo file is shared
      between users.
    - Session behaviour ([Bot], [Conversation]): cancel clears nothing,
      the footer state is never left, [footer_no] runs on an empty
      session, an invalid page type is refused at a second answer of the
      callback query (the Bot API answers a query once) and changes
      nothing; the unregistered
      handlers re-prompt on invalid input.
    - Publish protocol ([Publisher]): a successful push publishes the page
      on the sanitized branch and touches no other remote branch; a failed
      one leaves the remote unchanged; publishing again on the same branch
      fast-forwards it without adding a branch; republishing after another
      page (git refuses the checkout), identical content (nothing to
      commit), the substring branch test and the missing upstream after a
      failed first push make it fail; the clone URL carries the token as
      its userinfo.
    - Pipeline ([Orchestrator]): no git command after a failed setup or
      generation, the outcome after a push, the [KeyError] without page
      type, the raw branch name sent to Netlify, the dead token check, and
      the bounds of one run: at most seven git commands (a bound that is
      reached), one Gemini request and two Netlify requests.
    - Adapters ([Generator], [Deploy]) and sanitizers ([Sanitize]): one
      request, the error classification, the fence strip and its
      trailing-newline gap; the shape and (non-)idempotence of the names;
      the URL of the deploy.
    - Scripts ([Setup], [TestSetup]): when each exits with status 0, that
      pip runs only after the checks, that every diagnostic runs, and that
      the diagnostic accepts exactly the configurations the bot accepts
      without a template placeholder.

    ** Bounds, fuel and modelling choices

    The Telegram side is the update type, the messages sent and the rule
    that a callback query is answered once ([Bot.answer_query]).  Strings
    are ASCII ([Stdlib] [string]): the sanitizers' regular
    expressions are ASCII classes and [lower] is the identity outside
    [A-Z] there.  [py_replace] recurses with fuel [length s];
    [PyStrSpec.replace_fuel_enough] proves that any larger fuel gives the
    same result, since each step consumes at least one character.  Nothing
    else needs fuel: the handlers have no loops, the loops of the scripts
    run over fixed lists, [run_bot] recurses on the list of updates, and
    git commands are single steps.  Updates are handled one at a time, in
    order (the library's default sequential processing), so interleavings
    inside one handler are not modelled.  The costs are counted on the
    logs the model keeps: the command lines run in [ws_log], the requests
    sent to Gemini and to Netlify.

    ** Not modelled

    Message texts beyond their kind, keyboards, logging, the file
    download itself, [load_dotenv] and the printed text of the scripts
    (their output is a trace of event kinds).  Git, Gemini, Netlify and
    Telegram are environments, not code.  The dispatch of a
    [ConversationHandler] for the handlers of [Conversation] is not
    modelled because the code never builds one.

    ** Plan

    Two-user runs through the handlers are so far concrete scenarios
    ([Bot]: [republish_after_other_page_fails],
    [new_branch_built_on_previous_page]).  Later stages: their general
    statements over any two sessions, and the rejected-input self-loops
    of the design's machine. *)

From stdpp Require Export base list gmap strings.
From Stdlib Require Export String Ascii.

(** stdpp makes [String.append] opaque to [simpl]; the string functions
    of this development compute by structural recursion and are proved by
    [simpl], so [append] reduces again when its first argument is a
    constructor. *)
#[global] Arguments String.append : simpl nomatch.

Declare Scope py_scope.
Delimit Scope py_scope with py.

(** ** Python exceptions that escape a handler

    A Telegram handler that raises is aborted by the dispatcher; the
    mutations it made before the raise persist.  [PyM] keeps the state at
    the point of the raise for that reason. *)
Inductive py_exn :=
| KeyError (key : string)
| IndexError
| TypeError
| AttributeError (attr : string)
| NetworkError
| OSError
| BadRequest (reason : string).

Inductive res (A : Type) :=
| ROk (a : A)
| RExc (e : py_exn).
Arguments ROk {A} a.
Arguments RExc {A} e.

(** The state-and-exception monad of the handlers. *)
Definition PyM (S A : Type) : Type := S -> res A * S.

#[export] Instance pym_ret {S} : MRet (PyM S) := fun _ a s => (ROk a, s).
#[export] Instance pym_bind {S} : MBind (PyM S) :=
  fun _ _ f m s =>
    match m s with
    | (ROk a, s') => f a s'
    | (RExc e, s') => (RExc e, s')
    end.

Definition raise {S A} (e : py_exn) : PyM S A := fun s => (RExc e, s).
Definition get_st {S} : PyM S S := fun s => (ROk s, s).
Definition put_st {S} (s : S) : PyM S unit := fun _ => (ROk tt, s).
Definition modify_st {S} (f : S -> S) : PyM S unit := fun s => (ROk tt, f s).

(** Run a computation that cannot raise on a part of the state. *)
Definition zoom {S T A} (getter : S -> T) (setter : T -> S -> S)
  (m : PyM T A) : PyM S A :=
  fun s => let '(r, t') := m (getter s) in (r, setter t' s).

(** ** Laws of the monad *)
Section MonadLaws.
Context {S A B : Type}.

Lemma bind_run_ok (m : PyM S A) (f : A -> PyM S B) s a s' :
  m s = (ROk a, s') -> (m ≫= f) s = f a s'.
Proof. intros H. unfold mbind, pym_bind. by rewrite H. Qed.

Lemma bind_run_exc (m : PyM S A) (f : A -> PyM S B) s e s' :
  m s = (RExc e, s') -> (m ≫= f) s = (RExc e, s').
Proof. intros H. unfold mbind, pym_bind. by rewrite H. Qed.

Lemma ret_bind (a : A) (f : A -> PyM S B) s : (mret a ≫= f) s = f a s.
Proof. reflexivity. Qed.
End MonadLaws.

(** ** Automation shared by the components *)
Create HintDb bot discriminated.
Create Rewrite HintDb bot_rw.

(** Unfold one step of the monad in the goal. *)
Ltac pym_simpl :=
  unfold mbind, pym_bind, mret, pym_ret, raise, get_st, put_st, modify_st, zoom in *;
  cbv beta iota in *.

(** Case analysis on every boolean test and match that blocks reduction. *)
Ltac case_blocking :=
  repeat match goal with
         | |- context [match ?x with _ => _ end] =>
             lazymatch x with
             | context [match _ with _ => _ end] => fail
             | _ => destruct x eqn:?
             end
         end.

(** Close [l = r] where [r] may hold existential variables: evaluate the
    closed left-hand side and unify.  The witnesses run the handlers this
    way on concrete inputs. *)
Ltac run_lhs :=
  match goal with
  | |- ?l = _ => let v := eval vm_compute in l in change l with v
  end; reflexivity.

(** A statement about one character, decided by its 256 values: used for
    the character-class facts, each of which is a finite table. *)
Ltac ascii_cases :=
  let c := fresh "c" in
  intros c; destruct c as [[] [] [] [] [] [] [] []]; vm_compute;
  first [reflexivity | intros; congruence | tauto].

(** ** A small program logic for [PyM]

    [preserves R m]: every run of [m] relates its initial and final states
    by the preorder [R] (frame conditions: "this handler does not touch
    that part of the state").  [no_raise m]: [m] never raises.  Both are
    closed under [mret], [≫=] and case analysis, so a property of a whole
    handler follows from the properties of the calls it makes. *)
Section ProgramLogic.
Context {S : Type}.

Definition preserves {A} (R : S -> S -> Prop) (m : PyM S A) : Prop :=
  forall s, R s (snd (m s)).

Definition no_raise {A} (m : PyM S A) : Prop :=
  forall s, exists a, fst (m s) = ROk a.

Context (R : S -> S -> Prop) `{!PreOrder R}.

Lemma preserves_ret {A} (a : A) : preserves R (mret a).
Proof. intros s. simpl. reflexivity. Qed.

Lemma preserves_get : preserves R get_st.
Proof. intros s. simpl. reflexivity. Qed.

Lemma preserves_bind {A B} (m : PyM S A) (f : A -> PyM S B) :
  preserves R m -> (forall a, preserves R (f a)) -> preserves R (m ≫= f).
Proof.
  intros Hm Hf s. specialize (Hm s). unfold mbind, pym_bind.
  destruct (m s) as [[a|e] s'] eqn:E; simpl in *; [|done].
  etrans; [exact Hm|apply Hf].
Qed.

Lemma no_raise_ret {A} (a : A) : no_raise (mret a).
Proof. intros s. by exists a. Qed.

Lemma no_raise_get : no_raise get_st.
Proof. intros s. by exists s. Qed.

Lemma no_raise_bind {A B} (m : PyM S A) (f : A -> PyM S B) :
  no_raise m -> (forall a, no_raise (f a)) -> no_raise (m ≫= f).
Proof.
  intros Hm Hf s. destruct (Hm s) as [a Ha]. unfold mbind, pym_bind.
  destruct (m s) as [r s'] eqn:E. simpl in Ha. subst r. apply Hf.
Qed.
Lemma preserves_raise {A} e : preserves R (raise (A:=A) e).
Proof. intros s. simpl. reflexivity. Qed.

Lemma preserves_modify f : (forall s, R s (f s)) -> preserves R (modify_st f).
Proof. intros Hf s. apply Hf. Qed.
End ProgramLogic.

(** A relation on a part [g] of the state. *)
Definition on_part {S T} (g : S -> T) (R : T -> T -> Prop) : S -> S -> Prop :=
  fun s s' => R (g s) (g s').

#[export] Instance on_part_preorder {S T} (g : S -> T) R `{!PreOrder R} :
  PreOrder (on_part g R).
Proof. split; [intros s; unfold on_part; reflexivity|intros ???; unfold on_part; etrans; eauto]. Qed.

(** [P] holds after whenever it held before: the relation of an invariant. *)
Definition keeps {S} (P : S -> Prop) : S -> S -> Prop := fun s s' => P s -> P s'.

#[export] Instance keeps_preorder {S} (P : S -> Prop) : PreOrder (keeps P).
Proof. split; [intros s Hs; exact Hs|intros s1 s2 s3 H12 H23 H; auto]. Qed.

Section Frames.
Context {S T : Type} (g : S -> T) (R : T -> T -> Prop) `{!PreOrder R}.

(** A computation that leaves the part [g] alone preserves every
    reflexive relation on it. *)
Lemma preserves_frame {A} (m : PyM S A) :
  (forall s, g (snd (m s)) = g s) -> preserves (on_part g R) m.
Proof. intros Hm s. unfold on_part. rewrite Hm. reflexivity. Qed.

(** A computation run on the part [g] through [zoom]. *)
Lemma preserves_zoom_in {A} (set : T -> S -> S) (m : PyM T A) :
  (forall t s, g (set t s) = t) -> preserves R m -> preserves (on_part g R) (zoom g set m).
Proof.
  intros Hset Hm s. unfold on_part, zoom. specialize (Hm (g s)).
  destruct (m (g s)) as [r t']. simpl in *. by rewrite Hset.
Qed.

(** A computation run through [zoom] on another part. *)
Lemma zoom_frame {U A} (get : S -> U) (set : U -> S -> S) (m : PyM U A) s :
  (forall u s, g (set u s) = g s) -> g (snd (zoom get set m s)) = g s.
Proof. intros Hset. unfold zoom. destruct (m (get s)). apply Hset. Qed.
End Frames.

#[export] Hint Resolve preserves_ret preserves_get preserves_raise no_raise_ret no_raise_get : bot.
#[export] Hint Extern 1 (PreOrder _) => apply _ : bot.

(** Decompose a handler into its calls: binds, returns, and the case
    analyses of the code's conditions. *)
Ltac program_logic :=
  repeat first
    [ apply preserves_bind; [..|intros ?]
    | apply no_raise_bind; [..|intros ?]
    | progress eauto with bot
    | match goal with
      | |- PreOrder _ => apply _
      end
    | match goal with
      | |- preserves _ (if ?b then _ else _) => destruct b
      | |- no_raise (if ?b then _ else _) => destruct b
      | |- preserves _ (match ?x with _ => _ end) => destruct x
      | |- no_raise (match ?x with _ => _ end) => destruct x
      end ].

(** ** A cost logic

    [costs f n m]: running [m] raises the counter [f] of the state (the
    git commands run, the requests sent) by at most [n], whether [m]
    returns or raises.  Costs add up along [≫=] and take the larger branch
    at a test, so a bound on a handler follows from the bounds of its
    calls. *)
Create HintDb costs discriminated.

Section Costs.
Context {S : Type} (f : S -> nat).

Definition costs {A} (n : nat) (m : PyM S A) : Prop :=
  forall s, f (snd (m s)) <= f s + n.

Lemma costs_weaken {A} n n' (m : PyM S A) : costs n m -> n <= n' -> costs n' m.
Proof. intros Hm Hn s. specialize (Hm s). lia. Qed.

Lemma costs_frame {A} (m : PyM S A) : (forall s, f (snd (m s)) = f s) -> costs 0 m.
Proof. intros Hm s. rewrite Hm. lia. Qed.

Lemma costs_ret {A} (a : A) : costs 0 (mret a).
Proof. apply costs_frame. done. Qed.

Lemma costs_raise {A} e : costs 0 (raise (A:=A) e).
Proof. apply costs_frame. done. Qed.

Lemma costs_get : costs 0 get_st.
Proof. apply costs_frame. done. Qed.

Lemma costs_bind {A B} n1 n2 (m : PyM S A) (k : A -> PyM S B) :
  costs n1 m -> (forall a, costs n2 (k a)) -> costs (n1 + n2) (m ≫= k).
Proof.
  intros Hm Hk s. specialize (Hm s). unfold mbind, pym_bind.
  destruct (m s) as [[a|e] s'] eqn:E; simpl in *; [specialize (Hk a s')|]; lia.
Qed.

(** The bind rule against a fixed budget [n]: the rest runs on what the
    first call left. *)
Lemma costs_bind_le {A B} n n1 (m : PyM S A) (k : A -> PyM S B) :
  costs n1 m -> (forall a, costs (n - n1) (k a)) -> n1 <= n -> costs n (m ≫= k).
Proof.
  intros Hm Hk Hn. eapply costs_weaken; [by apply costs_bind|]. lia.
Qed.

Lemma costs_if {A} (b : bool) n1 n2 (x y : PyM S A) :
  costs n1 x -> costs n2 y -> costs (Nat.max n1 n2) (if b then x else y).
Proof. intros Hx Hy. destruct b; (eapply costs_weaken; [eassumption|lia]). Qed.
End Costs.

(** A computation run on a part of the state costs what it costs there. *)
Lemma costs_zoom {S T A} (f : T -> nat) (get : S -> T) set (m : PyM T A) n :
  (forall t s, get (set t s) = t) -> costs f n m -> costs (fun s => f (get s)) n (zoom get set m).
Proof.
  intros Hset Hm s. unfold zoom. specialize (Hm (get s)).
  destruct (m (get s)) as [r t']. simpl in *. by rewrite Hset.
Qed.

#[export] Hint Resolve costs_ret costs_raise costs_get : costs.

(** Bound a computation: a fixed budget is split along [≫=] (the first
    call's cost is inferred) and checked in each branch; an open budget is
    inferred as a sum and a maximum. *)
Ltac cost_leaf :=
  first [ solve [eauto with costs] | eapply costs_weaken; [solve [eauto with costs] | lia] ].

Ltac cost_logic :=
  lazymatch goal with
  | |- costs _ ?n (mbind _ _) =>
      tryif is_evar n
      then (eapply costs_bind; [cost_logic | intros ?; cost_logic])
      else (eapply costs_bind_le; [cost_logic | intros ?; cost_logic | lia])
  | |- costs _ ?n (if ?b then _ else _) =>
      tryif is_evar n then (apply costs_if; cost_logic) else (destruct b; cost_logic)
  | |- costs _ _ (match ?x with _ => _ end) => destruct x; cost_logic
  | |- costs _ _ (let _ := _ in _) => cbv zeta; cost_logic
  | |- _ => cost_leaf
  end.
