(* ===== verification/PyStr.v ===== *)
(** * Python [str] operations used by the bot

    The program handles text with the [str] methods [lower], [strip],
    [startswith], [endswith], the operator [in], [replace], slicing and
    f-string interpolation of [None].  They are modelled here on Rocq
    strings, whose characters are bytes; the model covers the inputs whose
    characters are ASCII code points (for those, each method below computes
    what CPython computes).  Character classes are boolean functions so
    that every definition of the development evaluates. *)

From S2P Require Import Prelude.

Local Open Scope string_scope.

(** ** Character classes *)
Definition char_between (lo hi c : ascii) : bool :=
  Nat.leb (nat_of_ascii lo) (nat_of_ascii c) && Nat.leb (nat_of_ascii c) (nat_of_ascii hi).

Definition is_upper (c : ascii) : bool := char_between "A" "Z" c.
Definition is_lower (c : ascii) : bool := char_between "a" "z" c.
Definition is_digit (c : ascii) : bool := char_between "0" "9" c.

(** The regular-expression class [[a-zA-Z0-9]]. *)
Definition is_alnum (c : ascii) : bool := is_lower c || is_upper c || is_digit c.

(** [str.isspace] on ASCII: tab to carriage return, the four separators
    [\x1c]-[\x1f], and space. *)
Definition py_isspace (c : ascii) : bool :=
  let n := nat_of_ascii c in (Nat.leb 9 n && Nat.leb n 13) || (Nat.leb 28 n && Nat.leb n 32).

(** ** [str.lower] *)
Definition lower_char (c : ascii) : ascii :=
  if is_upper c then ascii_of_nat (nat_of_ascii c + 32) else c.

Fixpoint smap (f : ascii -> ascii) (s : string) : string :=
  match s with
  | EmptyString => EmptyString
  | String c r => String (f c) (smap f r)
  end.

Definition py_lower (s : string) : string := smap lower_char s.

(** ** [str.strip(chars)] and [str.strip()] *)
Fixpoint lstrip_by (p : ascii -> bool) (s : string) : string :=
  match s with
  | EmptyString => EmptyString
  | String c r => if p c then lstrip_by p r else s
  end.

Fixpoint rstrip_by (p : ascii -> bool) (s : string) : string :=
  match s with
  | EmptyString => EmptyString
  | String c r =>
      match rstrip_by p r with
      | EmptyString => if p c then EmptyString else String c EmptyString
      | r' => String c r'
      end
  end.

Definition strip_by (p : ascii -> bool) (s : string) : string :=
  rstrip_by p (lstrip_by p s).

Definition py_strip (s : string) : string := strip_by py_isspace s.

(** ** [startswith], [endswith], [in] *)
Definition startswith (s pre : string) : bool := String.prefix pre s.

Definition endswith (s suf : string) : bool :=
  let n := String.length s in
  let m := String.length suf in
  Nat.leb m n && String.eqb (substring (n - m) m s) suf.

(** [needle in hay]. *)
Fixpoint py_in (needle hay : string) : bool :=
  String.prefix needle hay ||
  match hay with
  | EmptyString => false
  | String _ r => py_in needle r
  end.

(** ** Slicing [s[a:b]] for indices [0 <= a] and [0 <= b] *)
Definition py_slice (s : string) (a b : nat) : string := substring a (b - a) s.

(** ** [str.replace(old, new)]: every non-overlapping occurrence, left to
    right; with an empty [old], [new] goes around every character. *)
Fixpoint replace_fuel (fuel : nat) (old new s : string) : string :=
  match fuel with
  | 0 => s
  | S fuel' =>
      match s with
      | EmptyString => EmptyString
      | String c r =>
          if String.prefix old s
          then new ++ replace_fuel fuel' old new
                        (substring (String.length old) (String.length s) s)
          else String c (replace_fuel fuel' old new r)
      end
  end.

Fixpoint interleave (sep s : string) : string :=
  match s with
  | EmptyString => EmptyString
  | String c r => String c (sep ++ interleave sep r)
  end.

Definition py_replace (s old new : string) : string :=
  if String.eqb old "" then new ++ interleave new s
  else replace_fuel (String.length s) old new s.

(** ** Every character satisfies [p] *)
Fixpoint str_forall (p : ascii -> bool) (s : string) : bool :=
  match s with
  | EmptyString => true
  | String c r => p c && str_forall p r
  end.

(** ** f-string interpolation of an [Optional[str]] *)
Definition py_fmt_opt (o : option string) : string :=
  match o with
  | Some s => s
  | None => "None"
  end.

(** Truthiness of an [Optional[str]]: [None] and [""] are false. *)
Definition py_truthy (o : option string) : bool :=
  match o with Some s => negb (String.eqb s "") | None => false end.

(** ** Lemmas shared by the components *)

Lemma smap_app f s t : smap f (s ++ t) = smap f s ++ smap f t.
Proof. induction s as [|c s IH]; simpl; congruence. Qed.

Lemma py_lower_app s t : py_lower (s ++ t) = py_lower s ++ py_lower t.
Proof. apply smap_app. Qed.

Lemma smap_id f s : (forall c, f c = c) -> smap f s = s.
Proof. intros Hf. induction s as [|c s IH]; simpl; [done|]. by rewrite Hf, IH. Qed.

Lemma string_app_nil_r (s : string) : s ++ "" = s.
Proof. induction s as [|c s IH]; simpl; congruence. Qed.

Lemma prefix_app_self (p s : string) : String.prefix p (p ++ s) = true.
Proof.
  induction p as [|c p IH]; simpl; [by destruct s|].
  destruct (ascii_dec c c); [exact IH|congruence].
Qed.

Lemma startswith_app (p s : string) : startswith (p ++ s) p = true.
Proof. apply prefix_app_self. Qed.

Lemma string_length_app (s t : string) :
  String.length (s ++ t) = String.length s + String.length t.
Proof. induction s as [|c s IH]; simpl; lia. Qed.

Lemma substring_app_r (s t : string) :
  substring (String.length s) (String.length t) (s ++ t) = t.
Proof.
  induction s as [|c s IH]; simpl; [|exact IH].
  induction t as [|c t IH]; simpl; congruence.
Qed.

Lemma substring_0_length (s : string) : substring 0 (String.length s) s = s.
Proof. induction s as [|c s IH]; simpl; congruence. Qed.

Lemma endswith_app (s suf : string) : endswith (s ++ suf) suf = true.
Proof.
  unfold endswith. rewrite string_length_app.
  replace (String.length s + String.length suf - String.length suf)
    with (String.length s) by lia.
  rewrite substring_app_r, String.eqb_refl. apply andb_true_intro. split; [|done].
  apply Nat.leb_le. lia.
Qed.

Lemma str_forall_app p s t :
  str_forall p (s ++ t) = str_forall p s && str_forall p t.
Proof. induction s as [|c s IH]; simpl; [done|]. by rewrite IH, andb_assoc. Qed.

Lemma str_forall_impl (p q : ascii -> bool) s :
  (forall c, p c = true -> q c = true) ->
  str_forall p s = true -> str_forall q s = true.
Proof.
  intros Hpq. induction s as [|c s IH]; simpl; [done|].
  rewrite !andb_true_iff. intros [Hc Hs]. auto.
Qed.

Lemma smap_id_on (f : ascii -> ascii) (p : ascii -> bool) s :
  (forall c, p c = true -> f c = c) -> str_forall p s = true -> smap f s = s.
Proof.
  intros Hf. induction s as [|c s IH]; simpl; [done|].
  rewrite andb_true_iff. intros [Hc Hs]. by rewrite Hf, IH.
Qed.

Lemma string_app_assoc (a b c : string) : (a ++ b) ++ c = a ++ (b ++ c).
Proof. induction a as [|x a IH]; simpl; congruence. Qed.

Lemma substring_app_mid (a b c : string) :
  substring (String.length a) (String.length b) (a ++ b ++ c) = b.
Proof.
  induction a as [|x a IH]; simpl; [|exact IH].
  induction b as [|y b IH]; simpl; [by destruct c|congruence].
Qed.

(** The last character, for arguments about suffixes. *)
Fixpoint last_char (s : string) : option ascii :=
  match s with
  | EmptyString => None
  | String c EmptyString => Some c
  | String _ r => last_char r
  end.

Lemma last_char_app (s t : string) :
  t <> EmptyString -> last_char (s ++ t) = last_char t.
Proof.
  intros Ht. induction s as [|c s IH]; [done|]. simpl. rewrite IH.
  by destruct s, t.
Qed.

Lemma substring_split k (s : string) :
  k <= String.length s ->
  s = substring 0 k s ++ substring k (String.length s - k) s.
Proof.
  revert k. induction s as [|c s IH]; intros k Hk; simpl in *.
  - by destruct k.
  - destruct k as [|k]; simpl; [by rewrite substring_0_length|].
    rewrite <- IH; [done|lia].
Qed.

Lemma endswith_spec (s suf : string) :
  endswith s suf = true -> exists p, s = p ++ suf.
Proof.
  unfold endswith. rewrite andb_true_iff, Nat.leb_le, String.eqb_eq.
  intros [Hle Hsub]. exists (substring 0 (String.length s - String.length suf) s).
  pose proof (substring_split (String.length s - String.length suf) s ltac:(lia)) as E.
  replace (String.length s - (String.length s - String.length suf))
    with (String.length suf) in E by lia.
  by rewrite Hsub in E.
Qed.

(** [needle in hay] finds a needle at the front, and anywhere after a
    prefix. *)
Lemma py_in_unfold (n h : string) :
  py_in n h = String.prefix n h || match h with EmptyString => false | String _ r => py_in n r end.
Proof. by destruct h. Qed.

Lemma py_in_front (n q : string) : py_in n (n ++ q) = true.
Proof. rewrite py_in_unfold, prefix_app_self. done. Qed.

Lemma py_in_app_r (n p q : string) : py_in n q = true -> py_in n (p ++ q) = true.
Proof.
  intros Hq. induction p as [|c p IH]; [done|]. simpl. rewrite IH. apply orb_true_r.
Qed.

#[export] Hint Resolve startswith_app endswith_app prefix_app_self py_in_front py_in_app_r : bot.
#[export] Hint Rewrite py_lower_app string_length_app string_app_nil_r : bot_rw.
