(* ===== verification/PyStrSpec.v ===== *)
(** * Reference specifications of the string operations

    [PyStr] computes [str.replace] with fuel ([replace_fuel], fuel
    [len(s)]) so that it is a plain structural [Fixpoint].  This file
    gives the operation a total definition by well-founded recursion on
    the length of the string ([str_replace], with Equations), proves that
    the fuel [len(s)] is always enough (more fuel changes nothing) and
    that [py_replace] is [str_replace] for every non-empty pattern, with
    the equations [Publisher] uses for the clone URL.  It also states
    [needle in hay] declaratively: [py_in] holds exactly when the needle
    occurs in the haystack, the fact the branch-exists test of
    [push_to_github] relies on. *)

From S2P Require Import Prelude PyStr.
From Equations Require Import Equations.

Local Open Scope string_scope.

Lemma substring_length_le n m s : String.length (substring n m s) <= String.length s.
Proof.
  revert n m. induction s as [|c s IH]; intros [|n] [|m]; simpl; auto with arith.
  all: try (specialize (IH 0 m); lia); try (specialize (IH n (S m)); lia).
  all: try (specialize (IH n m); lia); try (specialize (IH n 0); lia).
Qed.

(** [s.replace(old, new)] for [old = o :: os], scanning left to right:
    each recursive call is on a strictly shorter suffix. *)
Equations? str_replace (o : ascii) (os new s : string) : string by wf (String.length s) lt :=
  str_replace o os new EmptyString := EmptyString;
  str_replace o os new (String c r) with String.prefix (String o os) (String c r) => {
    | true := new ++ str_replace o os new
                 (substring (String.length (String o os)) (String.length (String c r)) (String c r));
    | false := String c (str_replace o os new r) }.
Proof.
  all: simpl; try lia.
  pose proof (substring_length_le (String.length os) (S (String.length r)) r). lia.
Qed.

(** Any fuel at least the length of the string computes the reference. *)
Lemma replace_fuel_ref fuel o os new s :
  String.length s <= fuel -> replace_fuel fuel (String o os) new s = str_replace o os new s.
Proof.
  revert s. induction fuel as [|fuel IH]; intros s Hs.
  - destruct s; simpl in *; [by simp str_replace|lia].
  - destruct s as [|c r]; [by simp str_replace|]. cbn [replace_fuel]. simp str_replace.
    destruct (String.prefix (String o os) (String c r)) eqn:E; simp str_replace.
    + rewrite IH; [done|]. simpl in Hs |- *.
      pose proof (substring_length_le (String.length os) (S (String.length r)) r). lia.
    + rewrite IH; [done|]. simpl in Hs. lia.
Qed.

(** The fuel of [py_replace] is enough: for a non-empty pattern, any fuel
    at least [len(s)] gives the result that fuel [len(s)] gives, so the
    model never stops early; the loop of [str.replace] terminates within
    [len(s)] steps. *)
Lemma replace_fuel_enough fuel old new s :
  old <> "" -> String.length s <= fuel ->
  replace_fuel fuel old new s = replace_fuel (String.length s) old new s.
Proof.
  intros Hold Hs. destruct old as [|o os]; [done|].
  by rewrite !replace_fuel_ref.
Qed.

(** [py_replace] is the well-founded reference [str_replace] for every
    non-empty pattern. *)
Lemma py_replace_reference s o os new :
  py_replace s (String o os) new = str_replace o os new s.
Proof. unfold py_replace. simpl. by apply replace_fuel_ref. Qed.

(** [needle in hay] holds exactly when the needle occurs in the haystack. *)
Lemma prefix_spec (n h : string) : String.prefix n h = true <-> exists q, h = n ++ q.
Proof.
  split.
  - revert h. induction n as [|c n IH]; intros h Hp; [by exists h|].
    destruct h as [|c' h]; [done|]. simpl in Hp.
    destruct (ascii_dec c c') as [->|]; [|done].
    destruct (IH h Hp) as [q ->]. by exists q.
  - intros [q ->]. apply prefix_app_self.
Qed.

Lemma py_in_spec (n h : string) : py_in n h = true <-> exists p q, h = p ++ n ++ q.
Proof.
  split.
  - induction h as [|c h IH]; intros Hin; rewrite py_in_unfold in Hin.
    + apply orb_true_iff in Hin as [Hp|]; [|done].
      apply prefix_spec in Hp as [q Hq]. by exists "", q.
    + apply orb_true_iff in Hin as [Hp|Hr].
      * apply prefix_spec in Hp as [q Hq]. by exists "", q.
      * destruct (IH Hr) as (p & q & ->). by exists (String c p), q.
  - intros (p & q & ->). by apply py_in_app_r, py_in_front.
Qed.

Lemma str_replace_cons o os new c r :
  str_replace o os new (String c r) =
    if String.prefix (String o os) (String c r)
    then new ++ str_replace o os new
           (substring (String.length (String o os)) (String.length (String c r)) (String c r))
    else String c (str_replace o os new r).
Proof. simp str_replace. by destruct (String.prefix (String o os) (String c r)). Qed.

(** A text without the pattern is left as it is. *)
Lemma str_replace_absent o os new s :
  py_in (String o os) s = false -> str_replace o os new s = s.
Proof.
  induction s as [|c r IH]; intros Hin; simp str_replace; [done|].
  rewrite py_in_unfold, orb_false_iff in Hin. destruct Hin as [Hp Hr].
  rewrite Hp. simp str_replace. by rewrite IH.
Qed.

Lemma substring_app_r_le p q m :
  String.length q <= m -> substring (String.length p) m (p ++ q) = q.
Proof.
  intros Hm. induction p as [|c p IH]; [|exact IH]. simpl. revert m Hm.
  induction q as [|c q IHq]; intros [|m] Hm; simpl in *; try done; [lia|].
  rewrite IHq; [done|lia].
Qed.
