(* ===== verification/Setup.v ===== *)
(** * The installation script [src/setup.py]

    [setup.py] checks the Python version, checks that git runs, installs
    the requirements with pip, and creates [.env] from [env.example]; its
    [main] stops at the first step that fails and the process exits with
    status 1, or 0 when all steps passed.

    The host is a record: [sys.version_info] (its numeric fields), what
    [git --version] does, whether pip succeeds, the files of the current
    directory as a map from names to contents, and whether [.env] can be
    opened for writing.  The script's effect is a trace of events (the
    lines it prints, the commands it runs) and the files it writes; each
    function is a [PyM] computation over both, with its early returns.
    No exception escapes a function: the ones the code catches become
    [False] results, and the others (a missing [sys.executable], an
    unreadable [env.example]) are outside the model. *)

From S2P Require Import Prelude PyStr.

Local Open Scope string_scope.

Module Setup.

(** [sys.version_info] (its numeric prefix: major, minor, micro). *)
Record host := mk_host {
  version_info : list Z;
  git_on_path : bool;          (* [git] found, else [FileNotFoundError] *)
  git_returncode : Z;          (* [git --version] exit status *)
  pip_ok : bool;               (* [pip install -r requirements.txt] exits 0 *)
  files : gmap string string;  (* the current directory *)
  env_writable : bool          (* [open(".env", "w")] succeeds *)
}.

(** What the script prints (by kind) and runs. *)
Inductive event :=
| PStart | PPythonOld | PPythonOk | PGitFound | PGitMissing
| PInstalling | PDepsOk | PDepsFailed
| PEnvExists | PEnvCreated | PEnvCopyFailed | PEnvNoTemplate | PDone
| RunGitVersion | RunPipInstall.

Record setup_st := mk_setup { s_host : host; s_trace : list event }.

Definition emit (e : event) : PyM setup_st unit :=
  modify_st (fun s => mk_setup (s_host s) (s_trace s ++ [e])).

Definition get_host : PyM setup_st host := fun s => (ROk (s_host s), s).

Definition write_file (name contents : string) : PyM setup_st unit :=
  modify_st (fun s =>
    let h := s_host s in
    mk_setup (mk_host (version_info h) (git_on_path h) (git_returncode h) (pip_ok h)
                (<[name := contents]> (files h)) (env_writable h)) (s_trace s)).

(** Python's [<] on tuples: lexicographic, a proper prefix is smaller. *)
Fixpoint tuple_lt (a b : list Z) : bool :=
  match a, b with
  | [], [] => false
  | [], _ :: _ => true
  | _ :: _, [] => false
  | x :: a', y :: b' => (x <? y)%Z || ((x =? y)%Z && tuple_lt a' b')
  end.

Definition check_python_version : PyM setup_st bool :=
  h ← get_host;
  if tuple_lt (version_info h) [3; 8]%Z then _ ← emit PPythonOld; mret false
  else _ ← emit PPythonOk; mret true.

Definition check_git : PyM setup_st bool :=
  h ← get_host;
  _ ← emit RunGitVersion;
  if git_on_path h && (git_returncode h =? 0)%Z then _ ← emit PGitFound; mret true
  else _ ← emit PGitMissing; mret false.

Definition install_dependencies : PyM setup_st bool :=
  _ ← emit PInstalling;
  h ← get_host;
  _ ← emit RunPipInstall;
  if pip_ok h then _ ← emit PDepsOk; mret true
  else _ ← emit PDepsFailed; mret false.

Definition create_env_file : PyM setup_st bool :=
  h ← get_host;
  if bool_decide (is_Some (files h !! ".env")) then _ ← emit PEnvExists; mret true else
  match files h !! "env.example" with
  | Some template =>
      if env_writable h
      then _ ← write_file ".env" template; _ ← emit PEnvCreated; mret true
      else _ ← emit PEnvCopyFailed; mret false
  | None => _ ← emit PEnvNoTemplate; mret false
  end.

Definition main : PyM setup_st bool :=
  _ ← emit PStart;
  ok ← check_python_version;
  if negb ok then mret false else
  ok ← check_git;
  if negb ok then mret false else
  ok ← install_dependencies;
  if negb ok then mret false else
  ok ← create_env_file;
  if negb ok then mret false else
  _ ← emit PDone;
  mret true.

(** [sys.exit(0 if success else 1)]. *)
Definition exit_status (success : bool) : Z := if success then 0%Z else 1%Z.

(** [if __name__ == "__main__": success = main(); sys.exit(...)], run
    from an empty output. *)
Definition run_script (h : host) : Z :=
  exit_status (match fst (main (mk_setup h [])) with ROk b => b | RExc _ => false end).

(** ** Python's tuple order against [(3, 8)] *)

Lemma tuple_lt_nil_r a : tuple_lt a [] = false.
Proof. by destruct a. Qed.

Lemma tuple_lt_3_8 ma mi rest :
  tuple_lt (ma :: mi :: rest) [3; 8]%Z = true <-> (ma < 3 \/ ma = 3 /\ mi < 8)%Z.
Proof.
  simpl. rewrite tuple_lt_nil_r, andb_false_r, orb_false_r.
  rewrite orb_true_iff, andb_true_iff, !Z.ltb_lt, Z.eqb_eq. lia.
Qed.

(** ** The steps *)

Lemma get_host_run s : get_host s = (ROk (s_host s), s).
Proof. done. Qed.

Lemma emit_run e s : emit e s = (ROk tt, mk_setup (s_host s) (s_trace s ++ [e])).
Proof. done. Qed.

(** [create_env_file] changes the directory only when [.env] is missing,
    [env.example] exists and [.env] can be written; it then adds [.env]
    with the template's contents. *)
Lemma create_env_file_files h tr :
  files (s_host (snd (create_env_file (mk_setup h tr)))) =
    match files h !! ".env", files h !! "env.example" with
    | None, Some t => if env_writable h then <[".env" := t]> (files h) else files h
    | _, _ => files h
    end.
Proof.
  unfold create_env_file, write_file, emit, get_host. pym_simpl. simpl.
  destruct (files h !! ".env") eqn:E; simpl; [done|].
  destruct (files h !! "env.example"); simpl; [|done]. by destruct (env_writable h).
Qed.

Definition env_ok (h : host) : Prop :=
  is_Some (files h !! ".env") \/ is_Some (files h !! "env.example") /\ env_writable h = true.

Lemma create_env_file_result s :
  fst (create_env_file s) = ROk (bool_decide (env_ok (s_host s))).
Proof.
  destruct s as [h tr]. unfold create_env_file, write_file, emit, get_host, env_ok. pym_simpl. simpl.
  destruct (files h !! ".env"); simpl; [done|].
  by destruct (files h !! "env.example"), (env_writable h).
Qed.

(** The result of [main]: the four checks in order, each a conjunct. *)
Lemma main_result h tr :
  fst (main (mk_setup h tr)) =
  ROk (negb (tuple_lt (version_info h) [3; 8]%Z) && (git_on_path h && (git_returncode h =? 0)%Z)
       && pip_ok h && bool_decide (env_ok h)).
Proof.
  unfold main, check_python_version, check_git, install_dependencies, emit, get_host.
  pym_simpl. simpl.
  destruct (tuple_lt (version_info h) [3; 8]%Z); simpl; [done|].
  destruct (git_on_path h && (git_returncode h =? 0)%Z); simpl; [|done].
  destruct (pip_ok h); simpl; [|done].
  match goal with |- context [create_env_file ?s] =>
    pose proof (create_env_file_result s) as Hc;
    destruct (create_env_file s) as [r s'] end.
  simpl in Hc. subst r. by case_bool_decide.
Qed.

(** Claim C12 (setup_main): for a Python whose [sys.version_info] starts
    with [major, minor], [setup.py] succeeds (exit status 0) exactly when
    the version is at least 3.8, [git --version] runs and exits 0, pip
    installs the requirements, and [.env] exists or [env.example] exists
    and [.env] can be written. *)
Theorem setup_main_succeeds_iff h major minor rest :
  version_info h = major :: minor :: rest ->
  run_script h = 0%Z <->
  (3 < major \/ major = 3 /\ 8 <= minor)%Z /\ git_on_path h = true /\ git_returncode h = 0%Z /\
  pip_ok h = true /\ env_ok h.
Proof.
  intros Hv. unfold run_script. rewrite main_result, Hv.
  destruct (tuple_lt (major :: minor :: rest) [3; 8]%Z) eqn:Et.
  - apply tuple_lt_3_8 in Et. simpl. split; [done|lia].
  - assert (~ (major < 3 \/ major = 3 /\ minor < 8))%Z as Hn
      by (intros Hc%(tuple_lt_3_8 _ _ rest); congruence).
    simpl.
    destruct (git_on_path h), (git_returncode h =? 0)%Z eqn:Er, (pip_ok h);
      simpl; rewrite ?Z.eqb_eq, ?Z.eqb_neq in Er; try (split; [done|naive_solver]).
    case_bool_decide; unfold exit_status; split; intros; naive_solver lia.
Qed.

(** Claim C18 (setup_order): [main] runs [pip install] only after the
    Python version and [git --version] checks passed (or pip had run
    before). *)
Theorem main_pip_after_checks h tr :
  RunPipInstall ∈ s_trace (snd (main (mk_setup h tr))) ->
  RunPipInstall ∈ tr \/
  tuple_lt (version_info h) [3; 8]%Z = false /\ git_on_path h = true /\ git_returncode h = 0%Z.
Proof.
  unfold main, check_python_version, check_git, install_dependencies, emit, get_host.
  pym_simpl. simpl.
  destruct (tuple_lt (version_info h) [3; 8]%Z) eqn:Et; simpl;
    [intros Hin; left; set_solver|].
  destruct (git_on_path h) eqn:Eg, (git_returncode h =? 0)%Z eqn:Er; simpl;
    try (intros Hin; left; set_solver).
  intros _. right. apply Z.eqb_eq in Er. done.
Qed.

(** ** Witnesses: a Python 3.11 host with a template and no [.env] *)

Definition fresh_host : host :=
  mk_host [3; 11; 2]%Z true 0%Z true {[ "env.example" := "TELEGRAM_BOT_TOKEN=" ]} true.

Lemma setup_main_succeeds_iff_witness :
  version_info fresh_host = [3; 11; 2]%Z /\ run_script fresh_host = 0%Z.
Proof.
  split; [reflexivity|].
  apply (setup_main_succeeds_iff fresh_host 3 11 [2]%Z); [reflexivity|].
  split; [lia|]. split; [reflexivity|]. split; [reflexivity|]. split; [reflexivity|].
  right. split; [eexists; reflexivity|reflexivity].
Defined.

Lemma main_pip_after_checks_witness :
  RunPipInstall ∈ s_trace (snd (main (mk_setup fresh_host []))) /\
  (RunPipInstall ∈ ([] : list event) \/
   tuple_lt (version_info fresh_host) [3; 8]%Z = false /\ git_on_path fresh_host = true /\
   git_returncode fresh_host = 0%Z).
Proof.
  assert (Hin : RunPipInstall ∈ s_trace (snd (main (mk_setup fresh_host [])))).
  { vm_compute. repeat constructor. }
  split; [exact Hin|]. exact (main_pip_after_checks fresh_host [] Hin).
Defined.

End Setup.
