(* ===== verification/Sanitize.v ===== *)
(** * Branch-name and subdomain sanitizers

    [sanitize_branch_name] (bot.py 152-163) turns the text ["page-" +
    channel_name] into a git branch name; [deploy_to_netlify] (bot.py
    208-209) inlines the same rewriting, without the underscore and
    without the fallback prefix, to build a Netlify subdomain.  Both are
    three [re.sub]/[strip] passes, modelled pass by pass: the replacement
    of the characters outside a class by ['-'], the collapse of runs of
    ['-'] (a one-flag automaton: "the previous output character is a
    hyphen"), and the strip of ['-'] at both ends. *)

From S2P Require Import Prelude PyStr.

Local Open Scope string_scope.

Module Sanitizer.

(** ** The passes *)

Definition is_hyphen (c : ascii) : bool := Ascii.eqb c "-"%char.

(** The class [[a-zA-Z0-9\-_]] of [sanitize_branch_name]. *)
Definition branch_char (c : ascii) : bool :=
  is_alnum c || is_hyphen c || Ascii.eqb c "_"%char.

(** The class [[a-zA-Z0-9\-]] of the subdomain. *)
Definition subdomain_char (c : ascii) : bool := is_alnum c || is_hyphen c.

(** [re.sub(r'[^<class>]', '-', s)]. *)
Definition sub_disallowed (ok : ascii -> bool) (s : string) : string :=
  smap (fun c => if ok c then c else "-"%char) s.

(** [re.sub(r'-+', '-', s)], scanning left to right; [prev] records that
    the last character written is a hyphen of the current run. *)
Fixpoint collapse_from (prev : bool) (s : string) : string :=
  match s with
  | EmptyString => EmptyString
  | String c r =>
      if is_hyphen c
      then if prev then collapse_from true r else String c (collapse_from true r)
      else String c (collapse_from false r)
  end.

Definition collapse_hyphens (s : string) : string := collapse_from false s.

(** [s.strip('-')]. *)
Definition strip_hyphens (s : string) : string := strip_by is_hyphen s.

(** [re.match(r'^[a-zA-Z0-9]', s)]. *)
Definition starts_alnum (s : string) : bool :=
  match s with
  | EmptyString => false
  | String c _ => is_alnum c
  end.

(** ** The two sanitizers, as the code writes them *)

Definition sanitize_branch_name (name : string) : string :=
  let sanitized := sub_disallowed branch_char (py_lower name) in
  let sanitized := collapse_hyphens sanitized in
  let sanitized := strip_hyphens sanitized in
  if starts_alnum sanitized then sanitized else "page-" ++ sanitized.

Definition netlify_subdomain (channel_name : string) : string :=
  let subdomain := sub_disallowed subdomain_char (py_lower channel_name) in
  strip_hyphens (collapse_hyphens subdomain).

(** The branch name before the fallback prefix. *)
Definition branch_core (name : string) : string :=
  strip_hyphens (collapse_hyphens (sub_disallowed branch_char (py_lower name))).

(** ** The grammar the results are meant to satisfy *)

(** [^[a-z0-9][a-z0-9_-]*$]. *)
Definition lower_branch_char (c : ascii) : bool :=
  is_lower c || is_digit c || is_hyphen c || Ascii.eqb c "_"%char.

Definition valid_branch_name (s : string) : bool :=
  match s with
  | EmptyString => false
  | String c r => (is_lower c || is_digit c) && str_forall lower_branch_char r
  end.

(** No two consecutive hyphens. *)
Fixpoint no_double_hyphen (s : string) : bool :=
  match s with
  | String c ((String d _) as r) => negb (is_hyphen c && is_hyphen d) && no_double_hyphen r
  | _ => true
  end.

Definition starts_hyphen (s : string) : bool :=
  match s with
  | EmptyString => false
  | String c _ => is_hyphen c
  end.

Fixpoint ends_hyphen (s : string) : bool :=
  match s with
  | EmptyString => false
  | String c EmptyString => is_hyphen c
  | String _ r => ends_hyphen r
  end.

(** Hyphens only as single separators between non-hyphen characters. *)
Definition hyphen_normal (s : string) : bool :=
  no_double_hyphen s && negb (starts_hyphen s) && negb (ends_hyphen s).

(** ** Character tables *)

Lemma lower_char_not_upper c : is_upper (lower_char c) = false.
Proof. revert c. ascii_cases. Qed.

Lemma lower_char_alnum c : is_alnum (lower_char c) = is_alnum c.
Proof. revert c. ascii_cases. Qed.

Lemma lower_char_underscore c :
  Ascii.eqb (lower_char c) "_"%char = Ascii.eqb c "_"%char.
Proof. revert c. ascii_cases. Qed.

Lemma lower_char_hyphen c : is_hyphen (lower_char c) = is_hyphen c.
Proof. revert c. ascii_cases. Qed.

Lemma lower_char_id c : is_upper c = false -> lower_char c = c.
Proof. unfold lower_char. by intros ->. Qed.

Lemma branch_replaced_lower c :
  lower_branch_char (if branch_char (lower_char c) then lower_char c else "-"%char) = true.
Proof. revert c. ascii_cases. Qed.

Lemma subdomain_replaced_lower c :
  (fun d => is_lower d || is_digit d || is_hyphen d)
    (if subdomain_char (lower_char c) then lower_char c else "-"%char) = true.
Proof. revert c. ascii_cases. Qed.

Lemma lower_branch_char_branch c :
  lower_branch_char c = true -> branch_char c = true.
Proof. revert c. ascii_cases. Qed.

Lemma lower_branch_char_not_upper c :
  lower_branch_char c = true -> is_upper c = false.
Proof. revert c. ascii_cases. Qed.

Lemma alnum_lower_branch c :
  is_alnum c = true -> lower_branch_char c = true -> is_lower c || is_digit c = true.
Proof. revert c. ascii_cases. Qed.

(** ** Shape of a string: equations of the predicates on [String c r] *)

Lemma no_double_hyphen_cons c r :
  no_double_hyphen (String c r) = negb (is_hyphen c && starts_hyphen r) && no_double_hyphen r.
Proof. destruct r; simpl; [by destruct (is_hyphen c)|done]. Qed.

Lemma ends_hyphen_cons c r :
  ends_hyphen (String c r) = match r with EmptyString => is_hyphen c | _ => ends_hyphen r end.
Proof. by destruct r. Qed.

Lemma no_double_hyphen_tail c r :
  no_double_hyphen (String c r) = true -> no_double_hyphen r = true.
Proof. rewrite no_double_hyphen_cons, andb_true_iff. tauto. Qed.

#[export] Hint Rewrite no_double_hyphen_cons : bot_rw.

(** ** The collapse pass *)

Lemma collapse_from_forall (p : ascii -> bool) b s :
  str_forall p s = true -> str_forall p (collapse_from b s) = true.
Proof.
  revert b. induction s as [|c r IH]; intros b; simpl; [done|].
  rewrite andb_true_iff. intros [Hc Hr].
  destruct (is_hyphen c), b; simpl; rewrite ?Hc; simpl; auto.
Qed.

Lemma collapse_from_shape b s :
  no_double_hyphen (collapse_from b s) = true /\
  (b = true -> starts_hyphen (collapse_from b s) = false).
Proof.
  revert b. induction s as [|c r IH]; intros b; simpl; [done|].
  destruct (is_hyphen c) eqn:Hc; [destruct b|].
  - apply IH.
  - destruct (IH true) as [H1 H2]. split; [|done].
    rewrite no_double_hyphen_cons, H1, H2, Hc by done. done.
  - destruct (IH false) as [H1 _]. split; [|by simpl].
    rewrite no_double_hyphen_cons, H1, Hc. done.
Qed.

Lemma collapse_from_id b s :
  no_double_hyphen s = true -> (b = true -> starts_hyphen s = false) ->
  collapse_from b s = s.
Proof.
  revert b. induction s as [|c r IH]; intros b Hs Hb; simpl; [done|].
  rewrite no_double_hyphen_cons, andb_true_iff in Hs. destruct Hs as [Hcr Hr].
  destruct (is_hyphen c) eqn:Hc.
  - destruct b; [specialize (Hb eq_refl); simpl in Hb; congruence|].
    rewrite IH; [done|done|]. intros _. by destruct (starts_hyphen r).
  - by rewrite IH.
Qed.

Lemma collapse_from_all_hyphen b s :
  str_forall is_hyphen (collapse_from b s) = str_forall is_hyphen s.
Proof.
  revert b. induction s as [|c r IH]; intros b; simpl; [done|].
  destruct (is_hyphen c) eqn:Hc, b; simpl; rewrite ?Hc, ?IH; done.
Qed.

(** ** The strip pass *)

Lemma lstrip_forall (p q : ascii -> bool) s :
  str_forall q s = true -> str_forall q (lstrip_by p s) = true.
Proof.
  induction s as [|c r IH]; simpl; [done|].
  rewrite andb_true_iff. intros [Hc Hr]. destruct (p c); simpl; [auto|].
  by rewrite Hc, Hr.
Qed.

Lemma rstrip_forall (p q : ascii -> bool) s :
  str_forall q s = true -> str_forall q (rstrip_by p s) = true.
Proof.
  induction s as [|c r IH]; simpl; [done|].
  rewrite andb_true_iff. intros [Hc Hr].
  destruct (rstrip_by p r) eqn:E; [destruct (p c)|]; simpl; rewrite ?Hc; auto.
Qed.

(** [rstrip] keeps the first character of what it does not erase. *)
Lemma rstrip_head (p : ascii -> bool) c r :
  p c = false -> exists r', rstrip_by p (String c r) = String c r'.
Proof.
  intros Hc. simpl. destruct (rstrip_by p r) eqn:E; [rewrite Hc|]; eauto.
Qed.

Lemma lstrip_shape s :
  starts_hyphen (lstrip_by is_hyphen s) = false /\
  (no_double_hyphen s = true -> no_double_hyphen (lstrip_by is_hyphen s) = true).
Proof.
  induction s as [|c r IH]; cbn [lstrip_by]; [done|].
  destruct (is_hyphen c) eqn:Hc.
  - split; [apply IH|]. intros H. apply IH. exact (no_double_hyphen_tail c r H).
  - split; [exact Hc|auto].
Qed.

(** [rstrip] erases everything or keeps the first character. *)
Lemma rstrip_first (p : ascii -> bool) s :
  rstrip_by p s = EmptyString \/
  exists c r r', s = String c r /\ rstrip_by p s = String c r'.
Proof.
  destruct s as [|c r]; [by left|]. simpl.
  destruct (rstrip_by p r) eqn:E; [destruct (p c)|]; eauto 6.
Qed.

Lemma rstrip_shape s :
  ends_hyphen (rstrip_by is_hyphen s) = false /\
  (starts_hyphen s = false -> starts_hyphen (rstrip_by is_hyphen s) = false) /\
  (no_double_hyphen s = true -> no_double_hyphen (rstrip_by is_hyphen s) = true).
Proof.
  induction s as [|c r IH]; [done|]. destruct IH as (IH1 & _ & IH3).
  cbn [rstrip_by starts_hyphen].
  destruct (rstrip_first is_hyphen r) as [E | (d & r0 & r' & -> & E)]; rewrite E in *.
  - destruct (is_hyphen c) eqn:Hc; simpl; rewrite ?Hc; done.
  - rewrite ends_hyphen_cons, !no_double_hyphen_cons, !andb_true_iff.
    split; [done|]. split; [done|]. intros [Hcr Hr]. split; [exact Hcr|].
    apply andb_true_iff. rewrite <- no_double_hyphen_cons. apply IH3.
    rewrite no_double_hyphen_cons. by apply andb_true_iff.
Qed.

Lemma strip_hyphens_shape s :
  no_double_hyphen s = true -> hyphen_normal (strip_hyphens s) = true.
Proof.
  intros Hs. unfold hyphen_normal, strip_hyphens, strip_by.
  destruct (lstrip_shape s) as [L1 L2].
  destruct (rstrip_shape (lstrip_by is_hyphen s)) as (R1 & R2 & R3).
  by rewrite R1, R2, R3 by auto.
Qed.

Lemma strip_hyphens_forall (q : ascii -> bool) s :
  str_forall q s = true -> str_forall q (strip_hyphens s) = true.
Proof. intros H. by apply rstrip_forall, lstrip_forall. Qed.

Lemma lstrip_id (p : ascii -> bool) s :
  match s with EmptyString => True | String c _ => p c = false end ->
  lstrip_by p s = s.
Proof. destruct s as [|c r]; simpl; [done|]. by intros ->. Qed.

Lemma rstrip_id s : ends_hyphen s = false -> rstrip_by is_hyphen s = s.
Proof.
  induction s as [|c r IH]; [done|]. rewrite ends_hyphen_cons. simpl.
  destruct r as [|d r]; [by intros ->|].
  intros H. by rewrite IH.
Qed.

Lemma strip_hyphens_id s : hyphen_normal s = true -> strip_hyphens s = s.
Proof.
  unfold hyphen_normal, strip_hyphens, strip_by. rewrite !andb_true_iff.
  intros [[_ Hs] He]. apply negb_true_iff in Hs, He.
  rewrite lstrip_id; [by apply rstrip_id|]. by destruct s.
Qed.

Lemma strip_hyphens_empty s :
  strip_hyphens s = EmptyString <-> str_forall is_hyphen s = true.
Proof.
  unfold strip_hyphens, strip_by. split.
  - induction s as [|c r IH]; cbn [lstrip_by]; [done|].
    destruct (is_hyphen c) eqn:Hc.
    + intros H. cbn [str_forall]. rewrite Hc. auto.
    + destruct (rstrip_head is_hyphen c r Hc) as [r' ->]. done.
  - induction s as [|c r IH]; simpl; [done|].
    rewrite andb_true_iff. intros [-> Hr]. auto.
Qed.

(** ** The branch name before the prefix *)

Lemma sanitize_branch_name_core t :
  sanitize_branch_name t =
  if starts_alnum (branch_core t) then branch_core t else "page-" ++ branch_core t.
Proof. reflexivity. Qed.

Lemma branch_replaced_hyphen c :
  is_hyphen (if branch_char (lower_char c) then lower_char c else "-"%char)
  = negb (is_alnum c || Ascii.eqb c "_"%char).
Proof. revert c. ascii_cases. Qed.

Lemma branch_core_chars t : str_forall lower_branch_char (branch_core t) = true.
Proof.
  apply strip_hyphens_forall, collapse_from_forall.
  induction t as [|c t IH]; [done|]. cbn. by rewrite branch_replaced_lower.
Qed.

Lemma branch_core_normal t : hyphen_normal (branch_core t) = true.
Proof. apply strip_hyphens_shape, collapse_from_shape. Qed.

Lemma sub_branch_all_hyphen t :
  str_forall is_hyphen (sub_disallowed branch_char (py_lower t)) =
  str_forall (fun c => negb (is_alnum c || Ascii.eqb c "_"%char)) t.
Proof.
  unfold sub_disallowed, py_lower. induction t as [|c t IH]; [done|].
  cbn [smap str_forall]. by rewrite branch_replaced_hyphen, IH.
Qed.

Lemma branch_core_empty t :
  branch_core t = EmptyString <->
  str_forall (fun c => negb (is_alnum c || Ascii.eqb c "_"%char)) t = true.
Proof.
  unfold branch_core, collapse_hyphens.
  by rewrite strip_hyphens_empty, collapse_from_all_hyphen, sub_branch_all_hyphen.
Qed.

(** A name already in the target grammar, with single inner hyphens and a
    leading letter or digit, is left unchanged. *)
Lemma sanitize_fixed s :
  str_forall lower_branch_char s = true -> hyphen_normal s = true ->
  starts_alnum s = true -> sanitize_branch_name s = s.
Proof.
  intros Hc Hn Ha. rewrite sanitize_branch_name_core.
  assert (branch_core s = s) as ->; [|by rewrite Ha].
  pose proof Hn as Hdd. unfold hyphen_normal in Hdd.
  apply andb_true_iff in Hdd as [Hdd _]. apply andb_true_iff in Hdd as [Hdd _].
  unfold branch_core, py_lower, sub_disallowed, collapse_hyphens.
  rewrite (smap_id_on lower_char lower_branch_char s)
    by (auto using lower_char_id, lower_branch_char_not_upper).
  rewrite (smap_id_on _ lower_branch_char s);
    [|intros c Hc'; by rewrite lower_branch_char_branch|done].
  rewrite collapse_from_id by done.
  by apply strip_hyphens_id.
Qed.

Lemma hyphen_normal_page s :
  s <> EmptyString -> hyphen_normal s = true -> hyphen_normal ("page-" ++ s) = true.
Proof.
  destruct s as [|c r]; [done|]. intros _.
  unfold hyphen_normal. rewrite !andb_true_iff, !negb_true_iff.
  intros [[Hd Hs] He].
  assert (no_double_hyphen ("page-" ++ String c r) =
          negb (is_hyphen c) && no_double_hyphen (String c r)) as -> by reflexivity.
  assert (ends_hyphen ("page-" ++ String c r) = ends_hyphen (String c r)) as ->
    by reflexivity.
  cbn in Hs. by rewrite Hs, Hd, He.
Qed.

(** ** Properties of the sanitizers *)

(** Claim C10 (san_valid): for every input text, [sanitize_branch_name]
    returns a non-empty name of the grammar [^[a-z0-9][a-z0-9_-]*$]. *)
Theorem sanitize_branch_name_valid t :
  valid_branch_name (sanitize_branch_name t) = true.
Proof.
  rewrite sanitize_branch_name_core.
  pose proof (branch_core_chars t) as Hc.
  destruct (branch_core t) as [|c r]; [done|].
  cbn [starts_alnum]. destruct (is_alnum c) eqn:Ha.
  - cbn in Hc |- *. apply andb_true_iff in Hc as [Hc Hr].
    by rewrite alnum_lower_branch, Hr.
  - exact Hc.
Qed.

(** When the lower-cased text has no letter, digit
    or underscore, the branch name is the bare fallback ["page-"]. *)
Theorem sanitize_branch_name_fallback t :
  str_forall (fun c => negb (is_alnum c || Ascii.eqb c "_"%char)) t = true ->
  sanitize_branch_name t = "page-".
Proof.
  intros H. apply branch_core_empty in H.
  by rewrite sanitize_branch_name_core, H.
Qed.

Lemma sanitize_branch_name_shape t :
  branch_core t <> EmptyString ->
  str_forall lower_branch_char (sanitize_branch_name t) = true /\
  hyphen_normal (sanitize_branch_name t) = true /\
  starts_alnum (sanitize_branch_name t) = true.
Proof.
  intros Hne. rewrite sanitize_branch_name_core.
  pose proof (branch_core_chars t) as Hc. pose proof (branch_core_normal t) as Hn.
  destruct (starts_alnum (branch_core t)) eqn:Ha; [done|].
  split; [|split; [by apply hyphen_normal_page|done]].
  rewrite str_forall_app. by rewrite Hc.
Qed.

(** Claim C37 (san_idem): sanitizing a sanitized name changes it exactly when
    the fallback was taken: [sanitize_branch_name] is idempotent on [t] iff
    the text has a letter, digit or underscore. *)
Theorem sanitize_branch_name_idempotent_iff t :
  sanitize_branch_name (sanitize_branch_name t) = sanitize_branch_name t <->
  branch_core t <> EmptyString.
Proof.
  split.
  - intros Hid He. rewrite (sanitize_branch_name_core t), He in Hid.
    vm_compute in Hid. discriminate.
  - intros Hne. destruct (sanitize_branch_name_shape t Hne) as (Hc & Hn & Ha).
    by apply sanitize_fixed.
Qed.

Lemma subdomain_replaced_hyphen c :
  is_hyphen (if subdomain_char (lower_char c) then lower_char c else "-"%char)
  = negb (is_alnum c).
Proof. revert c. ascii_cases. Qed.

Lemma sub_subdomain_all_hyphen t :
  str_forall is_hyphen (sub_disallowed subdomain_char (py_lower t)) =
  str_forall (fun c => negb (is_alnum c)) t.
Proof.
  unfold sub_disallowed, py_lower. induction t as [|c t IH]; [done|].
  cbn [smap str_forall]. by rewrite subdomain_replaced_hyphen, IH.
Qed.

(** Claim C38 (sub_shape): the subdomain [deploy_to_netlify] derives from a
    channel name has only characters of [[a-z0-9-]], no leading, trailing
    or doubled hyphen, and is empty exactly when the name has no ASCII
    letter or digit (the code then builds the URL [https://.netlify.app]). *)
Theorem netlify_subdomain_shape t :
  str_forall (fun d => is_lower d || is_digit d || is_hyphen d) (netlify_subdomain t) = true /\
  hyphen_normal (netlify_subdomain t) = true /\
  (netlify_subdomain t = EmptyString <-> str_forall (fun c => negb (is_alnum c)) t = true).
Proof.
  split; [|split].
  - apply strip_hyphens_forall, collapse_from_forall.
    unfold sub_disallowed, py_lower. induction t as [|c t IH]; [done|].
    cbn [smap str_forall]. by rewrite subdomain_replaced_lower.
  - apply strip_hyphens_shape, collapse_from_shape.
  - unfold netlify_subdomain, collapse_hyphens.
    by rewrite strip_hyphens_empty, collapse_from_all_hyphen, sub_subdomain_all_hyphen.
Qed.

Example sanitize_scenario :
  sanitize_branch_name "page-My Cool Channel!!" = "page-my-cool-channel".
Proof. reflexivity. Qed.

Example subdomain_scenario :
  netlify_subdomain "My Cool Channel!!" = "my-cool-channel".
Proof. reflexivity. Qed.

Example sanitize_empty : sanitize_branch_name "!!" = "page-".
Proof. reflexivity. Qed.

Example sanitize_underscore : sanitize_branch_name "__x" = "page-__x".
Proof. reflexivity. Qed.

Lemma sanitize_branch_name_fallback_witness : sanitize_branch_name "!! ?" = "page-".
Proof. apply sanitize_branch_name_fallback. reflexivity. Defined.

End Sanitizer.
