(* ===== verification/GitModel.v ===== *)
(** * The git working copy, its remote, and the commands the bot runs

    [setup_git_repo] and [push_to_github] drive git through [subprocess]
    with eight command lines: [git clone URL DIR], [git pull],
    [git branch -r], [git checkout B], [git checkout -b B], [git add F],
    [git commit -m M] and [git push -u origin B].  This file gives each of
    them a semantics on an explicit state: the directory [REPO_DIR] (does
    it exist, does it hold a repository), the two worktree files the bot
    writes ([index.html] and [logo.png]), the local repository (current
    branch, branch tips, upstream configuration, remote-tracking refs,
    index) and the remote (its default branch and branch tips).

    What the model keeps of git:
    - commits form a history ([Root] or [Child]); the tree of a commit is
      the content of the two files ([None]: absent), the other files of the
      repository never change and are left out;
    - [checkout] moves the two files with git's two-tree rule: a file that
      differs between the two branches must be unmodified (or already at
      its target content), otherwise the checkout refuses;
    - [checkout B] of a branch that exists only as [origin/B] creates a
      tracking branch (git's "DWIM" checkout);
    - [pull] fetches every ref, then fast-forwards the current branch to
      its upstream; a branch without upstream, or a history that diverged,
      fails (git 2.33+ without [pull.rebase] refuses to reconcile);
    - [commit] fails when the index equals the tree of the current commit
      ("nothing to commit"); [push] fails when the remote tip is not an
      ancestor of the pushed commit (non-fast-forward).
    Whether the network part of [clone], [pull] and [push] succeeds
    (network, credentials, server) is a parameter of the environment,
    [git_net_ok].  A failing command leaves the state unchanged. *)

From S2P Require Import Prelude PyStr.

Local Open Scope string_scope.

Module Git.

(** ** Data *)

Record tree := mk_tree { t_index : option string; t_logo : option string }.

Definition empty_tree : tree := mk_tree None None.

#[export] Instance tree_eq_dec : EqDecision tree.
Proof. solve_decision. Defined.

Inductive commit :=
| Root (snapshot : tree) (msg : string)
| Child (parent : commit) (snapshot : tree) (msg : string).

#[export] Instance commit_eq_dec : EqDecision commit.
Proof.
  intros x y. unfold Decision. decide equality; apply (decide (_ = _)).
Defined.

Definition commit_tree (c : commit) : tree :=
  match c with Root t _ => t | Child _ t _ => t end.

(** [is_ancestor a c]: [a] is [c] or one of its ancestors. *)
Fixpoint is_ancestor (a c : commit) : bool :=
  bool_decide (a = c) ||
  match c with Root _ _ => false | Child p _ _ => is_ancestor a p end.

Record remote := mk_remote {
  r_default : string;
  r_refs : gmap string commit
}.

Record repo := mk_repo {
  head : string;                   (* the checked-out branch *)
  branches : gmap string commit;   (* local branch tips *)
  upstream : gset string;          (* branches with an upstream *)
  origin : gmap string commit;     (* remote-tracking refs origin/<b> *)
  index : tree                     (* the staging area *)
}.

Inductive git_cmd :=
| GClone (url dir : string)
| GPull
| GCheckout (b : string)
| GCheckoutNew (b : string)
| GAdd (path : string)
| GCommit (msg : string)
| GPush (b : string)
| GBranchR.

(** The directory [REPO_DIR] and the remote it is a copy of. *)
Record ws := mk_ws {
  ws_dir : bool;            (* os.path.exists(REPO_DIR) *)
  ws_repo : option repo;    (* REPO_DIR/.git *)
  ws_files : tree;          (* REPO_DIR/index.html, REPO_DIR/logo.png *)
  ws_remote : remote;
  ws_log : list git_cmd     (* the git command lines run, in order *)
}.

Definition set_repo (w : ws) (r : repo) (files : tree) : ws :=
  mk_ws true (Some r) files (ws_remote w) (ws_log w).

Definition set_files (w : ws) (files : tree) : ws :=
  mk_ws (ws_dir w) (ws_repo w) files (ws_remote w) (ws_log w).

Definition log_cmd (w : ws) (c : git_cmd) : ws :=
  mk_ws (ws_dir w) (ws_repo w) (ws_files w) (ws_remote w) (ws_log w ++ [c]).

(** The network side of the environment. *)
Class GitEnv := { git_net_ok : git_cmd -> bool }.

(** ** Semantics of the commands *)

Definition head_tree (r : repo) : tree :=
  match branches r !! head r with Some c => commit_tree c | None => empty_tree end.

(** Two-tree rule for one path: [h] in the current commit, [t] in the
    target commit, [i] in the index, [f] in the worktree. *)
Definition switch_path (h t i f : option string) : option (option string * option string) :=
  if decide (h = t) then Some (i, f)
  else if decide (i = h /\ f = h) then Some (t, t)
  else if decide (i = t /\ f = t) then Some (t, t)
  else None.

Definition switch_tree (h t i f : tree) : option (tree * tree) :=
  match switch_path (t_index h) (t_index t) (t_index i) (t_index f),
        switch_path (t_logo h) (t_logo t) (t_logo i) (t_logo f) with
  | Some (i1, f1), Some (i2, f2) => Some (mk_tree i1 i2, mk_tree f1 f2)
  | _, _ => None
  end.

(** Move [HEAD] to branch [b] whose tip is [c]. *)
Definition switch_to (w : ws) (r : repo) (b : string) (c : commit)
    (br : gmap string commit) (up : gset string) : option ws :=
  match switch_tree (head_tree r) (commit_tree c) (index r) (ws_files w) with
  | Some (i, f) => Some (set_repo w (mk_repo b br up (origin r) i) f)
  | None => None
  end.

Definition exec_clone `{GitEnv} (w : ws) (c : git_cmd) : option ws :=
  if ws_dir w then None
  else if git_net_ok c then
    let rm := ws_remote w in
    match r_refs rm !! r_default rm with
    | Some tip =>
        Some (set_repo w (mk_repo (r_default rm) {[r_default rm := tip]}
                {[r_default rm]} (r_refs rm) (commit_tree tip)) (commit_tree tip))
    | None =>
        Some (set_repo w (mk_repo (r_default rm) ∅ ∅ (r_refs rm) empty_tree) empty_tree)
    end
  else None.

Definition exec_pull `{GitEnv} (w : ws) (r : repo) : option ws :=
  if git_net_ok GPull then
    let org := r_refs (ws_remote w) ∪ origin r in
    let r' := mk_repo (head r) (branches r) (upstream r) org (index r) in
    if decide (head r ∈ upstream r) then
      match org !! head r with
      | None => None
      | Some up =>
          match branches r !! head r with
          | Some loc =>
              if is_ancestor up loc then Some (set_repo w r' (ws_files w))
              else if is_ancestor loc up then
                switch_to w r' (head r) up (<[head r := up]> (branches r)) (upstream r)
              else None
          | None => switch_to w r' (head r) up (<[head r := up]> (branches r)) (upstream r)
          end
      end
    else None
  else None.

Definition exec_checkout (w : ws) (r : repo) (b : string) : option ws :=
  if decide (b = head r) then Some w
  else match branches r !! b with
       | Some c => switch_to w r b c (branches r) (upstream r)
       | None =>
           match origin r !! b with
           | Some c => switch_to w r b c (<[b := c]> (branches r)) ({[b]} ∪ upstream r)
           | None => None
           end
       end.

Definition exec_checkout_new (w : ws) (r : repo) (b : string) : option ws :=
  match branches r !! b with
  | Some _ => None
  | None =>
      let br := match branches r !! head r with
                | Some c => <[b := c]> (branches r)
                | None => branches r
                end in
      Some (set_repo w (mk_repo b br (upstream r) (origin r) (index r)) (ws_files w))
  end.

Definition exec_add (w : ws) (r : repo) (path : string) : option ws :=
  let i := index r in
  let f := ws_files w in
  let r_with i' := mk_repo (head r) (branches r) (upstream r) (origin r) i' in
  if String.eqb path "index.html" then
    match t_index f, t_index i with
    | None, None => None
    | v, _ => Some (set_repo w (r_with (mk_tree v (t_logo i))) f)
    end
  else if String.eqb path "logo.png" then
    match t_logo f, t_logo i with
    | None, None => None
    | v, _ => Some (set_repo w (r_with (mk_tree (t_index i) v)) f)
    end
  else None.

Definition exec_commit (w : ws) (r : repo) (msg : string) : option ws :=
  if decide (index r = head_tree r) then None
  else
    let c := match branches r !! head r with
             | Some p => Child p (index r) msg
             | None => Root (index r) msg
             end in
    Some (set_repo w (mk_repo (head r) (<[head r := c]> (branches r)) (upstream r)
                        (origin r) (index r)) (ws_files w)).

Definition exec_push `{GitEnv} (w : ws) (r : repo) (b : string) : option ws :=
  if git_net_ok (GPush b) then
    match branches r !! b with
    | None => None
    | Some loc =>
        let rm := ws_remote w in
        let ok := match r_refs rm !! b with
                  | Some old => is_ancestor old loc
                  | None => true
                  end in
        if ok then
          Some (mk_ws true
                  (Some (mk_repo (head r) (branches r) ({[b]} ∪ upstream r)
                           (<[b := loc]> (origin r)) (index r)))
                  (ws_files w)
                  (mk_remote (r_default rm) (<[b := loc]> (r_refs rm)))
                  (ws_log w))
        else None
    end
  else None.

(** One command line; [None] is a nonzero exit status. *)
Definition git_exec `{GitEnv} (c : git_cmd) (w : ws) : option ws :=
  match c with
  | GClone _ _ => exec_clone w c
  | _ =>
      match ws_repo w with
      | None => None
      | Some r =>
          match c with
          | GClone _ _ => None
          | GPull => exec_pull w r
          | GCheckout b => exec_checkout w r b
          | GCheckoutNew b => exec_checkout_new w r b
          | GAdd p => exec_add w r p
          | GCommit m => exec_commit w r m
          | GPush b => exec_push w r b
          | GBranchR => Some w
          end
      end
  end.

(** The standard output of [git branch -r]: one line per remote-tracking
    ref, after the symbolic ref [origin/HEAD]. *)
Definition branch_r_output (w : ws) : string :=
  match ws_repo w with
  | None => ""
  | Some r =>
      "  origin/HEAD -> origin/" ++ r_default (ws_remote w) ++ "
" ++
      foldr (fun '(k, _) acc => "  origin/" ++ k ++ "
" ++ acc) "" (map_to_list (origin r))
  end.

(** ** Frame of the commands on the remote *)

(** A commit's parent is its ancestor: pushing a child is a fast-forward. *)
Lemma is_ancestor_refl c : is_ancestor c c = true.
Proof. destruct c; simpl; by rewrite bool_decide_eq_true_2. Qed.

Lemma is_ancestor_parent c t m : is_ancestor c (Child c t m) = true.
Proof.
  change (is_ancestor c (Child c t m)) with (bool_decide (c = Child c t m) || is_ancestor c c).
  by rewrite is_ancestor_refl, orb_true_r.
Qed.

(** [git branch -r] lists every remote-tracking branch. *)
Lemma branch_r_output_has w r k c :
  ws_repo w = Some r -> origin r !! k = Some c ->
  py_in ("origin/" ++ k) (branch_r_output w) = true.
Proof.
  intros Hr Hk. unfold branch_r_output. rewrite Hr.
  do 3 apply py_in_app_r.
  apply elem_of_map_to_list in Hk. revert Hk.
  generalize (map_to_list (origin r)). intros l Hl.
  induction l as [|[k' c'] l IH]; [by apply elem_of_nil in Hl|].
  cbn -[String.append]. apply elem_of_cons in Hl as [Hl|Hl].
  - injection Hl as <- <-. change "  origin/" with ("  " ++ "origin/").
    rewrite string_app_assoc. apply py_in_app_r. rewrite <- string_app_assoc. apply py_in_front.
  - do 3 apply py_in_app_r. by apply IH.
Qed.

Section Frame.
Context `{GitEnv}.

Lemma switch_to_remote w r b c br up w' :
  switch_to w r b c br up = Some w' -> ws_remote w' = ws_remote w.
Proof. unfold switch_to. repeat case_match; intros; simplify_eq; done. Qed.

(** Every command but [push] leaves the remote as it is. *)
Lemma git_exec_remote c w w' :
  git_exec c w = Some w' -> (forall b, c <> GPush b) -> ws_remote w' = ws_remote w.
Proof.
  intros E Hc. destruct c as [u d| |b|b|p|m|b|]; simpl in E;
    [unfold exec_clone in E | ..| by destruct (Hc b)|];
    destruct (ws_repo w) as [r|]; try discriminate;
    unfold exec_pull, exec_checkout, exec_checkout_new, exec_add, exec_commit in E;
    repeat case_match; simplify_eq; eauto using switch_to_remote.
Qed.

(** No command rewrites the log of the command lines run. *)
Lemma git_exec_log c w w' : git_exec c w = Some w' -> ws_log w' = ws_log w.
Proof.
  intros E. destruct c; simpl in E; [unfold exec_clone in E|..];
    destruct (ws_repo w) as [r|]; try discriminate;
    unfold exec_pull, exec_checkout, exec_checkout_new, exec_add, exec_commit, exec_push,
      switch_to in E;
    repeat case_match; simplify_eq; done.
Qed.

(** [push -u origin b] moves the remote branch [b] to the local tip of
    [b], and nothing else of the remote. *)
Lemma git_exec_push w b w' :
  git_exec (GPush b) w = Some w' ->
  exists r loc, ws_repo w = Some r /\ branches r !! b = Some loc /\
    ws_remote w' = mk_remote (r_default (ws_remote w)) (<[b := loc]> (r_refs (ws_remote w))).
Proof.
  simpl. destruct (ws_repo w) as [r|]; [|discriminate].
  unfold exec_push. repeat case_match; intros; simplify_eq; eauto 6.
Qed.

(** A directory [REPO_DIR] without a repository in it: [git clone]
    refuses the existing directory and every other command finds no
    repository. *)
Lemma git_exec_no_repo c w :
  ws_dir w = true -> ws_repo w = None -> git_exec c w = None.
Proof. intros Hd Hr. destruct c; simpl; rewrite ?Hr; try done. unfold exec_clone. by rewrite Hd. Qed.
End Frame.

(** ** Concrete environments and states, for the witnesses *)

(** Every network operation succeeds. *)
Definition net_up : GitEnv := {| git_net_ok := fun _ => true |}.

(** The network fails for pushes only. *)
Definition net_push_down : GitEnv :=
  {| git_net_ok := fun c => match c with GPush _ => false | _ => true end |}.

Definition init_commit : commit := Root (mk_tree (Some "<p>start</p>") None) "init".

(** A remote whose default branch [main] holds [init_commit], and branches
    [extra] beside it. *)
Definition remote_of (extra : list (string * commit)) : remote :=
  mk_remote "main" (list_to_map extra ∪ {["main" := init_commit]}).

(** A working copy as [git clone] leaves it, on [main], with the page
    [html] written to [index.html]. *)
Definition cloned_ws (extra : list (string * commit)) (html : string) : ws :=
  let rm := remote_of extra in
  mk_ws true
    (Some (mk_repo "main" {["main" := init_commit]} {["main"]} (r_refs rm)
             (commit_tree init_commit)))
    (mk_tree (Some html) None) rm [].

End Git.
