(* ===== verification/Publisher.v ===== *)
(** * The repository publisher: [run_git_command], [setup_git_repo],
      [push_to_github] (bot.py 131-199)

    Each function is the code's sequence of command lines with its early
    returns, in the monad [PyM] over the git state [Git.ws] of
    [GitModel].  [run_git_command] records the command line in the log of
    the state and returns whether git exited with status 0.  The
    configuration [GITHUB_REPO_URL] and [GITHUB_PAT] are section
    variables: they are read from the environment at start-up.

    The theorems follow a publish through its stages ([ready], [staged],
    [committed]), give its frame (only the pushed branch of the remote
    changes) and its failures, and replay the situations a long-running
    bot meets: a republish of the same branch, a republish after another
    page, identical content, a branch without upstream, a directory
    without repository.  They also bound the git command lines a call
    runs (the cost logic of [Prelude]) and give the clone URL. *)

From S2P Require Import Prelude PyStr PyStrSpec Sanitize GitModel.
Import Git Sanitizer.

Local Open Scope string_scope.

Module Publisher.

(** [REPO_DIR = os.getenv("REPO_DIR", "landing_pages_repo")], with its
    default value. *)
Definition REPO_DIR : string := "landing_pages_repo".

(** [os.path.join(REPO_DIR, name)]. *)
Definition repo_path (name : string) : string := REPO_DIR ++ "/" ++ name.

(** [os.path.exists(p)] for the paths the bot uses. *)
Definition path_exists (w : ws) (p : string) : bool :=
  (String.eqb p REPO_DIR && ws_dir w) ||
  (String.eqb p (repo_path "logo.png") && ws_dir w && bool_decide (is_Some (t_logo (ws_files w)))) ||
  (String.eqb p (repo_path "index.html") && ws_dir w && bool_decide (is_Some (t_index (ws_files w)))).

Section WithEnv.
Context `{GitEnv}.
Variable GITHUB_REPO_URL GITHUB_PAT : string.

Definition run_git_command (c : git_cmd) : PyM ws bool :=
  fun w =>
    let w1 := log_cmd w c in
    match git_exec c w1 with
    | Some w' => (ROk true, w')
    | None => (ROk false, w1)
    end.

Definition authenticated_url : string :=
  py_replace GITHUB_REPO_URL "https://" ("https://oauth2:" ++ GITHUB_PAT ++ "@").

Definition setup_git_repo : PyM ws bool :=
  w ← get_st;
  if negb (path_exists w REPO_DIR)
  then run_git_command (GClone authenticated_url REPO_DIR)
  else run_git_command GPull.

(** [push_to_github(filename, branch_name, logo_path)]. *)
(** [subprocess.run(["git", "branch", "-r"], cwd=REPO_DIR,
    capture_output=True, text=True)]: the command line is run and logged
    like the others; without [check=True] a failure only leaves the
    output empty, and a missing [cwd] raises [FileNotFoundError], an
    [OSError]. *)
Definition git_branch_r : PyM ws string :=
  fun w =>
    if ws_dir w then let w1 := log_cmd w GBranchR in (ROk (branch_r_output w1), w1)
    else (RExc OSError, w).

Definition push_to_github (filename branch_name : string) (logo_path : option string)
    : PyM ws bool :=
  let branch_name := sanitize_branch_name branch_name in
  result ← git_branch_r;
  let stdout := result in
  ok ← (if py_in ("origin/" ++ branch_name) stdout
        then run_git_command (GCheckout branch_name)
        else run_git_command (GCheckoutNew branch_name));
  if negb ok then mret false else
  ok ← run_git_command (GAdd filename);
  if negb ok then mret false else
  w ← get_st;
  ok ← (match logo_path with
        | Some p => if negb (String.eqb p "") && path_exists w p
                    then run_git_command (GAdd "logo.png") else mret true
        | None => mret true
        end);
  if negb ok then mret false else
  let commit_message := "feat: add new landing page for " ++ branch_name in
  ok ← run_git_command (GCommit commit_message);
  if negb ok then mret false else
  ok ← run_git_command (GPush branch_name);
  if negb ok then mret false else
  mret true.

(** ** Stages of a publish *)

Lemma run_git_command_eq c w :
  run_git_command c w =
  match git_exec c (log_cmd w c) with
  | Some w' => (ROk true, w')
  | None => (ROk false, log_cmd w c)
  end.
Proof. reflexivity. Qed.

Lemma run_git_command_no_raise c : no_raise (run_git_command c).
Proof. intros w. rewrite run_git_command_eq. case_match; eauto. Qed.

#[local] Hint Resolve run_git_command_no_raise : bot.

Lemma setup_git_repo_no_raise : no_raise setup_git_repo.
Proof. unfold setup_git_repo. program_logic. Qed.

(** The remote agrees with the old one except on branch [b]. *)
Definition remote_agree (b : string) (w w' : ws) : Prop :=
  r_default (ws_remote w') = r_default (ws_remote w) /\
  forall k, k <> b -> r_refs (ws_remote w') !! k = r_refs (ws_remote w) !! k.

#[export] Instance remote_agree_preorder b : PreOrder (remote_agree b).
Proof.
  split; [by intros w; split|].
  intros w1 w2 w3 [D1 R1] [D2 R2]. split; [congruence|]. intros k Hk.
  by rewrite R2, R1.
Qed.

Lemma run_git_command_agree b c :
  (forall b', c = GPush b' -> b' = b) -> preserves (remote_agree b) (run_git_command c).
Proof.
  intros Hc w. rewrite run_git_command_eq.
  destruct (git_exec c (log_cmd w c)) as [w'|] eqn:E; simpl; [|by split].
  destruct c as [| | | | | |b'|]; try (apply git_exec_remote in E; [|done];
    unfold remote_agree; rewrite E; by split).
  specialize (Hc b' eq_refl). subst b'.
  apply git_exec_push in E as (r & loc & _ & _ & E).
  unfold remote_agree. rewrite E. split; [done|].
  intros k Hk. cbn [r_refs]. by rewrite lookup_insert_ne.
Qed.

(** [git branch -r] only reads the repository. *)
Lemma git_branch_r_agree b : preserves (remote_agree b) git_branch_r.
Proof. intros w. unfold git_branch_r. by destruct (ws_dir w). Qed.

#[local] Hint Resolve git_branch_r_agree : bot.

Lemma git_branch_r_run w :
  ws_dir w = true -> git_branch_r w = (ROk (branch_r_output w), log_cmd w GBranchR).
Proof. intros Hd. unfold git_branch_r. by rewrite Hd. Qed.

(** Every command of a failed run but the push itself leaves the remote. *)
Lemma run_git_command_false c w w' :
  run_git_command c w = (ROk false, w') -> w' = log_cmd w c.
Proof. rewrite run_git_command_eq. case_match; congruence. Qed.

Lemma run_git_command_true_remote c w w' :
  run_git_command c w = (ROk true, w') -> (forall b, c <> GPush b) ->
  ws_remote w' = ws_remote w.
Proof.
  rewrite run_git_command_eq. destruct (git_exec c (log_cmd w c)) eqn:E; [|congruence].
  intros [= <-] Hc. by rewrite (git_exec_remote _ _ _ E Hc).
Qed.

Lemma run_git_command_exc c w e w' : run_git_command c w = (RExc e, w') -> False.
Proof. rewrite run_git_command_eq. case_match; congruence. Qed.

(** Split a run of a publisher function at each git command line. *)
Ltac git_runs :=
  repeat match goal with
         | |- context [git_branch_r ?w] => unfold git_branch_r; destruct (ws_dir w) eqn:?
         | |- context [run_git_command ?c ?w] =>
             let E := fresh "E" in
             destruct (run_git_command c w) as [[[|]|?] ?] eqn:E;
             [cbn [negb]|cbn [negb]|exfalso; exact (run_git_command_exc _ _ _ _ E)]
         | |- context [match ?x with Some _ => _ | None => _ end] => destruct x eqn:?
         | |- context [if ?b then _ else _] => destruct b eqn:?
         end; cbn [negb] in *.

(** Turn the facts about each command line into equations on the remote. *)
Ltac remote_facts :=
  repeat match goal with
         | E : run_git_command _ _ = (ROk false, _) |- _ =>
             apply run_git_command_false in E; subst
         | E : run_git_command (GPush _) _ = (ROk true, _) |- _ => clear E
         | E : run_git_command _ _ = (ROk true, _) |- _ =>
             apply run_git_command_true_remote in E; [|by intros ? ?]
         end.

(** Claim C9 (push_frame): a run of [push_to_github] for the channel text
    [name] changes no remote branch but [sanitize_branch_name name], and
    leaves the default branch of the remote as it is. *)
Theorem push_to_github_frame f name logo :
  preserves (remote_agree (sanitize_branch_name name)) (push_to_github f name logo).
Proof.
  unfold push_to_github. program_logic;
    apply run_git_command_agree; by intros ? [= ->].
Qed.

(** Claim C24 (push_fail): when [push_to_github] returns [False] the remote
    is exactly as it was: no step before the push changes it, and the push
    is the last step. *)
Theorem push_to_github_failed_remote f name logo w w' :
  push_to_github f name logo w = (ROk false, w') -> ws_remote w' = ws_remote w.
Proof.
  unfold push_to_github. pym_simpl. git_runs; intros [= <-]; remote_facts;
    simpl in *; congruence.
Qed.

(** ** What a successful publish leaves behind *)

(** After the checkout: branch [b] is current and the page is in the
    worktree. *)
Definition ready (b html : string) (w : ws) : Prop :=
  exists r, ws_repo w = Some r /\ head r = b /\ t_index (ws_files w) = Some html.

(** After [git add index.html]: the page is staged on branch [b]. *)
Definition staged (b html : string) (w : ws) : Prop :=
  exists r, ws_repo w = Some r /\ head r = b /\ t_index (index r) = Some html.

(** After the commit: the tip of the local branch [b] holds the page. *)
Definition committed (b html : string) (w : ws) : Prop :=
  exists r c, ws_repo w = Some r /\ branches r !! b = Some c /\
    t_index (commit_tree c) = Some html.

Lemma run_git_command_true c w w' :
  run_git_command c w = (ROk true, w') -> git_exec c (log_cmd w c) = Some w'.
Proof. rewrite run_git_command_eq. case_match; congruence. Qed.

Lemma switch_path_keep h t i f i' f' :
  f <> h -> switch_path h t i f = Some (i', f') -> f' = f.
Proof. unfold switch_path. repeat case_decide; intros ? ?; naive_solver. Qed.

(** Git refuses to switch when the worktree file differs from both
    commits. *)
Lemma switch_path_conflict h t i f :
  h <> t -> f <> h -> f <> t -> switch_path h t i f = None.
Proof. intros. unfold switch_path. repeat case_decide; naive_solver. Qed.

Lemma switch_to_conflict w r b c br up :
  t_index (commit_tree c) <> t_index (head_tree r) ->
  t_index (ws_files w) <> t_index (head_tree r) ->
  t_index (ws_files w) <> t_index (commit_tree c) ->
  switch_to w r b c br up = None.
Proof.
  intros. unfold switch_to, switch_tree. by rewrite switch_path_conflict.
Qed.

Lemma switch_to_ready w r b c br up w' html :
  t_index (ws_files w) = Some html -> t_index (head_tree r) <> Some html ->
  switch_to w r b c br up = Some w' -> ready b html w'.
Proof.
  intros Hf Hh. unfold switch_to, switch_tree.
  destruct (switch_path _ _ _ (t_index (ws_files w))) as [[i1 f1]|] eqn:E1; [|done].
  repeat case_match; intros; simplify_eq.
  eexists; split; [done|split; [done|]]. simpl.
  assert (t_index (ws_files w) <> t_index (head_tree r)) as Hne by congruence.
  by rewrite (switch_path_keep _ _ _ _ _ _ Hne E1).
Qed.

Lemma checkout_ready cmd b w w' r html :
  cmd = GCheckout b \/ cmd = GCheckoutNew b ->
  ws_repo w = Some r -> t_index (ws_files w) = Some html ->
  t_index (head_tree r) <> Some html ->
  run_git_command cmd w = (ROk true, w') -> ready b html w'.
Proof.
  intros Hc Hr Hf Hh E. apply run_git_command_true in E.
  destruct Hc as [->| ->]; simpl in E; rewrite Hr in E.
  - unfold exec_checkout in E. case_decide; [simplify_eq; by exists r|].
    repeat case_match; simplify_eq;
      (eapply (switch_to_ready (log_cmd w _)); [exact Hf|exact Hh|exact E]).
  - unfold exec_checkout_new in E. case_match; simplify_eq. by eexists.
Qed.

Lemma add_index_staged b html w w' :
  ready b html w -> run_git_command (GAdd "index.html") w = (ROk true, w') ->
  staged b html w'.
Proof.
  intros (r & Hr & Hb & Hf) E. apply run_git_command_true in E.
  simpl in E. rewrite Hr in E. unfold exec_add in E. simpl in E.
  rewrite Hf in E. simplify_eq. by eexists.
Qed.

Lemma add_logo_staged b html w w' :
  staged b html w -> run_git_command (GAdd "logo.png") w = (ROk true, w') ->
  staged b html w'.
Proof.
  intros (r & Hr & Hb & Hi) E. apply run_git_command_true in E.
  simpl in E. rewrite Hr in E. unfold exec_add in E. simpl in E.
  repeat case_match; simplify_eq; by eexists.
Qed.

Lemma commit_committed b html m w w' :
  staged b html w -> run_git_command (GCommit m) w = (ROk true, w') ->
  committed b html w'.
Proof.
  intros (r & Hr & <- & Hi) E. apply run_git_command_true in E.
  simpl in E. rewrite Hr in E. unfold exec_commit in E.
  case_decide; [done|]. simplify_eq. do 2 eexists. split; [done|].
  cbn [branches head index]. rewrite lookup_insert_eq. split; [done|]. by case_match.
Qed.

Lemma push_published b html w w' :
  committed b html w -> run_git_command (GPush b) w = (ROk true, w') ->
  exists c, r_refs (ws_remote w') !! b = Some c /\ t_index (commit_tree c) = Some html.
Proof.
  intros (r & c & Hr & Hc & Hi) E. apply run_git_command_true, git_exec_push in E
    as (r' & loc & Hr' & Hloc & ->).
  simpl in Hr'. rewrite Hr in Hr'. simplify_eq. exists c. cbn [r_refs].
  by rewrite lookup_insert_eq.
Qed.

(** Claim C4 (push_publish): when [push_to_github("index.html", name, _)]
    returns [True] on a working copy whose [index.html] holds a page
    different from the one of the current commit, the remote branch
    [sanitize_branch_name name] ends at a commit whose [index.html] is that
    page. *)
Theorem push_to_github_publishes name logo w w' r html :
  ws_repo w = Some r -> t_index (ws_files w) = Some html ->
  t_index (head_tree r) <> Some html ->
  push_to_github "index.html" name logo w = (ROk true, w') ->
  exists c, r_refs (ws_remote w') !! sanitize_branch_name name = Some c /\
            t_index (commit_tree c) = Some html.
Proof.
  intros Hr Hf Hh. unfold push_to_github. pym_simpl. git_runs; intros [= <-];
    repeat match goal with
    | E : run_git_command (GCheckout _) _ = (ROk true, _) |- _ =>
        eapply checkout_ready in E; [|by left|exact Hr|exact Hf|exact Hh]
    | E : run_git_command (GCheckoutNew _) _ = (ROk true, _) |- _ =>
        eapply checkout_ready in E; [|by right|exact Hr|exact Hf|exact Hh]
    | S : ready _ _ ?w, E : run_git_command (GAdd "index.html") ?w = (ROk true, _) |- _ =>
        pose proof (add_index_staged _ _ _ _ S E); clear S E
    | S : staged _ _ ?w, E : run_git_command (GAdd "logo.png") ?w = (ROk true, _) |- _ =>
        pose proof (add_logo_staged _ _ _ _ S E); clear S E
    | S : staged _ _ ?w, E : run_git_command (GCommit _) ?w = (ROk true, _) |- _ =>
        pose proof (commit_committed _ _ _ _ _ S E); clear S E
    | S : committed _ _ ?w, E : run_git_command (GPush _) ?w = (ROk true, _) |- _ =>
        exact (push_published _ _ _ _ S E)
    end.
Qed.

(** ** Failure modes of the publish protocol *)

(** Claim C26 (push_substr): the existence test of [push_to_github] is a
    substring test on the output of [git branch -r]: when ["origin/" + b]
    occurs in it only as the prefix of a longer branch name (for instance
    [origin/page-foo-bar] for [b = page-foo]), the code runs [git checkout b]
    on a branch that exists nowhere, git refuses, and the publish fails
    although creating the branch would have worked. *)
Theorem push_to_github_substring_collision f name logo w r :
  ws_dir w = true -> ws_repo w = Some r ->
  py_in ("origin/" ++ sanitize_branch_name name) (branch_r_output w) = true ->
  sanitize_branch_name name <> head r ->
  branches r !! sanitize_branch_name name = None ->
  origin r !! sanitize_branch_name name = None ->
  push_to_github f name logo w =
    (ROk false, log_cmd (log_cmd w GBranchR) (GCheckout (sanitize_branch_name name))).
Proof.
  intros Hd Hr Hin Hh Hb Ho. unfold push_to_github. pym_simpl.
  rewrite (git_branch_r_run w Hd). cbv beta iota. rewrite Hin.
  rewrite run_git_command_eq. simpl. rewrite Hr. unfold exec_checkout.
  rewrite decide_False by done. by rewrite Hb, Ho.
Qed.

(** Claim C25 (setup_noup): once the current branch has no upstream (a new
    branch whose first push failed stays checked out without one),
    [setup_git_repo] runs [git pull], which fails, and leaves the state as
    it was: every later publish stops at "Could not set up the Git
    repository". *)
Theorem setup_git_repo_no_upstream w r :
  ws_dir w = true -> ws_repo w = Some r -> head r ∉ upstream r ->
  setup_git_repo w = (ROk false, log_cmd w GPull).
Proof.
  intros Hd Hr Hu. unfold setup_git_repo. pym_simpl.
  unfold path_exists. rewrite Hd. simpl.
  rewrite run_git_command_eq. simpl. rewrite Hr. unfold exec_pull.
  destruct (git_net_ok GPull); [|done]. by case_decide.
Qed.

(** When [REPO_DIR] exists but holds no repository
    (the logo handler creates it with [os.makedirs] before any clone),
    [setup_git_repo] does not clone: it runs [git pull] outside a
    repository, which fails, and will fail on every later attempt. *)
Theorem setup_git_repo_dir_without_repo w :
  ws_dir w = true -> ws_repo w = None ->
  setup_git_repo w = (ROk false, log_cmd w GPull).
Proof.
  intros Hd Hr. unfold setup_git_repo. pym_simpl.
  unfold path_exists. rewrite Hd. simpl.
  rewrite run_git_command_eq. simpl. by rewrite Hr.
Qed.

(** A successful [setup_git_repo] leaves [REPO_DIR] in place. *)
Lemma setup_git_repo_dir w w' :
  setup_git_repo w = (ROk true, w') -> ws_dir w' = true.
Proof.
  unfold setup_git_repo. pym_simpl.
  destruct (negb (path_exists w REPO_DIR)); rewrite run_git_command_eq;
    (case_match; [intros [= <-]|congruence]); simpl in *;
    [unfold exec_clone in *|destruct (ws_repo w); [|done]; unfold exec_pull, switch_to in *];
    repeat case_match; simplify_eq; done.
Qed.

(** Claim C27 (push_conflict): republishing a channel whose branch exists,
    while the working copy is on another page's branch (the last page
    published), fails: [index.html] already holds the new page, which
    differs from both branches' versions, and [git checkout] refuses to
    overwrite it.  A user can publish a new version of their page only
    if nobody published another page in between. *)
Theorem push_to_github_checkout_refused f name logo w r c :
  ws_dir w = true -> ws_repo w = Some r ->
  py_in ("origin/" ++ sanitize_branch_name name) (branch_r_output w) = true ->
  sanitize_branch_name name <> head r ->
  (branches r !! sanitize_branch_name name = Some c \/
   branches r !! sanitize_branch_name name = None /\
   origin r !! sanitize_branch_name name = Some c) ->
  t_index (commit_tree c) <> t_index (head_tree r) ->
  t_index (ws_files w) <> t_index (head_tree r) ->
  t_index (ws_files w) <> t_index (commit_tree c) ->
  push_to_github f name logo w =
    (ROk false, log_cmd (log_cmd w GBranchR) (GCheckout (sanitize_branch_name name))).
Proof.
  intros Hd Hr Hin Hh Hc Hct Hfh Hfc. unfold push_to_github. pym_simpl.
  rewrite (git_branch_r_run w Hd). cbv beta iota. rewrite Hin.
  rewrite run_git_command_eq. simpl. rewrite Hr. unfold exec_checkout.
  rewrite decide_False by done.
  destruct Hc as [-> | [-> ->]]; by rewrite switch_to_conflict.
Qed.

(** Claim C28 (push_nochange): publishing a page identical to the one the
    current branch already holds (the same user publishing the same
    content again) is reported as a failure: [git commit] has nothing to
    commit. *)
Theorem push_to_github_nothing_to_commit name w r html :
  ws_dir w = true -> ws_repo w = Some r -> head r = sanitize_branch_name name ->
  py_in ("origin/" ++ sanitize_branch_name name) (branch_r_output w) = true ->
  index r = head_tree r -> t_index (ws_files w) = Some html ->
  t_index (head_tree r) = Some html ->
  fst (push_to_github "index.html" name None w) = ROk false.
Proof.
  intros Hd Hr Hh Hin Hi Hf Hht. unfold push_to_github. pym_simpl.
  rewrite (git_branch_r_run w Hd). cbv beta iota. rewrite Hin.
  rewrite run_git_command_eq. simpl. rewrite Hr. unfold exec_checkout.
  rewrite decide_True by done. simpl.
  rewrite run_git_command_eq. simpl. rewrite Hr. unfold exec_add. simpl. rewrite Hf.
  simpl. rewrite run_git_command_eq. simpl. unfold exec_commit. simpl.
  case_decide as Hne; [done|]. exfalso. apply Hne. unfold head_tree at 1. simpl.
  fold (head_tree r). rewrite Hi, <- Hht. by destruct (head_tree r).
Qed.

(** Claim C8 (push_republish): publishing again on a branch that was
    published before, from a clean working copy on that branch with a new
    page in [index.html], succeeds: the remote keeps exactly the branches
    it had, and that branch now ends at a child of its old tip holding the
    new page (no duplicate branch, a fast-forward). *)
Theorem push_to_github_republish name w r c html :
  ws_dir w = true -> ws_repo w = Some r -> head r = sanitize_branch_name name ->
  branches r !! sanitize_branch_name name = Some c ->
  origin r !! sanitize_branch_name name = Some c ->
  r_refs (ws_remote w) !! sanitize_branch_name name = Some c ->
  index r = commit_tree c -> t_index (ws_files w) = Some html ->
  t_index (commit_tree c) <> Some html ->
  git_net_ok (GPush (sanitize_branch_name name)) = true ->
  exists c' w', push_to_github "index.html" name None w = (ROk true, w') /\
    r_refs (ws_remote w') = <[sanitize_branch_name name := c']> (r_refs (ws_remote w)) /\
    t_index (commit_tree c') = Some html /\ is_ancestor c c' = true.
Proof.
  intros Hd Hr Hh Hb Ho Hrm Hi Hf Hc Hnet.
  unfold push_to_github. pym_simpl. rewrite (git_branch_r_run w Hd). cbv beta iota.
  rewrite (branch_r_output_has w r _ c Hr Ho).
  rewrite run_git_command_eq. simpl. rewrite Hr. unfold exec_checkout.
  case_decide; [|congruence]. simpl.
  rewrite run_git_command_eq. simpl. rewrite Hr. unfold exec_add. simpl. rewrite Hf. simpl.
  rewrite run_git_command_eq. simpl. unfold exec_commit. simpl.
  case_decide as Hne.
  { exfalso. apply Hc. unfold head_tree in Hne. simpl in Hne. rewrite <- H0, Hb in Hne.
    by rewrite <- Hne. }
  simpl. rewrite <- H0, Hb.
  rewrite run_git_command_eq. simpl. unfold exec_push. rewrite Hnet.
  cbn [branches ws_remote log_cmd set_repo]. rewrite lookup_insert_eq, Hrm.
  rewrite is_ancestor_parent. simpl.
  eexists _, _. split; [reflexivity|]. split; [reflexivity|].
  split; [done|apply is_ancestor_parent].
Qed.

(** ** How many git commands a publish runs *)

(** The number of command lines run so far. *)
Definition git_log_len (w : ws) : nat := List.length (ws_log w).

Lemma run_git_command_costs c : costs git_log_len 1 (run_git_command c).
Proof.
  intros w. unfold run_git_command, git_log_len.
  destruct (git_exec c (log_cmd w c)) eqn:E; simpl;
    [erewrite git_exec_log by eassumption|]; simpl; rewrite length_app; simpl; lia.
Qed.

Lemma git_branch_r_costs : costs git_log_len 1 git_branch_r.
Proof.
  intros w. unfold git_branch_r, git_log_len.
  destruct (ws_dir w); simpl; [rewrite length_app; simpl|]; lia.
Qed.

#[local] Hint Resolve run_git_command_costs git_branch_r_costs : costs.

Lemma setup_git_repo_costs : costs git_log_len 1 setup_git_repo.
Proof. unfold setup_git_repo. cost_logic. Qed.

(** [push_to_github] runs at most six git command lines ([branch -r],
    checkout, add, add of the logo, commit, push): a failed command stops
    it. *)
Lemma push_to_github_costs f name logo : costs git_log_len 6 (push_to_github f name logo).
Proof. unfold push_to_github. cost_logic. Qed.

End WithEnv.

#[export] Hint Resolve run_git_command_costs git_branch_r_costs setup_git_repo_costs push_to_github_costs : costs.

(** ** The clone URL *)

(** Claim C16 (auth_url): for a repository URL [https://rest] with no other
    [https://] in it, [setup_git_repo] clones from
    [https://oauth2:<token>@rest]: the token becomes the userinfo of the
    URL and the rest of the URL is kept. *)
Theorem authenticated_url_userinfo url pat rest :
  url = "https://" ++ rest -> py_in "https://" rest = false ->
  authenticated_url url pat = "https://oauth2:" ++ pat ++ "@" ++ rest.
Proof.
  intros -> Hr. unfold authenticated_url. rewrite py_replace_reference.
  change ("https://" ++ rest) with (String "h" ("ttps://" ++ rest)). rewrite str_replace_cons.
  rewrite (prefix_app_self "https://" rest
             : String.prefix "https://" (String "h" ("ttps://" ++ rest)) = true).
  match goal with |- context [substring ?n ?m ?s] => replace (substring n m s) with rest end;
    [by rewrite str_replace_absent, !string_app_assoc|].
  symmetry. apply (substring_app_r_le "https://" rest). simpl. lia.
Qed.

(** ** Witnesses: the theorems above at concrete working copies *)

Lemma authenticated_url_userinfo_witness :
  "https://github.com/o/r" = "https://" ++ "github.com/o/r" /\
  py_in "https://" "github.com/o/r" = false /\
  authenticated_url "https://github.com/o/r" "tok" = "https://oauth2:" ++ "tok" ++ "@" ++ "github.com/o/r".
Proof.
  split; [reflexivity|]. split; [reflexivity|].
  apply authenticated_url_userinfo; reflexivity.
Defined.

Definition demo_ws : ws := cloned_ws [] "<p>new</p>".

Lemma push_to_github_publishes_witness :
  exists c,
    r_refs (ws_remote (snd (@push_to_github net_up "index.html" "page-Demo" None demo_ws)))
      !! sanitize_branch_name "page-Demo" = Some c /\
    t_index (commit_tree c) = Some "<p>new</p>".
Proof.
  eapply (@push_to_github_publishes net_up "page-Demo" None demo_ws);
    [reflexivity|reflexivity|vm_compute; congruence|].
  vm_compute. reflexivity.
Defined.

Lemma push_to_github_failed_remote_witness :
  ws_remote (snd (@push_to_github net_push_down "index.html" "page-Demo" None demo_ws))
  = ws_remote demo_ws.
Proof. apply (@push_to_github_failed_remote net_push_down "index.html" "page-Demo" None).
  vm_compute. reflexivity.
Defined.

(** The remote has [page-foo-bar]; publishing the channel [foo] fails. *)
Definition collision_ws : ws := cloned_ws [("page-foo-bar", init_commit)] "<p>foo</p>".

Lemma push_to_github_substring_collision_witness :
  @push_to_github net_up "index.html" "page-foo" None collision_ws =
    (ROk false, log_cmd (log_cmd collision_ws GBranchR) (GCheckout (sanitize_branch_name "page-foo"))).
Proof.
  apply (@push_to_github_substring_collision net_up "index.html" "page-foo" None collision_ws
           (mk_repo "main" {["main" := init_commit]} {["main"]}
              (r_refs (remote_of [("page-foo-bar", init_commit)])) (commit_tree init_commit)));
    vm_compute; first [reflexivity | congruence].
Defined.

(** A working copy on [page-x], a branch whose push failed: no upstream. *)
Definition detached_ws : ws :=
  mk_ws true (Some (mk_repo "page-x" {["main" := init_commit; "page-x" := init_commit]}
                      {["main"]} (r_refs (remote_of [])) (commit_tree init_commit)))
    (mk_tree (Some "<p>x</p>") None) (remote_of []) [].

Lemma setup_git_repo_no_upstream_witness :
  @setup_git_repo net_up "https://github.com/o/r" "tok" detached_ws =
    (ROk false, log_cmd detached_ws GPull).
Proof.
  eapply (@setup_git_repo_no_upstream net_up); [reflexivity|reflexivity|].
  vm_compute. set_solver.
Defined.

(** [REPO_DIR] made by the logo download, before any clone. *)
Definition bare_dir_ws : ws :=
  mk_ws true None (mk_tree None (Some "PNG")) (remote_of []) [].

Lemma setup_git_repo_dir_without_repo_witness :
  @setup_git_repo net_up "https://github.com/o/r" "tok" bare_dir_ws =
    (ROk false, log_cmd bare_dir_ws GPull).
Proof. apply (@setup_git_repo_dir_without_repo net_up); reflexivity. Defined.

(** Two pages published: [page-a], then [page-b]; the working copy is on
    [page-b]. *)
Definition page_a : commit :=
  Child init_commit (mk_tree (Some "<p>a</p>") None) "feat: add new landing page for page-a".
Definition page_b : commit :=
  Child init_commit (mk_tree (Some "<p>b</p>") None) "feat: add new landing page for page-b".
Definition two_pages_origin : gmap string commit :=
  {["main" := init_commit; "page-a" := page_a; "page-b" := page_b]}.

(** The owner of [page-a] has written a new version of their page. *)
Definition republish_ws : ws :=
  mk_ws true (Some (mk_repo "page-b" {["main" := init_commit; "page-b" := page_b]}
                      {["main"; "page-b"]} two_pages_origin (commit_tree page_b)))
    (mk_tree (Some "<p>a2</p>") None) (mk_remote "main" two_pages_origin) [].

Lemma push_to_github_checkout_refused_witness :
  @push_to_github net_up "index.html" "page-a" None republish_ws =
    (ROk false, log_cmd (log_cmd republish_ws GBranchR) (GCheckout (sanitize_branch_name "page-a"))).
Proof.
  apply (@push_to_github_checkout_refused net_up "index.html" "page-a" None republish_ws
           (mk_repo "page-b" {["main" := init_commit; "page-b" := page_b]}
              {["main"; "page-b"]} two_pages_origin (commit_tree page_b)) page_a);
    vm_compute; first [reflexivity | congruence | (right; split; reflexivity)].
Defined.

(** The working copy on [page-a], which already holds the same page. *)
Definition same_page_ws : ws :=
  mk_ws true (Some (mk_repo "page-a" {["main" := init_commit; "page-a" := page_a]}
                      {["main"; "page-a"]} two_pages_origin (commit_tree page_a)))
    (mk_tree (Some "<p>a</p>") None) (mk_remote "main" two_pages_origin) [].

Lemma push_to_github_nothing_to_commit_witness :
  fst (@push_to_github net_up "index.html" "page-a" None same_page_ws) = ROk false.
Proof.
  apply (@push_to_github_nothing_to_commit net_up "page-a" same_page_ws
           (mk_repo "page-a" {["main" := init_commit; "page-a" := page_a]}
              {["main"; "page-a"]} two_pages_origin (commit_tree page_a)) "<p>a</p>");
    vm_compute; reflexivity.
Defined.

(** The working copy on [page-a], clean, with a new version of the page. *)
Definition new_version_ws : ws :=
  mk_ws true (Some (mk_repo "page-a" {["main" := init_commit; "page-a" := page_a]}
                      {["main"; "page-a"]} two_pages_origin (commit_tree page_a)))
    (mk_tree (Some "<p>a2</p>") None) (mk_remote "main" two_pages_origin) [].

Lemma push_to_github_republish_witness :
  exists c' w', @push_to_github net_up "index.html" "page-a" None new_version_ws = (ROk true, w') /\
    r_refs (ws_remote w') = <[sanitize_branch_name "page-a" := c']> (r_refs (ws_remote new_version_ws)) /\
    t_index (commit_tree c') = Some "<p>a2</p>" /\ is_ancestor page_a c' = true.
Proof.
  apply (@push_to_github_republish net_up "page-a" new_version_ws
           (mk_repo "page-a" {["main" := init_commit; "page-a" := page_a]}
              {["main"; "page-a"]} two_pages_origin (commit_tree page_a)) page_a "<p>a2</p>");
    vm_compute; first [reflexivity | congruence].
Defined.

End Publisher.
