(* ===== verification/Generator.v ===== *)
(** * The content generator adapter: [get_system_prompt] and
      [generate_page_html] (bot.py 47-128)

    [generate_page_html] builds two prompts, posts them once to the Gemini
    endpoint, digs the text out of the JSON answer at
    [result['candidates'][0]['content']['parts'][0]['text']], and strips a
    [```html ... ```] fence.  The endpoint is the environment: the class
    [GeminiEnv] gives its answer to each request, either an exception of
    [requests] or a status code with a body that is a JSON value or not.
    The requests sent are the state of the adapter (a log), so that the
    pipeline can state when the endpoint is called.  Python's behaviour on
    the answer is kept: [requests] exceptions (transport errors,
    [raise_for_status] on 4xx/5xx, a body that is not JSON) give [None];
    a JSON answer of another shape raises [KeyError], [IndexError],
    [TypeError] or [AttributeError], which the code does not catch. *)

From S2P Require Import Prelude PyStr.
From Stdlib Require Import ZArith.

Local Open Scope string_scope.

Module Generator.

(** ** Constants of bot.py *)

Definition nl : string := String (ascii_of_nat 10) EmptyString.
Definition dq : string := String (ascii_of_nat 34) EmptyString.

(** [LANDING_PAGE_TYPES] (bot.py 48-59), a dict in insertion order. *)
Definition LANDING_PAGE_TYPES : list (string * string) := [
  ("1", "Tech Startup - Modern, clean design with focus on innovation");
  ("2", "E-commerce Store - Product showcase with shopping features");
  ("3", "Personal Brand - Professional portfolio and about section");
  ("4", "SaaS Product - Software service with features and pricing");
  ("5", "Restaurant/Food - Culinary focus with menu highlights");
  ("6", "Fitness/Health - Workout plans and health tips");
  ("7", "Education/Course - Learning platform with course offerings");
  ("8", "Non-profit - Cause-focused with donation features");
  ("9", "Real Estate - Property listings and contact forms");
  ("10", "Creative Agency - Portfolio showcase and services")].

(** Dictionary lookup in a dict literal ([d.get(k)]; the keys are
    distinct). *)
Fixpoint dict_get (d : list (string * string)) (k : string) : option string :=
  match d with
  | [] => None
  | (k', v) :: r => if String.eqb k k' then Some v else dict_get r k
  end.

(** [key in d] for a key that may be [None] ([user_data.get] of an unset
    field): [None] is never a key of these dicts. *)
Definition dict_lookup_opt (d : list (string * string)) (k : option string) : option string :=
  match k with Some k => dict_get d k | None => None end.

(** [type_instructions] of [get_system_prompt] (bot.py 79-90). *)
Definition type_instructions : list (string * string) := [
  ("1", "Focus on modern tech aesthetics, innovation, and cutting-edge design. Use tech-related colors like blues, purples, and cyans.");
  ("2", "Emphasize product showcase, shopping experience, and e-commerce features. Use warm, inviting colors like oranges, reds, and golds.");
  ("3", "Professional, clean design with personal branding. Use sophisticated colors like navy, gold, and whites.");
  ("4", "Software-focused with features, pricing, and signup forms. Use professional blues, greens, and modern gradients.");
  ("5", "Food-focused with appetizing visuals and warm colors. Use reds, oranges, and food-related imagery descriptions.");
  ("6", "Energetic, motivational design with fitness themes. Use vibrant colors like greens, oranges, and energetic gradients.");
  ("7", "Educational, trustworthy design with learning focus. Use academic colors like deep blues, purples, and scholarly tones.");
  ("8", "Cause-focused, emotional design with donation features. Use meaningful colors like greens, blues, and compassionate tones.");
  ("9", "Professional, trustworthy design for property listings. Use earth tones, blues, and professional gradients.");
  ("10", "Creative, artistic design showcasing portfolio work. Use bold, creative colors and artistic gradients.")].

(** ** [get_system_prompt(page_type, channel_name, footer_text)] *)

Definition base_prompt (channel_name : string) : string :=
  nl ++ "You are a web page generator. Your task is to generate a complete, single-file HTML landing page for a channel called " ++ dq ++ channel_name ++ dq ++ "." ++ nl ++
  "The page must be fully responsive and styled with Tailwind CSS." ++ nl ++
  "It must follow this specific structure:" ++ nl ++
  "1. A centered header with a logo (logo.png), title, and tagline." ++ nl ++
  "2. A call-to-action section with a button and a 15-second countdown timer." ++ nl ++
  "3. A main content section with a heading and two paragraphs." ++ nl ++
  "4. A footer with a credit link." ++ nl ++
  "The page should have a dark background and use vibrant, contrasting colors. The button must have a multi-color gradient and a subtle breathing animation. All text must be centered." ++ nl ++
  "Do NOT include any external JavaScript or CSS files, put all code in a single file." ++ nl.

Definition get_system_prompt (page_type channel_name footer_text : option string) : string :=
  let p := base_prompt (py_fmt_opt channel_name) in
  let p := if py_truthy footer_text
           then p ++ nl ++ "The footer should include: 'Ads by " ++ py_fmt_opt footer_text ++ "'"
           else p in
  let p := match dict_lookup_opt type_instructions page_type with
           | Some ins => p ++ nl ++ ins
           | None => p
           end in
  p ++ nl ++ "Respond with ONLY the raw HTML code, no extra text or markdown.".

(** ** The endpoint *)

Inductive json :=
| JNull
| JBool (b : bool)
| JNum (n : Z)
| JStr (s : string)
| JArr (l : list json)
| JObj (l : list (string * json)).

Record gemini_request := mk_gemini_request {
  gr_system : string;   (* systemInstruction.parts[0].text *)
  gr_user : string      (* contents[0].parts[0].text *)
}.

Inductive http_resp :=
| HttpExc                               (* requests raised RequestException *)
| HttpResp (status : Z) (body : option json).  (* None: the body is not JSON *)

Class GeminiEnv := { gemini_post : gemini_request -> http_resp }.

(** ** Python subscripts on a parsed JSON value *)

(** A JSON object keeps the last of duplicated keys. *)
Fixpoint assoc_last (k : string) (l : list (string * json)) : option json :=
  match l with
  | [] => None
  | (k', v) :: r =>
      match assoc_last k r with
      | Some x => Some x
      | None => if String.eqb k k' then Some v else None
      end
  end.

Definition res_bind {A B} (r : res A) (f : A -> res B) : res B :=
  match r with ROk a => f a | RExc e => RExc e end.

(** [v[k]] for a string key. *)
Definition getitem_key (v : json) (k : string) : res json :=
  match v with
  | JObj l => match assoc_last k l with Some x => ROk x | None => RExc (KeyError k) end
  | _ => RExc TypeError
  end.

(** [v[0]]. *)
Definition getitem_0 (v : json) : res json :=
  match v with
  | JArr (x :: _) => ROk x
  | JArr [] => RExc IndexError
  | JStr (String c _) => ROk (JStr (String c EmptyString))
  | JStr EmptyString => RExc IndexError
  | JObj _ => RExc (KeyError "0")
  | _ => RExc TypeError
  end.

(** [result['candidates'][0]['content']['parts'][0]['text']]. *)
Definition extract_text (result : json) : res json :=
  res_bind (getitem_key result "candidates") (fun v =>
  res_bind (getitem_0 v) (fun v =>
  res_bind (getitem_key v "content") (fun v =>
  res_bind (getitem_key v "parts") (fun v =>
  res_bind (getitem_0 v) (fun v =>
  getitem_key v "text"))))).

(** The fence strip of bot.py 121-122. *)
Definition strip_html_fence (generated_text : string) : string :=
  if startswith generated_text "```html" && endswith generated_text "```"
  then py_strip (py_slice generated_text 7 (String.length generated_text - 3))
  else generated_text.

(** [response.raise_for_status()] raises for 4xx and 5xx. *)
Definition http_error (status : Z) : bool := (400 <=? status)%Z && (status <? 600)%Z.

Definition user_prompt (page_type channel_name : option string) : string :=
  let desc := match dict_lookup_opt LANDING_PAGE_TYPES page_type with
              | Some d => d
              | None => "landing page"
              end in
  "Create a " ++ desc ++ " for the channel '" ++ py_fmt_opt channel_name ++ "'".

Definition page_request (page_type channel_name footer_text : option string) : gemini_request :=
  mk_gemini_request (get_system_prompt page_type channel_name footer_text)
    (user_prompt page_type channel_name).

(** A text wrapped in [```html] and [```] loses both
    delimiters, and what is between them is stripped of white space. *)
Lemma strip_html_fence_wrapped x :
  strip_html_fence ("```html" ++ x ++ "```") = py_strip x.
Proof.
  unfold strip_html_fence. rewrite startswith_app.
  rewrite <- string_app_assoc, endswith_app, string_app_assoc. simpl andb.
  unfold py_slice. rewrite !string_length_app.
  replace (String.length "```html" + (String.length x + String.length "```") - 3 - 7)
    with (String.length x) by (simpl; lia).
  assert (substring 7 (String.length x) ("```html" ++ x ++ "```") = x) as ->
    by exact (substring_app_mid "```html" x "```").
  done.
Qed.

(** The shape of a successful Gemini answer whose text is [t]. *)
Definition answer_with (t : string) : json :=
  JObj [("candidates", JArr [JObj [("content",
          JObj [("parts", JArr [JObj [("text", JStr t)]])])]])].

Lemma extract_text_answer_with t : extract_text (answer_with t) = ROk (JStr t).
Proof. reflexivity. Qed.

Section WithEndpoint.
Context `{GeminiEnv}.

(** [generate_page_html(page_type, channel_name, footer_text)]. *)
Definition generate_page_html (page_type channel_name footer_text : option string)
    : PyM (list gemini_request) (option string) :=
  let req := page_request page_type channel_name footer_text in
  modify_st (fun sent => (sent ++ [req])%list) ;;
  match gemini_post req with
  | HttpExc => mret None
  | HttpResp status body =>
      if http_error status then mret None
      else match body with
           | None => mret None
           | Some result =>
               match extract_text result with
               | RExc e => raise e
               | ROk (JStr generated_text) => mret (Some (strip_html_fence generated_text))
               | ROk _ => raise (AttributeError "startswith")
               end
           end
  end.

(** ** Properties of the adapter *)

Lemma generate_page_html_eq pt ch ft sent :
  generate_page_html pt ch ft sent =
  let req := page_request pt ch ft in
  let sent' := (sent ++ [req])%list in
  match gemini_post req with
  | HttpExc => (ROk None, sent')
  | HttpResp status body =>
      if http_error status then (ROk None, sent')
      else match body with
           | None => (ROk None, sent')
           | Some result =>
               match extract_text result with
               | RExc e => (RExc e, sent')
               | ROk (JStr t) => (ROk (Some (strip_html_fence t)), sent')
               | ROk _ => (RExc (AttributeError "startswith"), sent')
               end
           end
  end.
Proof. unfold generate_page_html. pym_simpl. repeat case_match; done. Qed.

(** Claim C32 (gen_once): [generate_page_html] sends exactly one request, the
    one built from the page type, the channel name and the footer, whatever
    the answer: a single attempt, no retry. *)
Theorem generate_page_html_single_request pt ch ft sent :
  snd (generate_page_html pt ch ft sent) = (sent ++ [page_request pt ch ft])%list.
Proof. rewrite generate_page_html_eq. simpl. by repeat case_match. Qed.

(** Claim C33 (gen_none): a transport exception, a 4xx/5xx status, or a body
    that is not JSON makes [generate_page_html] return [None]. *)
Theorem generate_page_html_request_error pt ch ft sent :
  (gemini_post (page_request pt ch ft) = HttpExc \/
   exists status body, gemini_post (page_request pt ch ft) = HttpResp status body /\
     (http_error status = true \/ body = None)) ->
  fst (generate_page_html pt ch ft sent) = ROk None.
Proof.
  rewrite generate_page_html_eq. simpl.
  intros [-> | (st & b & -> & [-> | ->])]; [done|done|]. by case_match.
Qed.

(** Claim C34 (gen_ok): on a successful answer whose text is a page
    wrapped in a [```html] fence, [candidates[0].content.parts[0].text =
    "```html" + x + "```"], [generate_page_html] returns the page [x]
    without the fence and stripped of white space. *)
Theorem generate_page_html_success pt ch ft sent status x :
  gemini_post (page_request pt ch ft) =
    HttpResp status (Some (answer_with ("```html" ++ x ++ "```"))) ->
  http_error status = false ->
  fst (generate_page_html pt ch ft sent) = ROk (Some (py_strip x)).
Proof.
  intros Hp He. rewrite generate_page_html_eq. cbn zeta.
  rewrite Hp, He, extract_text_answer_with. cbn iota beta. cbn [fst].
  by rewrite strip_html_fence_wrapped.
Qed.

(** Claim C35 (gen_keyerror): a successful JSON answer without a [candidates]
    field (the shape of a blocked prompt) is not a generation failure of
    the adapter: [generate_page_html] raises [KeyError('candidates')], which
    nothing catches. *)
Theorem generate_page_html_missing_candidates pt ch ft sent status l :
  gemini_post (page_request pt ch ft) = HttpResp status (Some (JObj l)) ->
  http_error status = false -> assoc_last "candidates" l = None ->
  fst (generate_page_html pt ch ft sent) = RExc (KeyError "candidates").
Proof.
  intros Hp He Hl. rewrite generate_page_html_eq. simpl. rewrite Hp, He. simpl.
  unfold extract_text, getitem_key. by rewrite Hl.
Qed.

(** At most one request reaches Gemini per call, whatever it answers. *)
Lemma generate_page_html_costs pt ch ft :
  costs (@List.length gemini_request) 1 (generate_page_html pt ch ft).
Proof.
  unfold generate_page_html. apply (costs_bind_le _ 1 1); [|intros _; cost_logic|lia].
  intros sent. simpl. rewrite length_app. simpl. lia.
Qed.

End WithEndpoint.

#[export] Hint Resolve generate_page_html_costs : costs.

(** ** The fence strip *)



(** Claim C36 (fence_nl): a text that ends with a newline (a fenced answer
    followed by a line break, as models often send) is returned unchanged,
    fences included. *)
Theorem strip_html_fence_trailing_newline x :
  strip_html_fence (x ++ nl) = x ++ nl.
Proof.
  unfold strip_html_fence.
  destruct (endswith (x ++ nl) "```") eqn:E; [|by rewrite andb_false_r].
  apply endswith_spec in E as [p Hp].
  apply (f_equal last_char) in Hp.
  rewrite !last_char_app in Hp by done. discriminate.
Qed.

(** ** Concrete endpoints and witnesses *)

(** An endpoint that answers every request the same way. *)
Definition endpoint (r : http_resp) : GeminiEnv := {| gemini_post := fun _ => r |}.

(** The JSON shape of a successful [generateContent] answer. *)

Lemma generate_page_html_request_error_witness :
  fst (@generate_page_html (endpoint (HttpResp 503 None)) (Some "3") (Some "Foo") None [])
  = ROk None.
Proof.
  apply (@generate_page_html_request_error (endpoint (HttpResp 503 None))).
  right. exists 503%Z, None. split; [reflexivity|by left].
Defined.

Lemma generate_page_html_success_witness :
  fst (@generate_page_html (endpoint (HttpResp 200 (Some (answer_with ("```html" ++ nl ++ "<p>x</p>" ++ nl ++ "```")))))
         (Some "3") (Some "Foo") None [])
  = ROk (Some "<p>x</p>").
Proof.
  exact (@generate_page_html_success
           (endpoint (HttpResp 200 (Some (answer_with ("```html" ++ nl ++ "<p>x</p>" ++ nl ++ "```")))))
           (Some "3") (Some "Foo") None [] 200 (nl ++ "<p>x</p>" ++ nl) eq_refl eq_refl).
Defined.

Lemma generate_page_html_missing_candidates_witness :
  fst (@generate_page_html (endpoint (HttpResp 200 (Some (JObj [("promptFeedback", JNull)]))))
         (Some "3") (Some "Foo") None [])
  = RExc (KeyError "candidates").
Proof.
  eapply (@generate_page_html_missing_candidates
            (endpoint (HttpResp 200 (Some (JObj [("promptFeedback", JNull)])))));
    reflexivity.
Defined.

End Generator.
