(* ===== verification/Deploy.v ===== *)
(** * The deployment trigger adapter: [deploy_to_netlify] (bot.py 201-248)

    The adapter reads two optional settings, [NETLIFY_API_TOKEN] and
    [NETLIFY_SITE_ID] (section variables), derives a subdomain from the
    channel name with [Sanitizer.netlify_subdomain], asks the Netlify API
    for the site, then posts a deploy of the given branch, and predicts
    the public URL from the subdomain.  The Netlify API is the
    environment ([NetlifyEnv]): each request gets an exception of
    [requests] or a status code with a body that parses as JSON or not.
    The requests sent are the state (a log).  Every exception inside the
    [try] is caught and gives [None]; [channel_name.lower()] is outside the
    [try], so a missing channel name raises. *)

From S2P Require Import Prelude PyStr Sanitize.
From Stdlib Require Import ZArith.
Import Sanitizer.

Local Open Scope string_scope.

Module Deploy.

Inductive netlify_req :=
| NGetSite (site : string)                         (* GET /sites/{site} *)
| NPostDeploy (site branch title : string).        (* POST /sites/{site}/deploys *)

Inductive netlify_resp :=
| NExc                                    (* requests raised *)
| NResp (status : Z) (json_ok : bool).    (* json_ok: the body parses as JSON *)

Class NetlifyEnv := { netlify_call : netlify_req -> netlify_resp }.

Definition deploy_title (channel_name : string) : string :=
  "Deploy " ++ channel_name ++ " landing page".

Definition netlify_url (channel_name : string) : string :=
  "https://" ++ netlify_subdomain channel_name ++ ".netlify.app".

Section WithApi.
Context `{NetlifyEnv}.
Variable NETLIFY_API_TOKEN NETLIFY_SITE_ID : option string.

Definition send (r : netlify_req) : PyM (list netlify_req) netlify_resp :=
  fun sent => (ROk (netlify_call r), (sent ++ [r])%list).

(** [deploy_to_netlify(branch_name, channel_name)]. *)
Definition deploy_to_netlify (branch_name : string) (channel_name : option string)
    : PyM (list netlify_req) (option string) :=
  if negb (py_truthy NETLIFY_API_TOKEN) || negb (py_truthy NETLIFY_SITE_ID) then mret None
  else
    match channel_name with
    | None => raise (AttributeError "lower")
    | Some ch =>
        let subdomain := netlify_subdomain ch in
        let subdomain_url := subdomain ++ ".netlify.app" in
        let site := py_fmt_opt NETLIFY_SITE_ID in
        site_response ← send (NGetSite site);
        match site_response with
        | NExc => mret None
        | NResp status _ =>
            if negb (Z.eqb status 200) then mret None
            else
              deploy_response ← send (NPostDeploy site branch_name (deploy_title ch));
              match deploy_response with
              | NExc => mret None
              | NResp status json_ok =>
                  if Z.eqb status 201
                  then if json_ok then mret (Some ("https://" ++ subdomain_url)) else mret None
                  else mret None
              end
        end
    end.

(** ** Properties of the adapter *)

Lemma send_no_raise r : no_raise (send r).
Proof. intros sent. by eexists. Qed.

#[local] Hint Resolve send_no_raise : bot.

(** Without a token or a site id, the adapter
    returns [None] at once and calls nothing. *)
Theorem deploy_to_netlify_no_credentials b ch sent :
  py_truthy NETLIFY_API_TOKEN = false \/ py_truthy NETLIFY_SITE_ID = false ->
  deploy_to_netlify b ch sent = (ROk None, sent).
Proof.
  intros Hc. unfold deploy_to_netlify.
  by destruct Hc as [-> | ->]; [|rewrite orb_true_r].
Qed.

(** For a channel name that is a string, every
    failure of the Netlify API (exception, unexpected status, body that is
    not JSON) is absorbed: [deploy_to_netlify] never raises. *)
Theorem deploy_to_netlify_no_raise b ch : no_raise (deploy_to_netlify b (Some ch)).
Proof. unfold deploy_to_netlify. program_logic. Qed.

(** Claim C39 (deploy_url): when [deploy_to_netlify] returns a URL, both
    credentials are set, the site lookup was answered [200] (the site was
    found), a deploy of exactly the given branch was then posted and
    answered [201] with a JSON body, these two requests are all that was
    sent, and the URL is [https://<subdomain>.netlify.app] for the
    sanitized channel name. *)
Theorem deploy_to_netlify_url b ch sent url :
  fst (deploy_to_netlify b (Some ch) sent) = ROk (Some url) ->
  url = netlify_url ch /\
  py_truthy NETLIFY_API_TOKEN = true /\ py_truthy NETLIFY_SITE_ID = true /\
  (exists j, netlify_call (NGetSite (py_fmt_opt NETLIFY_SITE_ID)) = NResp 200 j) /\
  netlify_call (NPostDeploy (py_fmt_opt NETLIFY_SITE_ID) b (deploy_title ch)) = NResp 201 true /\
  snd (deploy_to_netlify b (Some ch) sent) =
    (sent ++ [NGetSite (py_fmt_opt NETLIFY_SITE_ID);
              NPostDeploy (py_fmt_opt NETLIFY_SITE_ID) b (deploy_title ch)])%list.
Proof.
  unfold deploy_to_netlify, send. pym_simpl.
  destruct (py_truthy NETLIFY_API_TOKEN) eqn:Et, (py_truthy NETLIFY_SITE_ID) eqn:Es;
    simpl; try discriminate.
  repeat case_match; simpl; intros; simplify_eq; try done.
  repeat match goal with
         | H : (_ =? _)%Z = true |- _ => apply Z.eqb_eq in H
         | H : negb (_ =? _)%Z = false |- _ => apply negb_false_iff, Z.eqb_eq in H
         end. subst.
  rewrite <- (app_assoc sent). split_and!; eauto.
Qed.

(** With credentials set, a channel name that is
    [None] (the session never collected one) makes [deploy_to_netlify]
    raise [AttributeError] before any request. *)
Theorem deploy_to_netlify_missing_channel b sent :
  py_truthy NETLIFY_API_TOKEN = true -> py_truthy NETLIFY_SITE_ID = true ->
  deploy_to_netlify b None sent = (RExc (AttributeError "lower"), sent).
Proof. intros Ht Hs. unfold deploy_to_netlify. by rewrite Ht, Hs. Qed.

(** Every deploy request the adapter sends is for the branch it was given. *)
Lemma deploy_to_netlify_posts b ch sent r sent' :
  deploy_to_netlify b ch sent = (r, sent') ->
  forall s b' t, NPostDeploy s b' t ∈ sent' -> NPostDeploy s b' t ∈ sent \/ b' = b.
Proof.
  unfold deploy_to_netlify, send. pym_simpl.
  repeat case_match; intros; simplify_eq; auto;
    repeat match goal with
           | H : _ ∈ (_ ++ _)%list |- _ => apply elem_of_app in H as [H|H]
           | H : _ ∈ [_] |- _ => apply list_elem_of_singleton in H; simplify_eq
           end; auto.
Qed.

Lemma send_costs r : costs (@List.length netlify_req) 1 (send r).
Proof. intros sent. simpl. rewrite length_app. simpl. lia. Qed.

#[local] Hint Resolve send_costs : costs.

(** At most two requests reach Netlify per call: the site lookup and the
    deploy. *)
Lemma deploy_to_netlify_costs b ch : costs (@List.length netlify_req) 2 (deploy_to_netlify b ch).
Proof. unfold deploy_to_netlify. cost_logic. Qed.

End WithApi.

#[export] Hint Resolve send_costs deploy_to_netlify_costs : costs.

(** ** Concrete API and witnesses *)

(** The Netlify API finds the site and accepts every deploy. *)
Definition netlify_up : NetlifyEnv :=
  {| netlify_call := fun r => match r with
                              | NGetSite _ => NResp 200 true
                              | NPostDeploy _ _ _ => NResp 201 true
                              end |}.

Lemma deploy_to_netlify_no_credentials_witness :
  @deploy_to_netlify netlify_up None (Some "site") "page-x" (Some "x") [] = (ROk None, []).
Proof. apply deploy_to_netlify_no_credentials. by left. Defined.

(** A channel name without letters or digits gets the URL with an empty
    subdomain. *)
Lemma deploy_to_netlify_url_witness :
  fst (@deploy_to_netlify netlify_up (Some "tok") (Some "site") "page-!!" (Some "!!") []) =
    ROk (Some "https://.netlify.app") /\
  ("https://.netlify.app" = netlify_url "!!" /\
   py_truthy (Some "tok") = true /\ py_truthy (Some "site") = true /\
   (exists j, @netlify_call netlify_up (NGetSite (py_fmt_opt (Some "site"))) = NResp 200 j) /\
   @netlify_call netlify_up (NPostDeploy (py_fmt_opt (Some "site")) "page-!!" (deploy_title "!!")) =
     NResp 201 true /\
   snd (@deploy_to_netlify netlify_up (Some "tok") (Some "site") "page-!!" (Some "!!") []) =
     ([] ++ [NGetSite (py_fmt_opt (Some "site"));
             NPostDeploy (py_fmt_opt (Some "site")) "page-!!" (deploy_title "!!")])%list).
Proof.
  split; [reflexivity|].
  exact (@deploy_to_netlify_url netlify_up (Some "tok") (Some "site") "page-!!" "!!" []
           "https://.netlify.app" eq_refl).
Defined.

Lemma deploy_to_netlify_missing_channel_witness :
  @deploy_to_netlify netlify_up (Some "tok") (Some "site") "page-None" None [] =
    (RExc (AttributeError "lower"), []).
Proof. apply deploy_to_netlify_missing_channel; reflexivity. Defined.

End Deploy.
