(* ===== verification/Orchestrator.v ===== *)
(** * The orchestrator: the publish pipeline of [create_landing_page]

    bot.py has three copies of the pipeline: [create_landing_page]
    (555-614, reached only from handlers that [main] does not register),
    [create_landing_page_from_callback] (665-748) and
    [create_landing_page_from_message] (789-872).  They read the session
    fields, then run the same sequence: check [GITHUB_PAT], [setup_git_repo],
    [generate_page_html], write [index.html], [push_to_github] on
    ["page-" + channel_name], [deploy_to_netlify], and report.  They differ
    only in how they talk to the user (a new message or an edit of the
    button's message) and in the buttons they attach; [landing_flow] is
    the sequence, parameterised by that channel, and the [Bot] file reads
    the session and calls it.

    The state is the whole world the pipeline touches: the git working
    copy and remote, the requests sent to Gemini and to Netlify, and the
    messages sent to the user.  Keyboards are not modelled.

    The file also holds the import-time check of the configuration
    ([validate_config], bot.py 27-31), after which the pipeline's token
    check cannot fail, and the costs of one run of the pipeline. *)

From S2P Require Import Prelude PyStr Sanitize GitModel Publisher Generator Deploy.
Import Sanitizer Git Publisher Generator Deploy.

Local Open Scope string_scope.

Module Orchestrator.

(** ** Messages to the user *)

Inductive via := ViaReply | ViaEdit | ViaAnswer.

Inductive bot_text :=
| TWelcome | THelp | TAskChannel | TAskLogo (channel : string)
| TInvalidImage | TPageTypeMenu | TInvalidChoice | TAskFooter (desc : string)
| TAskFooterText | TMainMenu | TCancelled | TInvalidPageType
| TCreating | TNoPAT | TRepoFail | TGenFail | TPushing | TDeploying
| TLive (url branch desc : string) | TPartial (branch desc : string) | TPushFail
| TReplyYesNo | TConversationCancelled.

Record msg := mk_msg { m_via : via; m_text : bot_text }.

(** ** The world *)

Record world := mk_world {
  w_git : ws;
  w_gemini : list gemini_request;
  w_netlify : list netlify_req;
  w_out : list msg
}.

Definition set_git (g : ws) (w : world) : world :=
  mk_world g (w_gemini w) (w_netlify w) (w_out w).
Definition set_gemini (l : list gemini_request) (w : world) : world :=
  mk_world (w_git w) l (w_netlify w) (w_out w).
Definition set_netlify (l : list netlify_req) (w : world) : world :=
  mk_world (w_git w) (w_gemini w) l (w_out w).

Definition lift_git {A} (m : PyM ws A) : PyM world A := zoom w_git set_git m.
Definition lift_gen {A} (m : PyM (list gemini_request) A) : PyM world A :=
  zoom w_gemini set_gemini m.
Definition lift_netlify {A} (m : PyM (list netlify_req) A) : PyM world A :=
  zoom w_netlify set_netlify m.

Definition say (v : via) (t : bot_text) : PyM world unit :=
  modify_st (fun w => mk_world (w_git w) (w_gemini w) (w_netlify w) ((w_out w ++ [mk_msg v t])%list)).

(** [with open(os.path.join(REPO_DIR, "index.html"), "w") as f: f.write(html)]. *)
Definition write_index (html : string) : PyM world unit :=
  fun w =>
    let g := w_git w in
    if ws_dir g then (ROk tt, set_git (set_files g (mk_tree (Some html) (t_logo (ws_files g)))) w)
    else (RExc OSError, w).

(** [LANDING_PAGE_TYPES[page_type]]. *)
Definition page_type_desc (page_type : option string) : PyM world string :=
  match dict_lookup_opt LANDING_PAGE_TYPES page_type with
  | Some d => mret d
  | None => raise (KeyError (py_fmt_opt page_type))
  end.

(** ** The configuration check at import time (19-31)

    [if not all([TELEGRAM_BOT_TOKEN, GEMINI_API_KEY, GITHUB_REPO_URL,
    GITHUB_PAT]): ... exit(1)]: [validate_config] is [true] when the
    module goes on to define the handlers and run [main], [false] when the
    process exits with status 1. *)
Definition validate_config (TELEGRAM_BOT_TOKEN GEMINI_API_KEY GITHUB_REPO_URL GITHUB_PAT : option string)
    : bool :=
  forallb py_truthy [TELEGRAM_BOT_TOKEN; GEMINI_API_KEY; GITHUB_REPO_URL; GITHUB_PAT].

Lemma validate_config_pat tok key url pat :
  validate_config tok key url pat = true -> py_truthy pat = true.
Proof. unfold validate_config. simpl. rewrite !andb_true_iff. naive_solver. Qed.

(** The messages added between two worlds never have the text [t]. *)
Definition never_says (t : bot_text) : world -> world -> Prop :=
  on_part w_out (keeps (fun out => forall m, m ∈ out -> m_text m <> t)).

#[export] Instance never_says_preorder t : PreOrder (never_says t).
Proof. unfold never_says. apply _. Qed.

Lemma say_never_says v t t' : t' <> t -> preserves (never_says t) (say v t').
Proof.
  intros Ht. apply preserves_modify. intros w Hw m. simpl.
  rewrite elem_of_app, list_elem_of_singleton. intros [Hm| ->]; [by apply Hw|done].
Qed.

Lemma lift_git_out {A} (m : PyM ws A) w : w_out (snd (lift_git m w)) = w_out w.
Proof. by apply zoom_frame. Qed.

Lemma lift_gen_out {A} (m : PyM (list gemini_request) A) w :
  w_out (snd (lift_gen m w)) = w_out w.
Proof. by apply zoom_frame. Qed.

Lemma lift_netlify_out {A} (m : PyM (list netlify_req) A) w :
  w_out (snd (lift_netlify m w)) = w_out w.
Proof. by apply zoom_frame. Qed.

Lemma write_index_out html w : w_out (snd (write_index html w)) = w_out w.
Proof. unfold write_index. by case_match. Qed.

Lemma page_type_desc_out pt w : w_out (snd (page_type_desc pt w)) = w_out w.
Proof. unfold page_type_desc. by case_match. Qed.

#[local] Hint Extern 1 (preserves (never_says _) (say _ _)) =>
  apply say_never_says; discriminate : bot.
#[local] Hint Extern 1 (preserves (never_says _) _) =>
  unfold never_says; apply preserves_frame; [apply _|]; first
    [ apply lift_git_out | apply lift_gen_out | apply lift_netlify_out
    | apply write_index_out | apply page_type_desc_out ] : bot.

(** ** What one run of the pipeline costs: git commands, Gemini and
    Netlify requests *)

Definition git_commands (w : world) : nat := git_log_len (w_git w).
Definition gemini_requests (w : world) : nat := List.length (w_gemini w).
Definition netlify_requests (w : world) : nat := List.length (w_netlify w).

Lemma lift_git_costs {A} n (m : PyM ws A) : costs git_log_len n m -> costs git_commands n (lift_git m).
Proof. exact (costs_zoom git_log_len w_git set_git m n (fun _ _ => eq_refl)). Qed.

Lemma lift_gen_costs {A} n (m : PyM (list gemini_request) A) :
  costs (@List.length _) n m -> costs gemini_requests n (lift_gen m).
Proof. exact (costs_zoom _ w_gemini set_gemini m n (fun _ _ => eq_refl)). Qed.

Lemma lift_netlify_costs {A} n (m : PyM (list netlify_req) A) :
  costs (@List.length _) n m -> costs netlify_requests n (lift_netlify m).
Proof. exact (costs_zoom _ w_netlify set_netlify m n (fun _ _ => eq_refl)). Qed.

#[local] Hint Resolve lift_git_costs lift_gen_costs lift_netlify_costs : costs.
(** A call that leaves the counted part of the world alone costs nothing. *)
#[local] Hint Extern 3 (costs _ _ _) =>
  apply costs_frame; intros ?;
  unfold lift_git, lift_gen, lift_netlify, zoom, say, modify_st, write_index, page_type_desc;
  repeat case_match; done : costs.

Section Pipeline.
Context `{GitEnv} `{GeminiEnv} `{NetlifyEnv}.
Variable GITHUB_REPO_URL : string.
Variable GITHUB_PAT NETLIFY_API_TOKEN NETLIFY_SITE_ID : option string.

(** The body of [create_landing_page*] after the session fields are read. *)
Definition landing_flow (v : via)
    (channel_name page_type footer_text logo_path : option string) : PyM world unit :=
  _ ← say v TCreating;
  if negb (py_truthy GITHUB_PAT) then say v TNoPAT else
  ok ← lift_git (setup_git_repo GITHUB_REPO_URL (py_fmt_opt GITHUB_PAT));
  if negb ok then say v TRepoFail else
  html_content ← lift_gen (generate_page_html page_type channel_name footer_text);
  if negb (py_truthy html_content) then say v TGenFail else
  let filename := "index.html" in
  _ ← write_index (py_fmt_opt html_content);
  let branch_name := "page-" ++ py_fmt_opt channel_name in
  _ ← say v TPushing;
  pushed ← lift_git (push_to_github filename branch_name logo_path);
  if negb pushed then say v TPushFail else
  _ ← say v TDeploying;
  netlify_url ← lift_netlify
    (deploy_to_netlify NETLIFY_API_TOKEN NETLIFY_SITE_ID branch_name channel_name);
  desc ← page_type_desc page_type;
  if py_truthy netlify_url
  then say v (TLive (py_fmt_opt netlify_url) branch_name desc)
  else say v (TPartial branch_name desc).

(** ** Properties of the pipeline *)

Ltac flow_simpl :=
  unfold landing_flow, lift_git, lift_gen, lift_netlify, say, page_type_desc, write_index;
  pym_simpl.

(** Claim C29 (flow_setup): when [setup_git_repo] fails, the pipeline reports
    it and stops: Gemini and Netlify are not called, no git command follows
    the clone or pull, and the messages are "creating" then "could not set
    up". *)
Theorem landing_flow_setup_fails v ch pt ft lp w g' :
  py_truthy GITHUB_PAT = true ->
  setup_git_repo GITHUB_REPO_URL (py_fmt_opt GITHUB_PAT) (w_git w) = (ROk false, g') ->
  landing_flow v ch pt ft lp w =
    (ROk tt, mk_world g' (w_gemini w) (w_netlify w)
               (w_out w ++ [mk_msg v TCreating; mk_msg v TRepoFail])%list).
Proof.
  intros Hp Hs. flow_simpl. rewrite Hp. simpl. rewrite Hs. simpl.
  by rewrite <- app_assoc.
Qed.

(** Claim C6 (flow_gen): when the generator gives no page ([None] or an empty
    text), nothing is written, pushed or deployed: the working copy and the
    remote are those [setup_git_repo] left, Netlify is not called, and the
    user is told the generation failed. *)
Theorem landing_flow_generation_fails v ch pt ft lp w g1 sent' html :
  py_truthy GITHUB_PAT = true ->
  setup_git_repo GITHUB_REPO_URL (py_fmt_opt GITHUB_PAT) (w_git w) = (ROk true, g1) ->
  generate_page_html pt ch ft (w_gemini w) = (ROk html, sent') ->
  py_truthy html = false ->
  landing_flow v ch pt ft lp w =
    (ROk tt, mk_world g1 sent' (w_netlify w)
               (w_out w ++ [mk_msg v TCreating; mk_msg v TGenFail])%list).
Proof.
  intros Hp Hs Hg Hh. flow_simpl. rewrite Hp. simpl. rewrite Hs. simpl.
  rewrite Hg. simpl. rewrite Hh. simpl. by rewrite <- app_assoc.
Qed.

(** The worktree after [index.html] is written. *)
Definition with_index (g : ws) (html : string) : ws :=
  set_files g (mk_tree (Some html) (t_logo (ws_files g))).

(** Claim C7 (flow_outcome): after a successful push, for a page type that
    is a key of [LANDING_PAGE_TYPES] with description [desc] (without one
    the report raises [KeyError]), the outcome is decided by the
    deployment alone: a URL gives the "live" report with that URL, the
    branch text and [desc]; no URL gives the "page created, deployment
    failed" report; and the messages are exactly creating, pushing,
    deploying and the report. *)
Theorem landing_flow_published v ch pt ft lp w g1 sent' html g3 n' url desc :
  py_truthy GITHUB_PAT = true ->
  setup_git_repo GITHUB_REPO_URL (py_fmt_opt GITHUB_PAT) (w_git w) = (ROk true, g1) ->
  generate_page_html pt ch ft (w_gemini w) = (ROk (Some html), sent') ->
  html <> "" ->
  push_to_github "index.html" ("page-" ++ py_fmt_opt ch) lp (with_index g1 html) = (ROk true, g3) ->
  deploy_to_netlify NETLIFY_API_TOKEN NETLIFY_SITE_ID ("page-" ++ py_fmt_opt ch) ch (w_netlify w)
    = (ROk url, n') ->
  dict_lookup_opt LANDING_PAGE_TYPES pt = Some desc ->
  landing_flow v ch pt ft lp w =
    (ROk tt, mk_world g3 sent' n'
       (w_out w ++ [mk_msg v TCreating; mk_msg v TPushing; mk_msg v TDeploying;
                    mk_msg v (if py_truthy url
                              then TLive (py_fmt_opt url) ("page-" ++ py_fmt_opt ch) desc
                              else TPartial ("page-" ++ py_fmt_opt ch) desc)])%list).
Proof.
  intros Hp Hs Hg Hh Hpush Hd Hdesc. flow_simpl. rewrite Hp. simpl. rewrite Hs. simpl.
  rewrite Hg. simpl. destruct (String.eqb html "") eqn:E;
    [by apply String.eqb_eq in E|]. simpl.
  rewrite (setup_git_repo_dir _ _ _ _ Hs). simpl. unfold with_index in Hpush.
  simpl in Hpush, Hd |- *.
  rewrite Hpush. simpl. rewrite Hd. simpl. rewrite Hdesc. simpl.
  destruct (py_truthy url); simpl; by rewrite <- !app_assoc.
Qed.

(** Claim C31 (flow_keyerror): when the session has no valid page type (the
    "no footer" button pressed before a type was chosen), the pipeline
    still generates, pushes and deploys, then raises [KeyError] while
    building the report: the branch is on the remote and the user gets no
    result message. *)
Theorem landing_flow_missing_page_type v ch pt ft lp w g1 sent' html g3 n' url :
  py_truthy GITHUB_PAT = true ->
  setup_git_repo GITHUB_REPO_URL (py_fmt_opt GITHUB_PAT) (w_git w) = (ROk true, g1) ->
  generate_page_html pt ch ft (w_gemini w) = (ROk (Some html), sent') ->
  html <> "" ->
  push_to_github "index.html" ("page-" ++ py_fmt_opt ch) lp (with_index g1 html) = (ROk true, g3) ->
  deploy_to_netlify NETLIFY_API_TOKEN NETLIFY_SITE_ID ("page-" ++ py_fmt_opt ch) ch (w_netlify w)
    = (ROk url, n') ->
  dict_lookup_opt LANDING_PAGE_TYPES pt = None ->
  landing_flow v ch pt ft lp w =
    (RExc (KeyError (py_fmt_opt pt)), mk_world g3 sent' n'
       (w_out w ++ [mk_msg v TCreating; mk_msg v TPushing; mk_msg v TDeploying])%list).
Proof.
  intros Hp Hs Hg Hh Hpush Hd Hdesc. flow_simpl. rewrite Hp. simpl. rewrite Hs. simpl.
  rewrite Hg. simpl. destruct (String.eqb html "") eqn:E;
    [by apply String.eqb_eq in E|]. simpl.
  rewrite (setup_git_repo_dir _ _ _ _ Hs). simpl. unfold with_index in Hpush.
  simpl in Hpush, Hd |- *.
  rewrite Hpush. simpl. rewrite Hd. simpl. rewrite Hdesc. simpl.
  by rewrite <- !app_assoc.
Qed.

(** The Netlify requests added between two worlds are deploys of [b] (or
    not deploys at all). *)
Definition posts_for (b : string) (w w' : world) : Prop :=
  forall s b' t, NPostDeploy s b' t ∈ w_netlify w' ->
    NPostDeploy s b' t ∈ w_netlify w \/ b' = b.

#[export] Instance posts_for_preorder b : PreOrder (posts_for b).
Proof.
  split; [intros w s b' t; by left|].
  intros w1 w2 w3 H12 H23 s b' t Hin. destruct (H23 _ _ _ Hin) as [Hin' | ->]; [|by right].
  by apply H12.
Qed.

Lemma posts_for_untouched {A} b (m : PyM world A) :
  (forall w, w_netlify (snd (m w)) = w_netlify w) -> preserves (posts_for b) m.
Proof. intros Hm w s b' t. rewrite Hm. by left. Qed.

Lemma lift_git_netlify {A} (m : PyM ws A) w : w_netlify (snd (lift_git m w)) = w_netlify w.
Proof. unfold lift_git, zoom. by destruct (m (w_git w)). Qed.

Lemma lift_gen_netlify {A} (m : PyM (list gemini_request) A) w :
  w_netlify (snd (lift_gen m w)) = w_netlify w.
Proof. unfold lift_gen, zoom. by destruct (m (w_gemini w)). Qed.

Lemma say_netlify v t w : w_netlify (snd (say v t w)) = w_netlify w.
Proof. done. Qed.

Lemma write_index_netlify html w : w_netlify (snd (write_index html w)) = w_netlify w.
Proof. unfold write_index. by case_match. Qed.

Lemma page_type_desc_netlify pt w : w_netlify (snd (page_type_desc pt w)) = w_netlify w.
Proof. unfold page_type_desc. by case_match. Qed.

Lemma lift_deploy_posts b ch :
  preserves (posts_for b)
    (lift_netlify (deploy_to_netlify NETLIFY_API_TOKEN NETLIFY_SITE_ID b ch)).
Proof.
  intros w. unfold lift_netlify, zoom.
  destruct (deploy_to_netlify _ _ b ch (w_netlify w)) as [r sent'] eqn:E. simpl.
  intros s b' t Hin. exact (deploy_to_netlify_posts _ _ _ _ _ _ _ E s b' t Hin).
Qed.

#[local] Hint Extern 1 (preserves (posts_for _) _) =>
  apply posts_for_untouched; first
    [ apply lift_git_netlify | apply lift_gen_netlify | apply say_netlify
    | apply write_index_netlify | apply page_type_desc_netlify ] : bot.
#[local] Hint Resolve lift_deploy_posts : bot.

(** Claim C30 (flow_branch): every deploy the pipeline requests from Netlify is
    for the text ["page-" + channel_name], not for the branch it pushed,
    which is [sanitize_branch_name] of that text: the two differ as soon as
    the channel name has an upper-case letter, a space or a punctuation
    mark. *)
Theorem landing_flow_deploy_branch v ch pt ft lp :
  preserves (posts_for ("page-" ++ py_fmt_opt ch)) (landing_flow v ch pt ft lp).
Proof. unfold landing_flow. program_logic. Qed.

(** Claim C14 (no_pat): the [GITHUB_PAT] check of the pipeline is dead
    code: once the import-time check let the bot start, with this
    repository URL and token, the pipeline never tells the user that the
    token is missing, whatever the session and the services do. *)
Theorem landing_flow_never_says_no_pat TELEGRAM_BOT_TOKEN GEMINI_API_KEY v ch pt ft lp :
  validate_config TELEGRAM_BOT_TOKEN GEMINI_API_KEY (Some GITHUB_REPO_URL) GITHUB_PAT = true ->
  preserves (never_says TNoPAT) (landing_flow v ch pt ft lp).
Proof.
  intros Hc%validate_config_pat. unfold landing_flow.
  apply preserves_bind; [apply _|eauto with bot|intros _].
  rewrite Hc. cbn [negb]. program_logic.
Qed.

(** Claim C13 (flow_bound): one run of the pipeline runs at most seven git
    command lines (the clone or pull, then at most six in
    [push_to_github]: [branch -r], checkout, add, add of the logo, commit,
    push), sends at most one request to Gemini and at most two to
    Netlify, whatever the services answer and whether it raises. *)
Theorem landing_flow_bounded v ch pt ft lp :
  costs git_commands 7 (landing_flow v ch pt ft lp) /\
  costs gemini_requests 1 (landing_flow v ch pt ft lp) /\
  costs netlify_requests 2 (landing_flow v ch pt ft lp).
Proof. unfold landing_flow. split_and!; cost_logic. Qed.

End Pipeline.

(** ** Concrete worlds and witnesses *)

(** An endpoint that answers with the page [<p>x</p>]. *)
Definition gem_ok : GeminiEnv := endpoint (HttpResp 200 (Some (answer_with "<p>x</p>"))).
(** A world with working copy [g] and nothing sent yet. *)
Definition demo_world (g : ws) : world := mk_world g [] [] [].
Lemma landing_flow_setup_fails_witness :
  @landing_flow net_up gem_ok netlify_up "https://github.com/o/r" (Some "tok") (Some "t") (Some "s")
     ViaReply (Some "Foo") (Some "3") None None (demo_world bare_dir_ws) =
  (ROk tt, mk_world (log_cmd bare_dir_ws GPull) [] []
             [mk_msg ViaReply TCreating; mk_msg ViaReply TRepoFail]).
Proof. apply (@landing_flow_setup_fails net_up gem_ok netlify_up); reflexivity. Defined.
Lemma landing_flow_generation_fails_witness :
  exists sent', @landing_flow net_up (endpoint (HttpResp 503 None)) netlify_up "https://github.com/o/r"
     (Some "tok") (Some "t") (Some "s") ViaReply (Some "Foo") (Some "3") None None
     (demo_world (cloned_ws [] "<p>old</p>")) =
  (ROk tt, mk_world (snd (@setup_git_repo net_up "https://github.com/o/r" "tok" (cloned_ws [] "<p>old</p>"))) sent' []
             [mk_msg ViaReply TCreating; mk_msg ViaReply TGenFail]).
Proof. eexists. eapply (@landing_flow_generation_fails net_up (endpoint (HttpResp 503 None)) netlify_up); reflexivity. Defined.
(** The bound of seven git command lines is reached: a first publish with
    a logo on the working copy. *)
Example landing_flow_seven_commands :
  let g := set_files (cloned_ws [] "<p>old</p>") (mk_tree (Some "<p>old</p>") (Some "PNG")) in
  git_commands (snd (@landing_flow net_up gem_ok netlify_up "https://github.com/o/r"
     (Some "tok") (Some "t") (Some "s") ViaReply (Some "Foo") (Some "3") None
     (Some (repo_path "logo.png")) (demo_world g))) = 7.
Proof. vm_compute. reflexivity. Qed.

Lemma landing_flow_published_witness :
  exists g3 sent' n', @landing_flow net_up gem_ok netlify_up "https://github.com/o/r"
     (Some "tok") (Some "t") (Some "s") ViaReply (Some "Foo") (Some "3") None None
     (demo_world (cloned_ws [] "<p>old</p>")) =
  (ROk tt, mk_world g3 sent' n'
     [mk_msg ViaReply TCreating; mk_msg ViaReply TPushing; mk_msg ViaReply TDeploying;
      mk_msg ViaReply (TLive "https://foo.netlify.app" "page-Foo"
                        "Personal Brand - Professional portfolio and about section")]).
Proof.
  do 3 eexists.
  eapply (@landing_flow_published net_up gem_ok netlify_up "https://github.com/o/r"
            (Some "tok") (Some "t") (Some "s") ViaReply (Some "Foo") (Some "3") None None
            (demo_world (cloned_ws [] "<p>old</p>")) _ _ _ _ _ (Some "https://foo.netlify.app")
            "Personal Brand - Professional portfolio and about section").
  all: first [run_lhs | vm_compute; congruence].
Defined.
Lemma landing_flow_missing_page_type_witness :
  exists g3 sent' n', @landing_flow net_up gem_ok netlify_up "https://github.com/o/r"
     (Some "tok") (Some "t") (Some "s") ViaReply (Some "Foo") None None None
     (demo_world (cloned_ws [] "<p>old</p>")) =
  (RExc (KeyError "None"), mk_world g3 sent' n'
     [mk_msg ViaReply TCreating; mk_msg ViaReply TPushing; mk_msg ViaReply TDeploying]).
Proof.
  do 3 eexists.
  eapply (@landing_flow_missing_page_type net_up gem_ok netlify_up);
    first [run_lhs | vm_compute; congruence].
Defined.

Lemma landing_flow_never_says_no_pat_witness :
  validate_config (Some "123:abc") (Some "key") (Some "https://github.com/o/r") (Some "tok") = true /\
  preserves (never_says TNoPAT)
    (@landing_flow net_up gem_ok netlify_up "https://github.com/o/r" (Some "tok") (Some "t") (Some "s")
       ViaReply (Some "Foo") (Some "3") None None).
Proof.
  split; [reflexivity|].
  apply (landing_flow_never_says_no_pat "https://github.com/o/r" (Some "tok") (Some "t") (Some "s")
           (Some "123:abc") (Some "key")); reflexivity.
Defined.

End Orchestrator.
