(* ===== verification/TestSetup.v ===== *)
(** * The diagnostic script [src/test_setup.py]

    [test_setup.py] runs three checks (imports, git, environment
    variables), all of them whatever the earlier ones gave, counts the
    ones that passed, and exits with status 0 when all three did.  The
    host is a record: the environment after [load_dotenv()] as a map from
    names to values ([os.getenv] is a lookup), whether the bot's modules
    import, and what [git --version] does.  The output is a trace of
    events.

    The environment check is stricter than the one at the top of bot.py
    ([Orchestrator.validate_config]): besides a missing or empty value it
    rejects the placeholder [your_<name>_here] of the template; the
    theorems relate the two checks. *)

From S2P Require Import Prelude PyStr Sanitize GitModel Publisher Generator Deploy Orchestrator.
Import Orchestrator.

Local Open Scope string_scope.

Module TestSetup.

Record host := mk_host {
  env : gmap string string;     (* [os.environ] after [load_dotenv()] *)
  imports_ok : bool;            (* the [import]s of [test_imports] succeed *)
  git_on_path : bool;           (* [git] found, else [FileNotFoundError] *)
  git_returncode : Z            (* [git --version] exit status *)
}.

Inductive event :=
| TStart | TRunning (name : string) | TBlankLine
| TImportsOk | TImportError | TGitOk | TGitFailed | RunGitVersion
| TEnvMissing (vars : list string) | TEnvOk
| TResults (passed total : nat) | TAllPassed | TSomeFailed.

Record test_st := mk_test { t_host : host; t_trace : list event }.

Definition emit (e : event) : PyM test_st unit :=
  modify_st (fun s => mk_test (t_host s) (t_trace s ++ [e])).

Definition get_host : PyM test_st host := fun s => (ROk (t_host s), s).

(** [os.getenv(var)]. *)
Definition getenv (h : host) (var : string) : option string := env h !! var.

Definition required_vars : list string :=
  ["TELEGRAM_BOT_TOKEN"; "GEMINI_API_KEY"; "GITHUB_REPO_URL"; "GITHUB_PAT"].

(** [f"your_{var.lower()}_here"]. *)
Definition placeholder (var : string) : string := "your_" ++ py_lower var ++ "_here".

(** [not os.getenv(var) or os.getenv(var) == f"your_{var.lower()}_here"]. *)
Definition var_missing (h : host) (var : string) : bool :=
  negb (py_truthy (getenv h var)) || bool_decide (getenv h var = Some (placeholder var)).

Definition test_environment_variables : PyM test_st bool :=
  h ← get_host;
  let missing_vars := filter (fun var => var_missing h var = true) required_vars in
  if bool_decide (missing_vars <> []) then _ ← emit (TEnvMissing missing_vars); mret false
  else _ ← emit TEnvOk; mret true.

Definition test_imports : PyM test_st bool :=
  h ← get_host;
  if imports_ok h then _ ← emit TImportsOk; mret true
  else _ ← emit TImportError; mret false.

(** [subprocess.run([...], check=True)]: a nonzero status raises
    [CalledProcessError], which is caught like [FileNotFoundError]. *)
Definition test_git : PyM test_st bool :=
  h ← get_host;
  _ ← emit RunGitVersion;
  if git_on_path h && (git_returncode h =? 0)%Z then _ ← emit TGitOk; mret true
  else _ ← emit TGitFailed; mret false.

Definition tests : list (string * PyM test_st bool) :=
  [("Import Test", test_imports); ("Git Test", test_git);
   ("Environment Variables Test", test_environment_variables)].

(** [for test_name, test_func in tests: ...]: every test runs. *)
Fixpoint run_tests (ts : list (string * PyM test_st bool)) (passed : nat) : PyM test_st nat :=
  match ts with
  | [] => mret passed
  | (test_name, test_func) :: ts' =>
      _ ← emit (TRunning test_name);
      ok ← test_func;
      _ ← emit TBlankLine;
      run_tests ts' (if ok : bool then S passed else passed)
  end.

Definition main : PyM test_st bool :=
  _ ← emit TStart;
  let total := List.length tests in
  passed ← run_tests tests 0;
  _ ← emit (TResults passed total);
  _ ← (if Nat.eqb passed total then emit TAllPassed else emit TSomeFailed);
  mret (Nat.eqb passed total).

(** [sys.exit(0 if success else 1)] after [main()] on an empty output. *)
Definition run_script (h : host) : Z :=
  if match fst (main (mk_test h [])) with ROk b => b | RExc _ => false end then 0%Z else 1%Z.

(** ** The environment check against the check of bot.py *)

Lemma var_missing_false h var :
  var_missing h var = false <-> py_truthy (getenv h var) = true /\ getenv h var <> Some (placeholder var).
Proof.
  unfold var_missing. rewrite orb_false_iff, negb_false_iff, bool_decide_eq_false. done.
Qed.

Lemma test_environment_variables_result h tr :
  fst (test_environment_variables (mk_test h tr)) =
    ROk (bool_decide (Forall (fun var => var_missing h var = false) required_vars)).
Proof.
  unfold test_environment_variables, emit, get_host. pym_simpl. cbn [t_host fst].
  destruct (filter _ required_vars) as [|v l] eqn:E; cbn.
  - f_equal. symmetry.
    apply bool_decide_eq_true_2. apply Forall_forall. intros v Hv.
    apply not_true_is_false. intros Hm.
    assert (v ∈ filter (fun var => var_missing h var = true) required_vars) as Hf
      by (apply list_elem_of_filter; auto).
    rewrite E in Hf. set_solver.
  - f_equal. symmetry.
    apply bool_decide_eq_false_2. intros Hall.
    assert (v ∈ filter (fun var => var_missing h var = true) required_vars) as Hf
      by (rewrite E; set_solver).
    apply list_elem_of_filter in Hf as [Hm Hv]. rewrite Forall_forall in Hall.
    rewrite (Hall v Hv) in Hm. discriminate.
Qed.

(** Claim C15 (test_config): the environment check of [test_setup.py] passes
    exactly when the four values pass the check at the top of bot.py and
    none of them is the placeholder [your_<name>_here] of the template:
    a configuration the diagnostic accepts is one the bot starts with,
    and the bot also starts with the template's placeholders, which the
    diagnostic rejects. *)
Theorem test_env_iff_bot_config h tr :
  fst (test_environment_variables (mk_test h tr)) = ROk true <->
  validate_config (getenv h "TELEGRAM_BOT_TOKEN") (getenv h "GEMINI_API_KEY")
    (getenv h "GITHUB_REPO_URL") (getenv h "GITHUB_PAT") = true /\
  Forall (fun var => getenv h var <> Some (placeholder var)) required_vars.
Proof.
  rewrite test_environment_variables_result.
  transitivity (Forall (fun var => var_missing h var = false) required_vars).
  { split; [intros [=Hb]; by apply bool_decide_eq_true in Hb|].
    intros. f_equal. by apply bool_decide_eq_true_2. }
  unfold validate_config, required_vars. rewrite !Forall_cons_iff, !Forall_nil_iff.
  cbn [forallb]. rewrite !andb_true_iff, !var_missing_false. naive_solver.
Qed.

(** ** The three tests and their count *)

(** A test that reads the host, returns [r] and only prints. *)
Definition test_pure (h : host) (f : PyM test_st bool) (r : bool) : Prop :=
  forall tr, exists tr', f (mk_test h tr) = (ROk r, mk_test h (tr ++ tr')).

Lemma test_emit_run e h tr : emit e (mk_test h tr) = (ROk tt, mk_test h (tr ++ [e])).
Proof. done. Qed.

Lemma test_imports_pure h : test_pure h test_imports (imports_ok h).
Proof. intros tr. unfold test_imports, emit, get_host. pym_simpl. cbn. by destruct (imports_ok h); eexists. Qed.

Lemma test_git_pure h :
  test_pure h test_git (git_on_path h && (git_returncode h =? 0)%Z).
Proof.
  intros tr. unfold test_git, emit, get_host. pym_simpl. cbn.
  destruct (git_on_path h && (git_returncode h =? 0)%Z);
    (eexists; f_equal; f_equal; apply app_assoc_reverse).
Qed.

Lemma test_environment_variables_pure h :
  test_pure h test_environment_variables
    (bool_decide (Forall (fun var => var_missing h var = false) required_vars)).
Proof.
  intros tr. pose proof (test_environment_variables_result h tr) as Hr. revert Hr.
  unfold test_environment_variables, emit, get_host. pym_simpl. cbn [t_host t_trace].
  destruct (filter (fun var => var_missing h var = true) required_vars); cbn;
    intros [= <-]; by eexists.
Qed.

Lemma run_tests_spec h ts rs passed tr :
  Forall2 (fun t r => test_pure h t.2 r) ts rs ->
  exists tr', run_tests ts passed (mk_test h tr) =
    (ROk (passed + List.length (filter (fun b => b = true) rs)), mk_test h (tr ++ tr')) /\
    forall name f, (name, f) ∈ ts -> TRunning name ∈ tr'.
Proof.
  intros Hts. revert passed tr.
  induction Hts as [|[name f] r ts rs Hf Hts IH]; intros passed tr; cbn.
  - exists []. rewrite app_nil_r, Nat.add_0_r. split; [done|set_solver].
  - destruct (Hf (tr ++ [TRunning name])%list) as [tr1 E1]. cbn in E1.
    unfold mbind, pym_bind at 1. rewrite test_emit_run.
    unfold mbind, pym_bind at 1. rewrite E1.
    unfold mbind, pym_bind at 1. rewrite test_emit_run.
    destruct (IH (if r then S passed else passed) (((tr ++ [TRunning name]) ++ tr1) ++ [TBlankLine])%list)
      as (tr2 & E2 & Hin).
    rewrite E2. exists ([TRunning name] ++ tr1 ++ [TBlankLine] ++ tr2)%list. split.
    + rewrite <- !app_assoc. destruct r; cbn; case_decide; try congruence; cbn; repeat f_equal.
      by rewrite Nat.add_succ_r.
    + intros n g [[= -> ->]|Hg%Hin]%elem_of_cons; set_solver.
Qed.

Lemma main_run h :
  let rs := [imports_ok h; git_on_path h && (git_returncode h =? 0)%Z;
             bool_decide (Forall (fun var => var_missing h var = false) required_vars)] in
  exists tr b, main (mk_test h []) = (ROk b, mk_test h tr) /\
    (b = true <-> List.length (filter (fun b => b = true) rs) = 3) /\
    forall name f, (name, f) ∈ tests -> TRunning name ∈ tr.
Proof.
  intros rs. destruct (run_tests_spec h tests rs 0 ([] ++ [TStart])%list) as (tr & E & Hin).
  { repeat constructor; cbn;
      auto using test_imports_pure, test_git_pure, test_environment_variables_pure. }
  unfold main. unfold mbind, pym_bind at 1. rewrite test_emit_run.
  unfold mbind, pym_bind at 1. rewrite E. unfold emit. pym_simpl. cbn [t_host t_trace].
  match goal with |- context [if ?b then _ else _] => destruct b eqn:Eb end;
    apply Nat.eqb_eq in Eb || apply Nat.eqb_neq in Eb;
    (do 2 eexists; split; [reflexivity|]); cbn in Eb;
    (split; [split; [done || discriminate|intros; done || lia]|]); intros name f Hf%Hin; set_solver.
Qed.

(** Claim C19 (test_main): [test_setup.py] exits with status 0 exactly when
    the imports succeed, [git --version] runs and exits 0, and every
    required variable is set, non-empty and not its placeholder; and it
    runs all three tests, whatever the earlier ones gave. *)
Theorem test_setup_main h :
  (run_script h = 0%Z <->
   imports_ok h = true /\ git_on_path h = true /\ git_returncode h = 0%Z /\
   Forall (fun var => var_missing h var = false) required_vars) /\
  (forall name f, (name, f) ∈ tests -> TRunning name ∈ t_trace (snd (main (mk_test h [])))).
Proof.
  destruct (main_run h) as (tr & b & E & Hb & Hin). unfold run_script. rewrite E. cbn [fst snd t_trace].
  split; [|exact Hin]. transitivity (b = true); [by destruct b|]. rewrite Hb.
  destruct (imports_ok h), (git_on_path h), (git_returncode h =? 0)%Z eqn:Er;
    case_bool_decide; cbn; rewrite ?Z.eqb_eq, ?Z.eqb_neq in Er; naive_solver.
Qed.

(** The [.env] that [setup.py] copies from a template holding the
    placeholders: bot.py starts with it, the diagnostic rejects it. *)
Definition placeholder_host : host :=
  mk_host (list_to_map ((fun v => (v, placeholder v)) <$> required_vars)) true true 0%Z.

Example placeholder_config_starts_bot :
  validate_config (getenv placeholder_host "TELEGRAM_BOT_TOKEN")
    (getenv placeholder_host "GEMINI_API_KEY") (getenv placeholder_host "GITHUB_REPO_URL")
    (getenv placeholder_host "GITHUB_PAT") = true /\
  fst (test_environment_variables (mk_test placeholder_host [])) = ROk false /\
  run_script placeholder_host = 1%Z.
Proof. split_and!; vm_compute; reflexivity. Qed.

End TestSetup.
