(* ===== verification/Bot.v ===== *)
(** * The bot: sessions, handlers and the dispatch of [main]

    [context.user_data] is a dict per Telegram user; the handlers read and
    write five keys of it.  [user_data] is that dict as a record (a key
    that was never set reads as [None] through [.get], as a key set to
    [None] does).  The bot state is the store of every user's dict and
    the world of [Orchestrator] (the working copy shared by all users,
    the requests to the external services and the messages sent).

    Each handler is a [PyM sess] computation over the dict of the user
    who sent the update and the world; [step_bot] looks the dict up,
    runs the handler that [main] (bot.py 875-892) registers for the
    update, and stores the dict back, also when the handler raised (the
    dict is mutated in place, and the library logs the exception and
    goes on with the next update). *)

From S2P Require Import Prelude PyStr Sanitize GitModel Publisher Generator Deploy Orchestrator.
Import Git Publisher Generator Deploy Orchestrator.

Local Open Scope string_scope.

Module Bot.

(** [CHANNEL_NAME, LOGO_IMAGE, PAGE_TYPE, FOOTER_CHOICE, FOOTER_TEXT = range(5)]. *)
Inductive conv_state := CHANNEL_NAME | LOGO_IMAGE | PAGE_TYPE | FOOTER_CHOICE | FOOTER_TEXT.

#[export] Instance conv_state_eq_dec : EqDecision conv_state.
Proof. solve_decision. Defined.

(** The keys of [context.user_data] the handlers use. *)
Record user_data := mk_ud {
  conversation_state : option conv_state;
  channel_name : option string;
  logo_path : option string;
  page_type : option string;
  footer_text : option string
}.

Definition empty_ud : user_data := mk_ud None None None None None.

Definition set_conversation_state (c : conv_state) (u : user_data) : user_data :=
  mk_ud (Some c) (channel_name u) (logo_path u) (page_type u) (footer_text u).
Definition set_channel_name (x : string) (u : user_data) : user_data :=
  mk_ud (conversation_state u) (Some x) (logo_path u) (page_type u) (footer_text u).
Definition set_logo_path (x : string) (u : user_data) : user_data :=
  mk_ud (conversation_state u) (channel_name u) (Some x) (page_type u) (footer_text u).
Definition set_page_type (x : string) (u : user_data) : user_data :=
  mk_ud (conversation_state u) (channel_name u) (logo_path u) (Some x) (footer_text u).
Definition set_footer_text (x : option string) (u : user_data) : user_data :=
  mk_ud (conversation_state u) (channel_name u) (logo_path u) (page_type u) x.

(** The state a handler runs on: the sender's dict and the world. *)
Definition sess : Type := user_data * world.

Definition on_world {A} (m : PyM world A) : PyM sess A :=
  zoom snd (fun w s => (s.1, w)) m.
Definition update_ud (f : user_data -> user_data) : PyM sess unit :=
  modify_st (fun s => (f s.1, s.2)).
Definition get_ud : PyM sess user_data := fun s => (ROk s.1, s).
Definition reply (v : via) (t : bot_text) : PyM sess unit := on_world (say v t).

(** ** Telegram updates *)

(** The attachment of a message: [update.message.photo] (the largest
    size, as the code takes [photo[-1]]), [update.message.document], or
    neither.  The payload is the content of the downloaded file. *)
Inductive media := MPhoto (img : string) | MDocument (img : string) | MNoMedia.

(** An update, with the Telegram user it comes from.  A command is given
    by its name, as the library parses it from the message entities. *)
Inductive update :=
| UCommand (uid : Z) (name : string)
| UText (uid : Z) (text : string)
| UMedia (uid : Z) (m : media)
| UCallback (uid : Z) (data : string).

Definition update_user (u : update) : Z :=
  match u with
  | UCommand uid _ | UText uid _ | UMedia uid _ | UCallback uid _ => uid
  end.

(** The callback data of the buttons (bot.py 37-42). *)
Definition CALLBACK_START := "start".
Definition CALLBACK_GENERATE := "generate".
Definition CALLBACK_HELP := "help".
Definition CALLBACK_CANCEL := "cancel".
Definition CALLBACK_FOOTER_YES := "footer_yes".
Definition CALLBACK_FOOTER_NO := "footer_no".

(** [key in LANDING_PAGE_TYPES]. *)
Definition page_type_known (k : string) : bool :=
  bool_decide (is_Some (dict_get LANDING_PAGE_TYPES k)).

(** The bot: the dict of every user who sent an update, and the world. *)
Record bot := mk_bot { b_users : gmap Z user_data; b_world : world }.

(** ** The handlers *)

Section Handlers.
Context `{GitEnv} `{GeminiEnv} `{NetlifyEnv}.
Variable GITHUB_REPO_URL : string.
Variable GITHUB_PAT NETLIFY_API_TOKEN NETLIFY_SITE_ID : option string.

Definition flow (v : via) (u : user_data) : PyM world unit :=
  landing_flow GITHUB_REPO_URL GITHUB_PAT NETLIFY_API_TOKEN NETLIFY_SITE_ID v
    (channel_name u) (page_type u) (footer_text u) (logo_path u).

(** [start], [help_command] and their callback twins. *)
Definition start : PyM sess unit := reply ViaReply TWelcome.
Definition help_command : PyM sess unit := reply ViaReply THelp.
Definition start_from_callback : PyM sess unit := reply ViaEdit TWelcome.
Definition help_from_callback : PyM sess unit := reply ViaEdit THelp.

Definition generate_from_callback : PyM sess unit :=
  _ ← reply ViaEdit TAskChannel;
  update_ud (set_conversation_state CHANNEL_NAME).

(** [create_landing_page_from_callback] and [create_landing_page_from_message]:
    read the four fields, then the pipeline. *)
Definition create_landing_page_from_callback : PyM sess unit :=
  u ← get_ud; on_world (flow ViaEdit u).
Definition create_landing_page_from_message : PyM sess unit :=
  u ← get_ud; on_world (flow ViaReply u).

Definition handle_message (text : string) : PyM sess unit :=
  if String.eqb text "" then mret tt else
  let user_query := py_strip text in
  u ← get_ud;
  match conversation_state u with
  | Some CHANNEL_NAME =>
      _ ← update_ud (set_channel_name user_query);
      _ ← reply ViaReply (TAskLogo user_query);
      update_ud (set_conversation_state LOGO_IMAGE)
  | Some FOOTER_TEXT =>
      _ ← update_ud (set_footer_text (Some user_query));
      create_landing_page_from_message
  | _ => reply ViaReply TMainMenu
  end.

(** [os.makedirs(REPO_DIR, exist_ok=True)], then
    [file.download_to_drive(os.path.join(REPO_DIR, "logo.png"))]. *)
Definition save_logo (img : string) : PyM world unit :=
  modify_st (fun w =>
    let g := w_git w in
    set_git (mk_ws true (ws_repo g) (mk_tree (t_index (ws_files g)) (Some img))
               (ws_remote g) (ws_log g)) w).

(** It returns the next state of a [ConversationHandler]; the
    [MessageHandler] that [main] registers it with ignores the value. *)
Definition get_logo_image (m : media) : PyM sess conv_state :=
  match m with
  | MPhoto img | MDocument img =>
      let logo_path := repo_path "logo.png" in
      _ ← on_world (save_logo img);
      _ ← update_ud (set_logo_path logo_path);
      _ ← reply ViaReply TPageTypeMenu;
      mret PAGE_TYPE
  | MNoMedia => _ ← reply ViaReply TInvalidImage; mret LOGO_IMAGE
  end.

(** [query.answer(text)] on a callback query.  The Bot API accepts one
    answer per query and refuses any further one with [BadRequest]
    ("query is too old and response timeout expired or query id is
    invalid"); [answered] is whether the query was answered before.  An
    answer without text shows nothing. *)
Definition answer_query (answered : bool) (text : option bot_text) : PyM sess unit :=
  if answered then raise (BadRequest "query id is invalid")
  else match text with Some t => reply ViaAnswer t | None => mret tt end.

(** [page_type_callback(query, context, page_type)]; [answered] is the
    state of [query], which [button_callback] has already answered. *)
Definition page_type_callback (answered : bool) (pt : string) : PyM sess unit :=
  if negb (page_type_known pt)
  then answer_query answered (Some TInvalidPageType) else
  _ ← update_ud (set_page_type pt);
  reply ViaEdit (TAskFooter (default "" (dict_get LANDING_PAGE_TYPES pt))).

Definition footer_yes_callback : PyM sess unit :=
  _ ← reply ViaEdit TAskFooterText;
  update_ud (set_conversation_state FOOTER_TEXT).

Definition footer_no_callback : PyM sess unit :=
  _ ← update_ud (set_footer_text None);
  create_landing_page_from_callback.

Definition cancel_from_callback : PyM sess unit := reply ViaEdit TCancelled.

(** [button_callback]: [await query.answer()] first (it shows nothing),
    then the dispatch on [query.data]. *)
Definition button_callback (data : string) : PyM sess unit :=
  _ ← answer_query false None;
  if String.eqb data CALLBACK_START then start_from_callback
  else if String.eqb data CALLBACK_GENERATE then generate_from_callback
  else if String.eqb data CALLBACK_HELP then help_from_callback
  else if String.eqb data CALLBACK_CANCEL then cancel_from_callback
  else if String.eqb data CALLBACK_FOOTER_YES then footer_yes_callback
  else if String.eqb data CALLBACK_FOOTER_NO then footer_no_callback
  else if startswith data "page_type_" then
    page_type_callback true (py_replace data "page_type_" "")
  else mret tt.

(** The handlers [main] registers, in its order: the commands [start]
    and [help], the callback queries, text that is not a command, and
    photos or image documents. *)
Definition handle (u : update) : PyM sess unit :=
  match u with
  | UCommand _ name =>
      if String.eqb name "start" then start
      else if String.eqb name "help" then help_command
      else mret tt
  | UCallback _ data => button_callback data
  | UText _ text => handle_message text
  | UMedia _ m => _ ← get_logo_image m; mret tt
  end.


(** ** The bot: every user's dict and the world *)

Definition step_bot (b : bot) (u : update) : bot * res unit :=
  let uid := update_user u in
  let ud := default empty_ud (b_users b !! uid) in
  let '(r, (ud', w')) := handle u (ud, b_world b) in
  (mk_bot (<[uid := ud']> (b_users b)) w', r).

(** The bot after a sequence of updates, handled one at a time in the
    order they arrive ([run_polling] with the default sequential
    processing). *)
Fixpoint run_bot (b : bot) (us : list update) : bot :=
  match us with
  | [] => b
  | u :: us => run_bot (fst (step_bot b u)) us
  end.

(** The bots reachable from [b0] by updates. *)
Inductive reachable (b0 : bot) : bot -> Prop :=
| reach_init : reachable b0 b0
| reach_step b u : reachable b0 b -> reachable b0 (fst (step_bot b u)).

(** ** Lemmas on the handlers *)

Lemma step_bot_eq b u :
  fst (step_bot b u) =
  mk_bot (<[update_user u := fst (snd (handle u (default empty_ud (b_users b !! update_user u), b_world b)))]> (b_users b))
         (snd (snd (handle u (default empty_ud (b_users b !! update_user u), b_world b)))).
Proof. unfold step_bot. by destruct (handle _ _) as [? []]. Qed.

Lemma reachable_run b0 b us : reachable b0 b -> reachable b0 (run_bot b us).
Proof. revert b. induction us; simpl; eauto using reachable. Qed.

Lemma on_world_ud {A} (m : PyM world A) s : fst (snd (on_world m s)) = fst s.
Proof. unfold on_world, zoom. by destruct (m s.2). Qed.

Lemma on_world_run {A} (m : PyM world A) s :
  on_world m s = (fst (m s.2), (s.1, snd (m s.2))).
Proof. unfold on_world, zoom. by destruct (m s.2). Qed.

(** ** The session invariant

    A dict holds only the states the handlers store ([PAGE_TYPE] and
    [FOOTER_CHOICE] are defined but never stored), a page type of the
    catalog, and the one logo path of the shared working copy. *)
Definition ud_wf (u : user_data) : Prop :=
  match conversation_state u with
  | Some PAGE_TYPE | Some FOOTER_CHOICE => False
  | _ => True
  end /\
  match page_type u with Some k => page_type_known k = true | None => True end /\
  match logo_path u with Some p => p = repo_path "logo.png" | None => True end.

Definition wf_rel : sess -> sess -> Prop := on_part fst (keeps ud_wf).

Lemma empty_ud_wf : ud_wf empty_ud.
Proof. done. Qed.

Lemma update_ud_wf f :
  (forall u, ud_wf u -> ud_wf (f u)) -> preserves wf_rel (update_ud f).
Proof. intros Hf. apply preserves_modify. intros s. exact (Hf s.1). Qed.

Lemma on_world_wf {A} (m : PyM world A) : preserves wf_rel (on_world m).
Proof. apply preserves_frame; [apply _|apply on_world_ud]. Qed.

Lemma get_ud_wf : preserves wf_rel get_ud.
Proof. intros s. by unfold wf_rel, on_part, keeps. Qed.

#[local] Hint Resolve on_world_wf get_ud_wf : bot.
#[local] Hint Extern 1 (preserves wf_rel (update_ud _)) =>
  apply update_ud_wf; intros [[] ? ? ? ?] (? & ? & ?); repeat split; simpl; auto : bot.
#[local] Hint Extern 1 (preserves wf_rel (reply _ _)) => apply on_world_wf : bot.

Lemma page_type_callback_wf a pt : preserves wf_rel (page_type_callback a pt).
Proof.
  unfold page_type_callback, answer_query.
  destruct (page_type_known pt) eqn:E; simpl; program_logic.
Qed.

Lemma handle_wf u : preserves wf_rel (handle u).
Proof.
  destruct u as [? name|? text|? []|? data]; simpl.
  - program_logic.
  - unfold handle_message. program_logic.
  - unfold get_logo_image. program_logic.
  - unfold get_logo_image. program_logic.
  - unfold get_logo_image. program_logic.
  - unfold button_callback, answer_query, generate_from_callback, footer_yes_callback,
      footer_no_callback, create_landing_page_from_callback.
    program_logic; repeat case_match; first [apply page_type_callback_wf | program_logic].
Qed.

Lemma step_bot_wf b u :
  map_Forall (fun _ => ud_wf) (b_users b) -> map_Forall (fun _ => ud_wf) (b_users (fst (step_bot b u))).
Proof.
  intros Hb. rewrite step_bot_eq. simpl. apply map_Forall_insert_2; [|done].
  apply (handle_wf u (default empty_ud (b_users b !! update_user u), b_world b)).
  simpl. destruct (b_users b !! update_user u) eqn:E; [exact (Hb _ _ E)|apply empty_ud_wf].
Qed.

Lemma reachable_wf b0 b :
  map_Forall (fun _ => ud_wf) (b_users b0) -> reachable b0 b -> map_Forall (fun _ => ud_wf) (b_users b).
Proof. intros Hb0 Hr. induction Hr; auto using step_bot_wf. Qed.

(** ** A working copy without a repository stays without one

    [get_logo_image] creates [REPO_DIR] before any clone; [setup_git_repo]
    then pulls instead of cloning, and nothing ever runs [git clone]
    again. *)
Definition repo_lost (g : ws) : Prop := ws_dir g = true /\ ws_repo g = None.

(** Once the repository is lost it stays lost, and the remote is left
    unchanged. *)
Definition lost_rel (g g' : ws) : Prop :=
  repo_lost g -> repo_lost g' /\ ws_remote g' = ws_remote g.

#[export] Instance lost_rel_preorder : PreOrder lost_rel.
Proof.
  split; [by intros g Hg|].
  intros g1 g2 g3 H12 H23 Hl. destruct (H12 Hl) as [Hl2 E2]. destruct (H23 Hl2) as [Hl3 E3].
  split; [done|congruence].
Qed.

Definition wlost : world -> world -> Prop := on_part w_git lost_rel.

Lemma run_git_command_lost c : preserves lost_rel (run_git_command c).
Proof.
  intros g [Hd Hr]. rewrite run_git_command_eq, git_exec_no_repo by done. done.
Qed.

Lemma git_branch_r_lost : preserves lost_rel git_branch_r.
Proof. intros g Hl. unfold git_branch_r. by destruct (ws_dir g). Qed.

#[local] Hint Resolve run_git_command_lost git_branch_r_lost : bot.

Lemma lift_git_lost {A} (m : PyM ws A) : preserves lost_rel m -> preserves wlost (lift_git m).
Proof. intros Hm. apply preserves_zoom_in; [done|exact Hm]. Qed.

Lemma world_git_frame {A} (m : PyM world A) :
  (forall w, w_git (snd (m w)) = w_git w) -> preserves wlost m.
Proof. apply preserves_frame. apply _. Qed.

Lemma write_index_lost html : preserves wlost (write_index html).
Proof. intros w Hl. unfold write_index. case_match; [|done]. destruct Hl. done. Qed.

Lemma landing_flow_lost v ch pt ft lp :
  preserves wlost
    (landing_flow GITHUB_REPO_URL GITHUB_PAT NETLIFY_API_TOKEN NETLIFY_SITE_ID v ch pt ft lp).
Proof.
  unfold landing_flow, page_type_desc.
  repeat first
    [ apply preserves_bind; [..|intros ?]
    | apply lift_git_lost; unfold setup_git_repo, push_to_github; program_logic
    | apply write_index_lost
    | apply world_git_frame; intros; unfold lift_gen, lift_netlify;
        first [done | apply zoom_frame; done]
    | case_match ]; eauto with bot.
Qed.

Definition slost : sess -> sess -> Prop := on_part snd wlost.

Lemma on_world_lost {A} (m : PyM world A) : preserves wlost m -> preserves slost (on_world m).
Proof. intros Hm. apply preserves_zoom_in; [done|exact Hm]. Qed.

Lemma sess_world_frame {A} (m : PyM sess A) :
  (forall s, snd (snd (m s)) = snd s) -> preserves slost m.
Proof. apply preserves_frame. apply _. Qed.

Lemma save_logo_lost img : preserves wlost (save_logo img).
Proof. apply preserves_modify. intros w [_ Hr]. done. Qed.

#[local] Hint Resolve landing_flow_lost save_logo_lost : bot.
#[local] Hint Extern 1 (preserves slost (on_world _)) => apply on_world_lost : bot.
#[local] Hint Extern 1 (preserves slost _) => apply sess_world_frame; done : bot.
#[local] Hint Extern 1 (preserves wlost (say _ _)) => apply world_git_frame; done : bot.

Lemma handle_lost u : preserves slost (handle u).
Proof.
  destruct u; simpl;
    unfold handle_message, get_logo_image, button_callback, page_type_callback,
      generate_from_callback, footer_yes_callback, footer_no_callback, start, help_command,
      create_landing_page_from_callback, create_landing_page_from_message, flow,
      start_from_callback, help_from_callback, cancel_from_callback, reply;
    repeat case_match; program_logic.
Qed.

Lemma run_bot_lost b us :
  lost_rel (w_git (b_world b)) (w_git (b_world (run_bot b us))).
Proof.
  revert b. induction us as [|u us IH]; intros b; simpl; [done|].
  etrans; [|apply IH]. rewrite step_bot_eq. simpl.
  apply (handle_lost u (default empty_ud (b_users b !! update_user u), b_world b)).
Qed.

(** ** Lemmas on single handlers *)

Lemma handle_message_footer u w t :
  conversation_state u = Some FOOTER_TEXT -> t <> "" ->
  let u' := set_footer_text (Some (py_strip t)) u in
  handle_message t (u, w) = (fst (flow ViaReply u' w), (u', snd (flow ViaReply u' w))).
Proof.
  intros Hs Ht. unfold handle_message. apply String.eqb_neq in Ht. rewrite Ht.
  unfold create_landing_page_from_message, get_ud, update_ud. pym_simpl.
  change (conversation_state (u, w).1) with (conversation_state u). rewrite Hs.
  unfold get_ud. simpl. by rewrite on_world_run.
Qed.

Lemma cancel_eq uid u w :
  handle (UCallback uid CALLBACK_CANCEL) (u, w) = (ROk tt, (u, snd (say ViaEdit TCancelled w))).
Proof. reflexivity. Qed.

(** A callback whose data starts with [page_type_] is none of the fixed
    callbacks. *)
Lemma page_type_data_not_fixed data c :
  startswith data "page_type_" = true ->
  c ∈ [CALLBACK_START; CALLBACK_GENERATE; CALLBACK_HELP; CALLBACK_CANCEL;
       CALLBACK_FOOTER_YES; CALLBACK_FOOTER_NO] ->
  String.eqb data c = false.
Proof.
  intros Hp Hc. destruct (String.eqb_spec data c) as [->|]; [|done].
  repeat (apply elem_of_cons in Hc as [->|Hc]; [discriminate|]). set_solver.
Qed.

Lemma step_bot_user b u :
  b_users (fst (step_bot b u)) !! update_user u =
  Some (fst (snd (handle u (default empty_ud (b_users b !! update_user u), b_world b)))).
Proof. rewrite step_bot_eq. simpl. apply lookup_insert_eq. Qed.

Lemma step_bot_other b u k :
  k <> update_user u -> b_users (fst (step_bot b u)) !! k = b_users b !! k.
Proof. intros Hk. rewrite step_bot_eq. simpl. by apply lookup_insert_ne. Qed.

Lemma step_bot_world b u :
  b_world (fst (step_bot b u)) =
  snd (snd (handle u (default empty_ud (b_users b !! update_user u), b_world b))).
Proof. by rewrite step_bot_eq. Qed.

(** ** Properties of the bot *)

(** Claim C3 (bot_wf): in every bot reached from one without sessions, every
    user's dict is well formed: its [conversation_state] is never
    [PAGE_TYPE] or [FOOTER_CHOICE] (the handlers never store these two
    states: page type and footer choice are asked with buttons whatever
    the state), its [page_type] is a key of [LANDING_PAGE_TYPES], and its
    [logo_path] is [landing_pages_repo/logo.png], the same file for every
    user. *)
Theorem reachable_sessions_wf w0 b :
  reachable (mk_bot ∅ w0) b -> map_Forall (fun _ => ud_wf) (b_users b).
Proof. apply reachable_wf. apply map_Forall_empty. Qed.

(** Claim C5 (bot_lost): a logo sent before the first clone (a fresh
    deployment: the user sends the logo before any page was published)
    creates [REPO_DIR] without a repository; from then on, whatever
    updates arrive, the working copy never gets a repository and the
    GitHub remote is never changed: no page is ever published. *)
Theorem logo_before_clone_never_publishes b uid img us :
  ws_repo (w_git (b_world b)) = None ->
  let b' := run_bot b (UMedia uid (MPhoto img) :: us) in
  ws_repo (w_git (b_world b')) = None /\
  ws_remote (w_git (b_world b')) = ws_remote (w_git (b_world b)).
Proof.
  intros Hr. change (run_bot b (UMedia uid (MPhoto img) :: us))
    with (run_bot (fst (step_bot b (UMedia uid (MPhoto img)))) us).
  set (b1 := fst (step_bot b (UMedia uid (MPhoto img)))).
  assert (repo_lost (w_git (b_world b1)) /\
          ws_remote (w_git (b_world b1)) = ws_remote (w_git (b_world b))) as [Hl1 E1].
  { subst b1. rewrite step_bot_world. simpl. done. }
  destruct (run_bot_lost b1 us Hl1) as [[_ Hr'] E']. split; [done|congruence].
Qed.

(** Claim C20 (bot_cancel): the cancel button changes nothing in the dict:
    a user who cancels while the bot waits for the footer text still has
    the state [FOOTER_TEXT], and the next text they send runs the whole
    pipeline with that text as the footer. *)
Theorem cancel_keeps_session b uid u t :
  b_users b !! uid = Some u -> conversation_state u = Some FOOTER_TEXT -> t <> "" ->
  let b1 := fst (step_bot b (UCallback uid CALLBACK_CANCEL)) in
  b_users b1 !! uid = Some u /\
  b_world (fst (step_bot b1 (UText uid t))) =
    snd (flow ViaReply (set_footer_text (Some (py_strip t)) u) (b_world b1)).
Proof.
  intros Hu Hs Ht. cbv zeta. rewrite step_bot_eq. cbn [update_user b_users b_world].
  rewrite Hu. cbn [default]. rewrite cancel_eq. cbn [fst snd].
  split; [apply lookup_insert_eq|].
  rewrite step_bot_world. cbn [update_user b_users b_world].
  rewrite lookup_insert_eq. cbn [default handle].
  by rewrite handle_message_footer.
Qed.

(** Claim C21 (bot_sticky): the state [FOOTER_TEXT] is never left: a text in
    that state stores the footer and runs the pipeline, and the state
    stays [FOOTER_TEXT], so every later text the user sends, whatever it
    is, publishes the page again with that text as the footer. *)
Theorem footer_text_state_sticky b uid u t :
  b_users b !! uid = Some u -> conversation_state u = Some FOOTER_TEXT -> t <> "" ->
  exists u', b_users (fst (step_bot b (UText uid t))) !! uid = Some u' /\
    conversation_state u' = Some FOOTER_TEXT /\ footer_text u' = Some (py_strip t) /\
    b_world (fst (step_bot b (UText uid t))) = snd (flow ViaReply u' (b_world b)).
Proof.
  intros Hu Hs Ht. exists (set_footer_text (Some (py_strip t)) u).
  pose proof (step_bot_user b (UText uid t)) as Hc. simpl in Hc.
  rewrite Hu, handle_message_footer in Hc by done.
  rewrite step_bot_world. simpl. rewrite Hu, handle_message_footer by done. auto.
Qed.

(** Claim C22 (bot_footer_no): the [footer_no] button runs the pipeline
    whatever the session holds: for a user with no session at all it
    publishes with channel, page type, footer and logo all [None], where
    the design requires the three fields to be collected first. *)
Theorem footer_no_without_session b uid :
  b_users b !! uid = None ->
  b_world (fst (step_bot b (UCallback uid CALLBACK_FOOTER_NO))) =
  snd (landing_flow GITHUB_REPO_URL GITHUB_PAT NETLIFY_API_TOKEN NETLIFY_SITE_ID ViaEdit
         None None None None (b_world b)).
Proof.
  intros Hu. rewrite step_bot_world. cbn [update_user b_users b_world]. rewrite Hu.
  cbn [default handle]. unfold button_callback. cbn -[footer_no_callback].
  unfold footer_no_callback, create_landing_page_from_callback, update_ud, get_ud, modify_st.
  rewrite bind_run_ok with (s' := (set_footer_text None empty_ud, b_world b)) (a := tt) by done.
  unfold mbind, pym_bind. cbn [fst snd]. by rewrite on_world_run.
Qed.

(** Claim C23 (bot_logo): the logo file is shared by all users: when a user
    sends a photo, every other user who already sent a logo keeps a
    [logo_path] that names the same file, which now holds the new
    photo; their page will be published with it. *)
Theorem logo_shared_between_users w0 b uid1 uid2 u1 img :
  reachable (mk_bot ∅ w0) b -> uid1 <> uid2 ->
  b_users b !! uid1 = Some u1 -> logo_path u1 <> None ->
  let b' := fst (step_bot b (UMedia uid2 (MPhoto img))) in
  b_users b' !! uid1 = Some u1 /\
  logo_path u1 = Some (repo_path "logo.png") /\
  t_logo (ws_files (w_git (b_world b'))) = Some img.
Proof.
  intros Hr Hne Hu Hl. cbv zeta. split; [by rewrite step_bot_other|]. split.
  - pose proof (reachable_wf _ _ (map_Forall_empty _) Hr uid1 u1 Hu) as (_ & _ & Hp).
    destruct (logo_path u1); [by subst|congruence].
  - by rewrite step_bot_world.
Qed.

(** Claim C40 (bot_badtype): a page-type button whose key is not in the
    catalog never shows "Invalid page type selected!": [button_callback]
    has already answered the query, so the second answer is refused with
    [BadRequest], which escapes the handler.  The dict and the world are
    left exactly as they were: the user sees nothing at all. *)
Theorem invalid_page_type_unchanged u w data :
  startswith data "page_type_" = true ->
  page_type_known (py_replace data "page_type_" "") = false ->
  button_callback data (u, w) = (RExc (BadRequest "query id is invalid"), (u, w)).
Proof.
  intros Hp Hk. unfold button_callback.
  rewrite !(page_type_data_not_fixed data) by (done || set_solver).
  rewrite Hp. unfold page_type_callback. rewrite Hk. reflexivity.
Qed.

End Handlers.
(** ** Concrete bots, scenarios and witnesses

    The environment of the witnesses: the network up, Gemini answering
    [<p>x</p>], Netlify accepting every deploy. *)
Definition dstep := @step_bot net_up gem_ok netlify_up "https://github.com/o/r"
  (Some "tok") (Some "t") (Some "s").
Definition drun := @run_bot net_up gem_ok netlify_up "https://github.com/o/r"
  (Some "tok") (Some "t") (Some "s").
Definition dflow := @flow net_up gem_ok netlify_up "https://github.com/o/r"
  (Some "tok") (Some "t") (Some "s").

(** A fresh deployment: no [REPO_DIR] yet. *)
Definition fresh_ws : ws := mk_ws false None (mk_tree None None) (remote_of []) [].
Definition fresh_bot : bot := mk_bot ∅ (demo_world fresh_ws).
(** A deployment whose working copy was cloned before. *)
Definition cloned_bot : bot := mk_bot ∅ (demo_world (cloned_ws [] "<p>old</p>")).

(** The updates of a user who follows the buttons and prompts. *)
Definition happy_path (uid : Z) : list update :=
  [UCallback uid CALLBACK_GENERATE; UText uid "Acme"; UMedia uid (MPhoto "PNG");
   UCallback uid "page_type_3"; UCallback uid CALLBACK_FOOTER_NO].

(** On a cloned working copy the happy path publishes the page. *)
Example happy_path_cloned :
  last (w_out (b_world (drun cloned_bot (happy_path 1)))) =
  Some (mk_msg ViaEdit (TLive "https://acme.netlify.app" "page-Acme"
                          "Personal Brand - Professional portfolio and about section")).
Proof. vm_compute. reflexivity. Defined.

(** On a fresh deployment the same updates end in "Could not set up the
    Git repository": the logo created [REPO_DIR] before the clone. *)
Example happy_path_fresh :
  last (w_out (b_world (drun fresh_bot (happy_path 1)))) = Some (mk_msg ViaEdit TRepoFail).
Proof. vm_compute. reflexivity. Defined.

(** [footer_no] from a user with no session pushes the branch
    [page-none], then [deploy_to_netlify] raises on [None.lower()]. *)
Example footer_no_fresh_user :
  ws_log (w_git (b_world (drun cloned_bot [UCallback 7 CALLBACK_FOOTER_NO]))) =
    [GPull; GBranchR; GCheckoutNew "page-none"; GAdd "index.html";
     GCommit "feat: add new landing page for page-none"; GPush "page-none"] /\
  snd (dstep cloned_bot (UCallback 7 CALLBACK_FOOTER_NO)) = RExc (AttributeError "lower").
Proof. vm_compute. split; reflexivity. Defined.

Lemma reachable_sessions_wf_witness :
  map_Forall (fun _ => ud_wf) (b_users (drun fresh_bot (happy_path 1))).
Proof.
  apply (@reachable_sessions_wf net_up gem_ok netlify_up "https://github.com/o/r"
           (Some "tok") (Some "t") (Some "s") (demo_world fresh_ws)).
  apply reachable_run. constructor.
Defined.

Lemma logo_before_clone_never_publishes_witness :
  ws_repo (w_git (b_world (drun fresh_bot (UMedia 1 (MPhoto "PNG") :: happy_path 1)))) = None /\
  ws_remote (w_git (b_world (drun fresh_bot (UMedia 1 (MPhoto "PNG") :: happy_path 1)))) =
    ws_remote fresh_ws.
Proof.
  exact (@logo_before_clone_never_publishes net_up gem_ok netlify_up "https://github.com/o/r"
           (Some "tok") (Some "t") (Some "s") fresh_bot 1 "PNG" (happy_path 1) eq_refl).
Defined.

(** A user who chose "add footer" and is asked for the footer text. *)
Definition footer_user : user_data :=
  mk_ud (Some FOOTER_TEXT) (Some "Acme") (Some (repo_path "logo.png")) (Some "3") None.
Definition footer_bot : bot := mk_bot {[1%Z := footer_user]} (demo_world (cloned_ws [] "<p>old</p>")).

Lemma cancel_keeps_session_witness :
  b_users (fst (dstep footer_bot (UCallback 1 CALLBACK_CANCEL))) !! 1%Z = Some footer_user /\
  b_world (fst (dstep (fst (dstep footer_bot (UCallback 1 CALLBACK_CANCEL))) (UText 1 "hello"))) =
    snd (dflow ViaReply (set_footer_text (Some (py_strip "hello")) footer_user)
           (b_world (fst (dstep footer_bot (UCallback 1 CALLBACK_CANCEL))))).
Proof.
  apply (@cancel_keeps_session net_up gem_ok netlify_up "https://github.com/o/r"
           (Some "tok") (Some "t") (Some "s") footer_bot 1 footer_user "hello");
    [reflexivity|reflexivity|discriminate].
Defined.

Lemma footer_text_state_sticky_witness :
  exists u', b_users (fst (dstep footer_bot (UText 1 "Ads Co"))) !! 1%Z = Some u' /\
    conversation_state u' = Some FOOTER_TEXT /\ footer_text u' = Some (py_strip "Ads Co") /\
    b_world (fst (dstep footer_bot (UText 1 "Ads Co"))) = snd (dflow ViaReply u' (b_world footer_bot)).
Proof.
  apply (@footer_text_state_sticky net_up gem_ok netlify_up "https://github.com/o/r"
           (Some "tok") (Some "t") (Some "s") footer_bot 1 footer_user "Ads Co");
    [reflexivity|reflexivity|discriminate].
Defined.

Lemma footer_no_without_session_witness :
  b_world (fst (dstep cloned_bot (UCallback 7 CALLBACK_FOOTER_NO))) =
  snd (@landing_flow net_up gem_ok netlify_up "https://github.com/o/r" (Some "tok") (Some "t")
         (Some "s") ViaEdit None None None None (b_world cloned_bot)).
Proof.
  apply (@footer_no_without_session net_up gem_ok netlify_up "https://github.com/o/r"
           (Some "tok") (Some "t") (Some "s") cloned_bot 7).
  reflexivity.
Defined.

(** User 1 has sent a logo; user 2 sends a photo. *)
Definition two_users : bot := drun cloned_bot [UCallback 1 CALLBACK_GENERATE; UMedia 1 (MPhoto "ONE")].

Lemma logo_shared_between_users_witness :
  b_users (fst (dstep two_users (UMedia 2 (MPhoto "TWO")))) !! 1%Z =
    Some (mk_ud (Some CHANNEL_NAME) None (Some (repo_path "logo.png")) None None) /\
  logo_path (mk_ud (Some CHANNEL_NAME) None (Some (repo_path "logo.png")) None None) =
    Some (repo_path "logo.png") /\
  t_logo (ws_files (w_git (b_world (fst (dstep two_users (UMedia 2 (MPhoto "TWO"))))))) = Some "TWO".
Proof.
  apply (@logo_shared_between_users net_up gem_ok netlify_up "https://github.com/o/r"
           (Some "tok") (Some "t") (Some "s") (demo_world (cloned_ws [] "<p>old</p>"))
           two_users 1 2).
  - apply reachable_run. constructor.
  - lia.
  - vm_compute. reflexivity.
  - discriminate.
Defined.

Lemma invalid_page_type_unchanged_witness :
  @button_callback net_up gem_ok netlify_up "https://github.com/o/r" (Some "tok") (Some "t")
    (Some "s") "page_type_11" (footer_user, demo_world fresh_ws) =
  (RExc (BadRequest "query id is invalid"), (footer_user, demo_world fresh_ws)).
Proof. apply invalid_page_type_unchanged; reflexivity. Defined.

(** ** Two users, one working copy

    Gemini answers with the text of the request, so each channel gets its
    own page. *)
Definition gem_echo : GeminiEnv :=
  {| gemini_post := fun r => HttpResp 200 (Some (answer_with (gr_user r))) |}.
Definition erun := @run_bot net_up gem_echo netlify_up "https://github.com/o/r"
  (Some "tok") (Some "t") (Some "s").

Definition publish_updates (uid : Z) (ch pt : string) : list update :=
  [UCallback uid CALLBACK_GENERATE; UText uid ch; UMedia uid (MPhoto "PNG");
   UCallback uid ("page_type_" ++ pt); UCallback uid CALLBACK_FOOTER_NO].

(** User 1 publishes [Acme], user 2 publishes [Beta], user 1 publishes a
    new version of [Acme]: git refuses the checkout of [page-acme] over
    the new [index.html], and the user is told the push failed. *)
Example republish_after_other_page_fails :
  last (w_out (b_world (erun cloned_bot
    (publish_updates 1 "Acme" "3" ++ publish_updates 2 "Beta" "3" ++ publish_updates 1 "Acme" "5"))))
  = Some (mk_msg ViaEdit TPushFail).
Proof. vm_compute. reflexivity. Defined.

(** [git checkout -b] starts the new branch at the current one: the
    branch of [Beta] carries the page of [Acme] in its history. *)
Example new_branch_built_on_previous_page :
  let rf := r_refs (ws_remote (w_git (b_world (erun cloned_bot
              (publish_updates 1 "Acme" "3" ++ publish_updates 2 "Beta" "3"))))) in
  match rf !! "page-acme", rf !! "page-beta" with
  | Some a, Some b => is_ancestor a b = true /\ a <> b
  | _, _ => False
  end.
Proof. vm_compute. split; [reflexivity|discriminate]. Defined.

(** The commands [/generate] and [/cancel] of the design reach no handler:
    [main] registers only [start] and [help], so the bot does nothing. *)
Example generate_and_cancel_commands_ignored :
  b_world (dstep cloned_bot (UCommand 7 "generate")).1 = b_world cloned_bot /\
  b_users (dstep cloned_bot (UCommand 7 "generate")).1 !! 7%Z = Some empty_ud /\
  b_world (dstep cloned_bot (UCommand 7 "cancel")).1 = b_world cloned_bot /\
  b_users (dstep cloned_bot (UCommand 7 "cancel")).1 !! 7%Z = Some empty_ud.
Proof. split_and!; reflexivity. Qed.

End Bot.
