(* ===== verification/Wizard.v ===== *)
(** * The wizard of the design and the refinement by the handlers

    The design (the conversation state machine of the specification,
    section 4.1) describes a session as a state and the fields collected
    so far, and an input either advances the session or is rejected with
    a re-prompt.  [Wizard] writes that machine as [wizard_step]; it is a
    specification, not code of the repository.

    [Refinement] relates a session of the machine to the dict of the user
    and the world ([sim]) and proves that every input the machine
    accepts, sent as the Telegram update the bot's buttons and prompts
    ask for, takes the handlers to a related dict and world
    ([wizard_step_sim], and along any sequence of accepted inputs of one
    user, [wizard_trace_simulation]); and that the input that completes
    the session runs the pipeline on exactly the fields the machine
    collected ([wizard_publishes_collected]); and that from any dict and
    world the five updates of a session reach the pipeline
    ([wizard_always_reaches_publish]).  Cancel is
    left out: the handlers do not implement it (see [cancel_keeps_session]
    in [Bot]). *)

From S2P Require Import Prelude PyStr Sanitize GitModel Publisher Generator Deploy Orchestrator Bot.
Import Git Publisher Generator Deploy Orchestrator Bot.

Local Open Scope string_scope.

Module Wizard.

Inductive wstate :=
| AwaitingChannelName | AwaitingLogo | AwaitingPageType | AwaitingFooterChoice
| AwaitingFooterText | Complete | Cancelled.

(** A session: the state and the fields, [f_footer] being the tri-state
    "not asked" ([None]), "declined" ([Some None]) or "given". *)
Record session := mk_session {
  s_state : wstate;
  f_channel : option string;
  f_logo : option string;
  f_page_type : option string;
  f_footer : option (option string)
}.

Inductive input :=
| IGenerate | IText (t : string) | IImage (img : string) | IPageType (k : string)
| IFooterYes | IFooterNo | ICancel.

Definition fresh : session := mk_session AwaitingChannelName None None None None.

(** A session that has ended. *)
Definition done_session : session := mk_session Complete None None None None.

Definition non_terminal (st : wstate) : bool :=
  match st with Complete | Cancelled => false | _ => true end.

(** One input; [None] is a rejection: a re-prompt, and no change. *)
Definition wizard_step (s : session) (i : input) : option session :=
  match i, s_state s with
  | IGenerate, _ => Some fresh
  | ICancel, st =>
      if non_terminal st then Some (mk_session Cancelled None None None None) else None
  | IText t, AwaitingChannelName =>
      if String.eqb t "" then None
      else Some (mk_session AwaitingLogo (Some t) None None None)
  | IImage img, AwaitingLogo =>
      Some (mk_session AwaitingPageType (f_channel s) (Some img) None None)
  | IPageType k, AwaitingPageType =>
      if page_type_known k
      then Some (mk_session AwaitingFooterChoice (f_channel s) (f_logo s) (Some k) None)
      else None
  | IFooterNo, AwaitingFooterChoice =>
      Some (mk_session Complete (f_channel s) (f_logo s) (f_page_type s) (Some None))
  | IFooterYes, AwaitingFooterChoice =>
      Some (mk_session AwaitingFooterText (f_channel s) (f_logo s) (f_page_type s) None)
  | IText t, AwaitingFooterText =>
      if String.eqb t "" then None
      else Some (mk_session Complete (f_channel s) (f_logo s) (f_page_type s) (Some (Some t)))
  | _, _ => None
  end.

Fixpoint wizard_run (s : session) (ins : list input) : option session :=
  match ins with
  | [] => Some s
  | i :: ins => s' ← wizard_step s i; wizard_run s' ins
  end.

(** The update a user sends for an input: the text they type, the photo,
    or the button the bot showed them. *)
Definition event (uid : Z) (i : input) : update :=
  match i with
  | IGenerate => UCallback uid CALLBACK_GENERATE
  | IText t => UText uid t
  | IImage img => UMedia uid (MPhoto img)
  | IPageType k => UCallback uid ("page_type_" ++ k)
  | IFooterYes => UCallback uid CALLBACK_FOOTER_YES
  | IFooterNo => UCallback uid CALLBACK_FOOTER_NO
  | ICancel => UCallback uid CALLBACK_CANCEL
  end.

(** How the pipeline talks to the user after the completing input. *)
Definition via_of (i : input) : via :=
  match i with IText _ => ViaReply | _ => ViaEdit end.

(** ** The relation between a session and the dict and world

    The dict stores the stripped channel name; the logo is the shared
    file; while the machine waits for the logo, the page type or the
    footer choice, the dict's state is [LOGO_IMAGE] (the handlers store
    no state for the two button steps). *)
Definition channel_ok (s : session) (u : user_data) : Prop :=
  exists c, f_channel s = Some c /\ channel_name u = Some (py_strip c).

Definition logo_ok (s : session) (u : user_data) (w : world) : Prop :=
  exists img, f_logo s = Some img /\ logo_path u = Some (repo_path "logo.png") /\
              t_logo (ws_files (w_git w)) = Some img.

Definition page_type_ok (s : session) (u : user_data) : Prop :=
  exists k, f_page_type s = Some k /\ page_type u = Some k.

Definition sim (s : session) (u : user_data) (w : world) : Prop :=
  match s_state s with
  | AwaitingChannelName => conversation_state u = Some CHANNEL_NAME
  | AwaitingLogo => conversation_state u = Some LOGO_IMAGE /\ channel_ok s u
  | AwaitingPageType =>
      conversation_state u = Some LOGO_IMAGE /\ channel_ok s u /\ logo_ok s u w
  | AwaitingFooterChoice =>
      conversation_state u = Some LOGO_IMAGE /\ channel_ok s u /\ logo_ok s u w /\
      page_type_ok s u
  | AwaitingFooterText =>
      conversation_state u = Some FOOTER_TEXT /\ channel_ok s u /\ logo_ok s u w /\
      page_type_ok s u
  | Complete | Cancelled => True
  end.

(** ** Lemmas *)

Lemma page_type_known_cases k :
  page_type_known k = true -> k ∈ ["1"; "2"; "3"; "4"; "5"; "6"; "7"; "8"; "9"; "10"].
Proof.
  unfold page_type_known. rewrite bool_decide_eq_true. simpl.
  repeat (match goal with |- context [String.eqb k ?c] => destruct (String.eqb_spec k c) as [->|] end;
    [intros; apply (bool_decide_unpack _); reflexivity|]).
  by intros [].
Qed.

(** The page-type buttons carry the key back unchanged. *)
Lemma page_type_button_key k :
  page_type_known k = true -> py_replace ("page_type_" ++ k) "page_type_" "" = k.
Proof.
  intros Hk. apply page_type_known_cases in Hk.
  repeat (apply elem_of_cons in Hk as [->|Hk]; [reflexivity|]). set_solver.
Qed.

(** ** The handlers simulate the machine *)

Section Refinement.
Context `{GitEnv} `{GeminiEnv} `{NetlifyEnv}.
Variable GITHUB_REPO_URL : string.
Variable GITHUB_PAT NETLIFY_API_TOKEN NETLIFY_SITE_ID : option string.

Let handle := handle GITHUB_REPO_URL GITHUB_PAT NETLIFY_API_TOKEN NETLIFY_SITE_ID.
Let flow := flow GITHUB_REPO_URL GITHUB_PAT NETLIFY_API_TOKEN NETLIFY_SITE_ID.

(** The handler of each accepted input, in the state the machine has. *)
Lemma handle_generate uid u w :
  handle (event uid IGenerate) (u, w) =
    (ROk tt, (set_conversation_state CHANNEL_NAME u, snd (say ViaEdit TAskChannel w))).
Proof. reflexivity. Qed.

Lemma handle_channel uid u w t :
  conversation_state u = Some CHANNEL_NAME -> t <> "" ->
  handle (event uid (IText t)) (u, w) =
    (ROk tt, (set_conversation_state LOGO_IMAGE (set_channel_name (py_strip t) u),
              snd (say ViaReply (TAskLogo (py_strip t)) w))).
Proof.
  intros Hs Ht. apply String.eqb_neq in Ht. unfold handle, Bot.handle. cbn [event].
  unfold handle_message. rewrite Ht. unfold get_ud. pym_simpl.
  change (conversation_state (u, w).1) with (conversation_state u). by rewrite Hs.
Qed.

Lemma handle_image uid u w img :
  handle (event uid (IImage img)) (u, w) =
    (ROk tt, (set_logo_path (repo_path "logo.png") u,
              snd (say ViaReply TPageTypeMenu (snd (save_logo img w))))).
Proof. reflexivity. Qed.

Lemma handle_page_type uid u w k :
  page_type_known k = true ->
  handle (event uid (IPageType k)) (u, w) =
    (ROk tt, (set_page_type k u,
              snd (say ViaEdit (TAskFooter (default "" (dict_get LANDING_PAGE_TYPES k))) w))).
Proof.
  intros Hk. cbn [event]. unfold handle, Bot.handle, button_callback.
  rewrite !(page_type_data_not_fixed ("page_type_" ++ k))
    by (apply startswith_app || set_solver).
  rewrite startswith_app, page_type_button_key by done.
  unfold page_type_callback. rewrite Hk. reflexivity.
Qed.

Lemma handle_footer_yes uid u w :
  handle (event uid IFooterYes) (u, w) =
    (ROk tt, (set_conversation_state FOOTER_TEXT u, snd (say ViaEdit TAskFooterText w))).
Proof. reflexivity. Qed.

Lemma handle_footer_no uid u w :
  let u' := set_footer_text None u in
  handle (event uid IFooterNo) (u, w) = (fst (flow ViaEdit u' w), (u', snd (flow ViaEdit u' w))).
Proof.
  cbn zeta. unfold handle, Bot.handle, button_callback, answer_query.
  unfold mbind at 1, pym_bind at 1. cbn -[footer_no_callback].
  unfold footer_no_callback, create_landing_page_from_callback, update_ud, get_ud, modify_st.
  unfold mbind, pym_bind, mret, pym_ret. cbn [fst snd]. by rewrite on_world_run.
Qed.

Lemma handle_footer_text uid u w t :
  conversation_state u = Some FOOTER_TEXT -> t <> "" ->
  let u' := set_footer_text (Some (py_strip t)) u in
  handle (event uid (IText t)) (u, w) = (fst (flow ViaReply u' w), (u', snd (flow ViaReply u' w))).
Proof. apply handle_message_footer. Qed.

(** The dict and the world after a sequence of updates of one user. *)
Definition run_user (uid : Z) (ins : list input) (s : sess) : sess :=
  foldl (fun s i => snd (handle (event uid i) s)) s ins.

(** One accepted input. *)
Lemma wizard_step_sim uid s i s' u w :
  wizard_step s i = Some s' -> sim s u w ->
  sim s' (fst (snd (handle (event uid i) (u, w)))) (snd (snd (handle (event uid i) (u, w)))).
Proof.
  intros Hstep Hsim. destruct s as [st c l p f].
  destruct i; destruct st; cbn in Hstep; try discriminate;
    repeat (case_match; try discriminate); simplify_eq; cbn [sim s_state] in Hsim |- *;
    try done.
  all: first
    [ rewrite handle_generate
    | rewrite handle_image
    | rewrite handle_footer_yes
    | rewrite handle_page_type by done
    | rewrite handle_channel by (done || by apply String.eqb_neq) ].
  all: cbn [fst snd sim s_state f_channel f_logo f_page_type]; unfold channel_ok, logo_ok, page_type_ok in *;
    cbn [f_channel f_logo f_page_type conversation_state channel_name logo_path page_type
         set_conversation_state set_channel_name set_logo_path set_page_type] in *;
    naive_solver.
Qed.

(** One input that completes the session runs the pipeline at once, on
    the fields the machine collected. *)
Lemma wizard_step_complete uid s i s' u w :
  wizard_step s i = Some s' -> s_state s' = Complete -> sim s u w ->
  exists u',
    handle (event uid i) (u, w) = (fst (flow (via_of i) u' w), (u', snd (flow (via_of i) u' w))) /\
    channel_name u' = option_map py_strip (f_channel s') /\ page_type u' = f_page_type s' /\
    Some (footer_text u') = option_map (option_map py_strip) (f_footer s') /\ logo_ok s' u' w.
Proof.
  intros Hstep Hc Hsim. destruct s as [st c l p f].
  destruct i; destruct st; cbn in Hstep; try discriminate;
    repeat (case_match; try discriminate); simplify_eq; cbn [sim s_state] in Hsim, Hc |- *;
    try discriminate.
  - eexists. split; [apply handle_footer_text; [naive_solver|by apply String.eqb_neq]|].
    unfold channel_ok, logo_ok, page_type_ok in *. cbn in *. naive_solver.
  - eexists. split; [apply handle_footer_no|].
    unfold channel_ok, logo_ok, page_type_ok in *. cbn in *. naive_solver.
Qed.

Lemma run_user_cons uid i ins us :
  run_user uid (i :: ins) us = run_user uid ins (snd (handle (event uid i) us)).
Proof. done. Qed.

Lemma wizard_run_sim uid ins s s' u w :
  wizard_run s ins = Some s' -> sim s u w ->
  sim s' (run_user uid ins (u, w)).1 (run_user uid ins (u, w)).2.
Proof.
  revert s u w. induction ins as [|i ins IH]; intros s u w Hrun Hsim; cbn in Hrun.
  - by simplify_eq.
  - destruct (wizard_step s i) as [s1|] eqn:E; [|discriminate]. cbn in Hrun.
    rewrite run_user_cons. destruct (handle (event uid i) (u, w)) as [r [u1 w1]] eqn:Eh.
    eapply IH; [exact Hrun|]. pose proof (wizard_step_sim uid s i s1 u w E Hsim) as Hs.
    by rewrite Eh in Hs.
Qed.

(** Claim C2 (wiz_trace): along every sequence of inputs the design's
    machine accepts, sent by one user as the updates the bot asks for,
    the user's dict and the world stay related to the machine's session:
    the conversation handlers implement the wizard of the design for a
    user alone (cancel apart, which the handlers do not implement). *)
Theorem wizard_trace_simulation uid ins s s' u w :
  wizard_run s ins = Some s' -> sim s u w ->
  sim s' (run_user uid ins (u, w)).1 (run_user uid ins (u, w)).2.
Proof. apply wizard_run_sim. Qed.

(** Claim C1 (wiz_publish): for a user alone, an input sequence the
    design's machine accepts and whose last input completes the session
    ([footer_no], or the footer text) makes the last update run the
    publish pipeline on exactly the fields the machine collected: the
    stripped channel name, the chosen page type, the footer (or none),
    and the logo file holding the image the user sent. *)
Theorem wizard_publishes_collected uid ins i s s1 s' u w :
  wizard_run s ins = Some s1 -> wizard_step s1 i = Some s' -> s_state s' = Complete ->
  sim s u w ->
  let '(u1, w1) := run_user uid ins (u, w) in
  exists u',
    handle (event uid i) (u1, w1) =
      (fst (flow (via_of i) u' w1), (u', snd (flow (via_of i) u' w1))) /\
    channel_name u' = option_map py_strip (f_channel s') /\ page_type u' = f_page_type s' /\
    Some (footer_text u') = option_map (option_map py_strip) (f_footer s') /\ logo_ok s' u' w1.
Proof.
  intros Hrun Hstep Hc Hsim. pose proof (wizard_run_sim uid _ _ _ u w Hrun Hsim) as Hs1.
  destruct (run_user uid ins (u, w)) as [u1 w1]. by eapply wizard_step_complete.
Qed.

(** The inputs of a whole session, from any state of the machine. *)
Definition publish_inputs (t img k : string) : list input :=
  [IGenerate; IText t; IImage img; IPageType k].

Lemma wizard_run_publish_inputs s t img k :
  t <> "" -> page_type_known k = true ->
  wizard_run s (publish_inputs t img k) =
    Some (mk_session AwaitingFooterChoice (Some t) (Some img) (Some k) None).
Proof.
  intros Ht%String.eqb_neq Hk. cbn. rewrite Ht. cbn. by rewrite Hk.
Qed.

(** Claim C11 (wiz_live): whatever the user's dict holds and whatever state
    the world is in (a conversation left half-way, a sticky footer state,
    a failed publish), the updates "generate", a non-empty channel name,
    a photo, a known page-type button and "no footer" run the publish
    pipeline, on the stripped channel name, that page type, no footer,
    and the logo file holding that photo: a user is never stuck. *)
Theorem wizard_always_reaches_publish uid t img k u w :
  t <> "" -> page_type_known k = true ->
  let '(u1, w1) := run_user uid (publish_inputs t img k) (u, w) in
  exists u',
    handle (event uid IFooterNo) (u1, w1) =
      (fst (flow ViaEdit u' w1), (u', snd (flow ViaEdit u' w1))) /\
    channel_name u' = Some (py_strip t) /\ page_type u' = Some k /\ footer_text u' = None /\
    logo_path u' = Some (repo_path "logo.png") /\ t_logo (ws_files (w_git w1)) = Some img.
Proof.
  intros Ht Hk.
  pose proof (wizard_run_sim uid _ done_session _ u w (wizard_run_publish_inputs _ t img k Ht Hk) I)
    as Hs1.
  destruct (run_user uid (publish_inputs t img k) (u, w)) as [u1 w1].
  edestruct (wizard_step_complete uid
               (mk_session AwaitingFooterChoice (Some t) (Some img) (Some k) None) IFooterNo
               (mk_session Complete (Some t) (Some img) (Some k) (Some None)) u1 w1 eq_refl eq_refl Hs1)
    as (u' & Hh & Hc & Hp & Hf & img' & Himg & Hl & Hw).
  exists u'. cbn in *. simplify_eq. naive_solver.
Qed.

End Refinement.

(** ** Witnesses *)

Definition wizard_inputs : list input := [IGenerate; IText " Acme "; IImage "PNG"; IPageType "3"].

Lemma wizard_trace_simulation_witness :
  wizard_run done_session wizard_inputs =
    Some (mk_session AwaitingFooterChoice (Some " Acme ") (Some "PNG") (Some "3") None) /\
  sim (mk_session AwaitingFooterChoice (Some " Acme ") (Some "PNG") (Some "3") None)
    (@run_user net_up gem_ok netlify_up "https://github.com/o/r" (Some "tok") (Some "t")
       (Some "s") 1 wizard_inputs (empty_ud, demo_world (cloned_ws [] "<p>old</p>"))).1
    (@run_user net_up gem_ok netlify_up "https://github.com/o/r" (Some "tok") (Some "t")
       (Some "s") 1 wizard_inputs (empty_ud, demo_world (cloned_ws [] "<p>old</p>"))).2.
Proof.
  split; [reflexivity|].
  apply (@wizard_trace_simulation net_up gem_ok netlify_up "https://github.com/o/r"
           (Some "tok") (Some "t") (Some "s") 1 wizard_inputs done_session); [reflexivity|done].
Defined.

Lemma wizard_publishes_collected_witness :
  let '(u1, w1) := @run_user net_up gem_ok netlify_up "https://github.com/o/r" (Some "tok")
                     (Some "t") (Some "s") 1 wizard_inputs
                     (empty_ud, demo_world (cloned_ws [] "<p>old</p>")) in
  exists u',
    @handle net_up gem_ok netlify_up "https://github.com/o/r" (Some "tok") (Some "t") (Some "s")
      (event 1 IFooterNo) (u1, w1) =
      (fst (@flow net_up gem_ok netlify_up "https://github.com/o/r" (Some "tok") (Some "t")
              (Some "s") ViaEdit u' w1),
       (u', snd (@flow net_up gem_ok netlify_up "https://github.com/o/r" (Some "tok") (Some "t")
                   (Some "s") ViaEdit u' w1))) /\
    channel_name u' = Some "Acme" /\ page_type u' = Some "3" /\
    Some (footer_text u') = Some None /\
    logo_ok (mk_session Complete (Some " Acme ") (Some "PNG") (Some "3") (Some None)) u' w1.
Proof.
  exact (@wizard_publishes_collected net_up gem_ok netlify_up "https://github.com/o/r"
           (Some "tok") (Some "t") (Some "s") 1 wizard_inputs IFooterNo done_session
           (mk_session AwaitingFooterChoice (Some " Acme ") (Some "PNG") (Some "3") None)
           (mk_session Complete (Some " Acme ") (Some "PNG") (Some "3") (Some None))
           empty_ud (demo_world (cloned_ws [] "<p>old</p>")) eq_refl eq_refl eq_refl I).
Defined.

Lemma wizard_always_reaches_publish_witness :
  " Acme " <> "" /\ page_type_known "3" = true /\
  let '(u1, w1) := @run_user net_up gem_ok netlify_up "https://github.com/o/r" (Some "tok")
                     (Some "t") (Some "s") 1 (publish_inputs " Acme " "PNG" "3")
                     (set_conversation_state FOOTER_TEXT empty_ud, demo_world bare_dir_ws) in
  exists u',
    @handle net_up gem_ok netlify_up "https://github.com/o/r" (Some "tok") (Some "t") (Some "s")
      (event 1 IFooterNo) (u1, w1) =
      (fst (@flow net_up gem_ok netlify_up "https://github.com/o/r" (Some "tok") (Some "t")
              (Some "s") ViaEdit u' w1),
       (u', snd (@flow net_up gem_ok netlify_up "https://github.com/o/r" (Some "tok") (Some "t")
                   (Some "s") ViaEdit u' w1))) /\
    channel_name u' = Some (py_strip " Acme ") /\ page_type u' = Some "3" /\ footer_text u' = None /\
    logo_path u' = Some (repo_path "logo.png") /\ t_logo (ws_files (w_git w1)) = Some "PNG".
Proof.
  split; [discriminate|]. split; [reflexivity|].
  exact (@wizard_always_reaches_publish net_up gem_ok netlify_up "https://github.com/o/r"
           (Some "tok") (Some "t") (Some "s") 1 " Acme " "PNG" "3"
           (set_conversation_state FOOTER_TEXT empty_ud) (demo_world bare_dir_ws)
           ltac:(discriminate) eq_refl).
Defined.

End Wizard.
