(* ===== verification/Conversation.v ===== *)
(** * The conversation handlers that [main] does not register

    bot.py also has the handlers of a [ConversationHandler]: [generate]
    (331-338), [get_channel_name] (450-460), [get_logo_image] (462-501,
    modelled in [Bot], where [main] registers it as a plain message
    handler), [get_page_type] (503-527), [get_footer_choice] (529-545),
    [get_footer_text] (547-553), [create_landing_page] (555-614) and
    [cancel] (616-619).  Each returns the next state of the conversation
    or [ConversationHandler.END]; [ConversationHandler] is imported but
    never constructed, so none of them is reachable from [main].  They are
    modelled as they are written, over the same dict and world as the
    registered handlers: the text of the message is a [string] (the
    filter [filters.TEXT] of a conversation state guarantees one).

    The theorems show what the design's re-prompt rule asks of them: an
    input a state does not accept keeps the state, leaves the dict and
    the working copy alone and only sends a re-prompt. *)

From S2P Require Import Prelude PyStr Sanitize GitModel Publisher Generator Deploy Orchestrator Bot.
Import Git Publisher Generator Deploy Orchestrator Bot.

Local Open Scope string_scope.

Module Conversation.

(** The value a conversation handler returns. *)
Inductive conv_next := Next (c : conv_state) | END.

Section Handlers.
Context `{GitEnv} `{GeminiEnv} `{NetlifyEnv}.
Variable GITHUB_REPO_URL : string.
Variable GITHUB_PAT NETLIFY_API_TOKEN NETLIFY_SITE_ID : option string.

Definition generate : PyM sess conv_next :=
  _ ← reply ViaReply TAskChannel;
  mret (Next CHANNEL_NAME).

Definition get_channel_name (text : string) : PyM sess conv_next :=
  let channel_name := py_strip text in
  _ ← update_ud (set_channel_name channel_name);
  _ ← reply ViaReply (TAskLogo channel_name);
  mret (Next LOGO_IMAGE).

Definition get_page_type (text : string) : PyM sess conv_next :=
  let page_type := py_strip text in
  if negb (page_type_known page_type)
  then _ ← reply ViaReply TInvalidChoice; mret (Next PAGE_TYPE)
  else
    _ ← update_ud (set_page_type page_type);
    _ ← reply ViaReply (TAskFooter (default "" (dict_get LANDING_PAGE_TYPES page_type)));
    mret (Next FOOTER_CHOICE).

(** [create_landing_page]: the fields, then the pipeline, answering with
    new messages. *)
Definition create_landing_page : PyM sess unit :=
  u ← get_ud;
  on_world (flow GITHUB_REPO_URL GITHUB_PAT NETLIFY_API_TOKEN NETLIFY_SITE_ID ViaReply u).

Definition get_footer_choice (text : string) : PyM sess conv_next :=
  let choice := py_lower (py_strip text) in
  if bool_decide (choice ∈ ["yes"; "y"])
  then _ ← reply ViaReply TAskFooterText; mret (Next FOOTER_TEXT)
  else if bool_decide (choice ∈ ["no"; "n"])
  then _ ← update_ud (set_footer_text None); _ ← create_landing_page; mret END
  else _ ← reply ViaReply TReplyYesNo; mret (Next FOOTER_CHOICE).

Definition get_footer_text (text : string) : PyM sess conv_next :=
  let footer_text := py_strip text in
  _ ← update_ud (set_footer_text (Some footer_text));
  _ ← create_landing_page;
  mret END.

Definition cancel : PyM sess conv_next :=
  _ ← reply ViaReply TConversationCancelled;
  mret END.

(** Claim C17 (conv_reprompt): the conversation handlers absorb invalid
    input: a page type that is not a key of [LANDING_PAGE_TYPES] (after
    [strip]) and a footer answer that is not yes, y, no or n (after
    [strip] and [lower]) keep the conversation in its state, leave the
    dict and the working copy as they were, and only send the re-prompt. *)
Theorem invalid_text_reprompts text u w :
  (page_type_known (py_strip text) = false ->
   get_page_type text (u, w) = (ROk (Next PAGE_TYPE), (u, snd (say ViaReply TInvalidChoice w)))) /\
  (py_lower (py_strip text) ∉ ["yes"; "y"; "no"; "n"] ->
   get_footer_choice text (u, w) = (ROk (Next FOOTER_CHOICE), (u, snd (say ViaReply TReplyYesNo w)))).
Proof.
  split; intros Hin.
  - unfold get_page_type. rewrite Hin. reflexivity.
  - unfold get_footer_choice.
    rewrite !bool_decide_eq_false_2 by (intros ?; apply Hin; set_solver). reflexivity.
Qed.

End Handlers.

Lemma invalid_text_reprompts_witness :
  page_type_known (py_strip " 11 ") = false /\
  @get_page_type " 11 " (empty_ud, demo_world bare_dir_ws) =
    (ROk (Next PAGE_TYPE), (empty_ud, snd (say ViaReply TInvalidChoice (demo_world bare_dir_ws)))) /\
  py_lower (py_strip "Maybe") ∉ ["yes"; "y"; "no"; "n"] /\
  @get_footer_choice net_up gem_ok netlify_up "https://github.com/o/r" (Some "tok") (Some "t")
    (Some "s") "Maybe" (empty_ud, demo_world bare_dir_ws) =
    (ROk (Next FOOTER_CHOICE), (empty_ud, snd (say ViaReply TReplyYesNo (demo_world bare_dir_ws)))).
Proof.
  assert (Hp : page_type_known (py_strip " 11 ") = false) by reflexivity.
  assert (Hf : py_lower (py_strip "Maybe") ∉ ["yes"; "y"; "no"; "n"]) by (vm_compute; set_solver).
  split; [exact Hp|]. split; [exact (proj1 (@invalid_text_reprompts net_up gem_ok netlify_up
    "https://github.com/o/r" (Some "tok") (Some "t") (Some "s") " 11 " empty_ud
    (demo_world bare_dir_ws)) Hp)|].
  split; [exact Hf|]. exact (proj2 (@invalid_text_reprompts net_up gem_ok netlify_up
    "https://github.com/o/r" (Some "tok") (Some "t") (Some "s") "Maybe" empty_ud
    (demo_world bare_dir_ws)) Hf).
Defined.

End Conversation.
